(** * ChiseLLM testbench drivers: a shallow embedding and its properties

    The repository holds three Verilator testbench drivers:
    - [docs/4位加法器testbench.cpp]  (4-bit adder, combinational),
    - [tests/tb_SyncReset4BitReg.cpp] (4-bit register with synchronous reset),
    - [tests/tb_ten_timer.cpp]       (decimal counter with overflow).

    Each [main] is embedded as a program of a small state-and-writer monad.
    The state holds the model object, the verdict variable and the mutable
    integer local of the testbench; the writer collects, in program order,
    every operation performed on the model, on the waveform recorder, on
    [std::cout] and on the verdict variable.  The simulated circuit itself
    is generated code that is not part of the repository: it is a parameter
    ([Model]) and every theorem is stated for all models. *)

From Stdlib Require Import ZArith String Ascii Bool Lia DecimalString List.
Import ListNotations.
Open Scope string_scope.
Open Scope list_scope.
Open Scope Z_scope.

(** ** The model interface *)

(** Named public members of the generated model classes that the three
    testbenches touch. *)
Inductive Pin : Set :=
| clock | reset
| io_a | io_b | io_c
| io_reset | io_d | io_q
| io_enable | io_reset_count | io_count | io_overflow.

Definition Pin_eq_dec (p q : Pin) : {p = q} + {p <> q}.
Proof. decide equality. Defined.

(** A model object: the values of its public members and whatever else the
    generated class keeps (registers, previous clock level, ...). *)
Record Dut (I : Type) : Type := mkDut { pins : Pin -> Z; core : I }.
Arguments mkDut {I} _ _.
Arguments pins {I} _ _.
Arguments core {I} _.

(** [dut->p = v] *)
Definition set {I} (p : Pin) (v : Z) (d : Dut I) : Dut I :=
  mkDut (fun q => if Pin_eq_dec q p then v else pins d q) (core d).

(** What the generated header and library provide: the object built by
    [new V...] and the effect of [eval()] on it.  Nothing is assumed about
    either. *)
Record Model : Type := mkModel {
  core_t : Type;
  new_dut : Dut core_t;
  model_eval : Dut core_t -> Dut core_t
}.

(** Calls on the [VerilatedVcdC] recorder. *)
Inductive VcdCall : Set :=
| VcdTrace (levels : Z)      (* dut->trace(m_trace, levels) *)
| VcdOpen (file : string)    (* m_trace->open(file) *)
| VcdDump (t : Z)            (* m_trace->dump(t) *)
| VcdClose.                  (* m_trace->close() *)

(** What a run does, in program order. *)
Inductive Event (I : Type) : Type :=
| EvWrite (p : Pin) (v : Z)     (* dut->p = v *)
| EvEval (after : Dut I)        (* dut->eval(), with the object it leaves *)
| EvCout (line : string)        (* std::cout << ... << std::endl *)
| EvAssign (b : bool)           (* assignment to the verdict variable *)
| EvVcd (c : VcdCall)
| EvDelete.                     (* delete dut *)
Arguments EvWrite {I} _ _.
Arguments EvEval {I} _.
Arguments EvCout {I} _.
Arguments EvAssign {I} _.
Arguments EvVcd {I} _.
Arguments EvDelete {I}.

(** Program state: the model object, the verdict ([pass], called
    [test_passed] in the register testbench) and the one mutable integer a
    testbench keeps besides ([sim_time], [test_count]). *)
Record State (I L : Type) : Type := mkState {
  dut : Dut I;
  pass : bool;
  locals : L
}.
Arguments mkState {I L} _ _ _.
Arguments dut {I L} _.
Arguments pass {I L} _.
Arguments locals {I L} _.

(** ** The monad *)

Definition M (I L A : Type) : Type := State I L -> A * State I L * list (Event I).

Definition ret {I L A} (a : A) : M I L A := fun s => (a, s, []).

Definition bind {I L A B} (m : M I L A) (k : A -> M I L B) : M I L B :=
  fun s =>
    let '(a, s1, t1) := m s in
    let '(b, s2, t2) := k a s1 in
    (b, s2, t1 ++ t2).

Declare Scope tb_scope.
Delimit Scope tb_scope with tb.
Notation "x <- m ;; k" := (bind m (fun x => k))
  (at level 61, m at next level, right associativity) : tb_scope.
Notation "m ;; k" := (bind m (fun _ => k))
  (at level 61, right associativity) : tb_scope.
Open Scope tb_scope.

Definition value {I L A} (m : M I L A) (s : State I L) : A := fst (fst (m s)).
Definition exec {I L A} (m : M I L A) (s : State I L) : State I L := snd (fst (m s)).
Definition emit {I L A} (m : M I L A) (s : State I L) : list (Event I) := snd (m s).

(** Decimal rendering of an integer sent to [std::cout]. *)
Definition dec (z : Z) : string := NilZero.string_of_int (Z.to_int z).

(** The newline written as [\n] inside a string literal. *)
Definition nl : string := String (ascii_of_nat 10) "".

Section Primitives.
Context {I L : Type}.

(** [dut->p = v] *)
Definition write (p : Pin) (v : Z) : M I L unit :=
  fun s => (tt, mkState (set p v (dut s)) (pass s) (locals s), [EvWrite p v]).

(** [dut->eval()] *)
Definition eval (step : Dut I -> Dut I) : M I L unit :=
  fun s => let d := step (dut s) in
           (tt, mkState d (pass s) (locals s), [EvEval d]).

(** the value of [dut->p] *)
Definition read (p : Pin) : M I L Z :=
  fun s => (pins (dut s) p, s, []).

(** [std::cout << line << std::endl] *)
Definition cout (line : string) : M I L unit :=
  fun s => (tt, s, [EvCout line]).

(** [pass = b] *)
Definition assign_pass (b : bool) : M I L unit :=
  fun s => (tt, mkState (dut s) b (locals s), [EvAssign b]).

Definition get_pass : M I L bool := fun s => (pass s, s, []).

Definition get_local : M I L L := fun s => (locals s, s, []).

Definition set_local (l : L) : M I L unit :=
  fun s => (tt, mkState (dut s) (pass s) l, []).

Definition vcd (c : VcdCall) : M I L unit :=
  fun s => (tt, s, [EvVcd c]).

(** [delete dut] *)
Definition delete_dut : M I L unit := fun s => (tt, s, [EvDelete]).

(** [if (b) { m }] *)
Definition when (b : bool) (m : M I L unit) : M I L unit :=
  if b then m else ret tt.

(** The body run once for each element, in order. *)
Fixpoint foreach {X} (l : list X) (body : X -> M I L unit) : M I L unit :=
  match l with
  | [] => ret tt
  | x :: l' => body x ;; foreach l' body
  end.

(** The values [lo, lo+1, ..., hi-1]. *)
Definition zrange (lo hi : Z) : list Z :=
  map (fun k => lo + Z.of_nat k) (seq 0 (Z.to_nat (hi - lo))).

(** [for (int i = lo; i < hi; i++) body(i)], for a body that leaves [i] alone. *)
Definition for_ (lo hi : Z) (body : Z -> M I L unit) : M I L unit :=
  foreach (zrange lo hi) body.

End Primitives.

(** ** Reading a trace *)

(** Operations on the model and the recorder, without what they return. *)
Inductive Op : Set :=
| OpWrite (p : Pin) (v : Z)
| OpEval
| OpVcd (c : VcdCall)
| OpDelete.

Section Projections.
Context {I : Type}.

(** The model object after each [eval()], in order: the evaluation points. *)
Definition evals (t : list (Event I)) : list (Dut I) :=
  flat_map (fun e => match e with EvEval d => [d] | _ => [] end) t.

(** The lines written to [std::cout]. *)
Definition couts (t : list (Event I)) : list string :=
  flat_map (fun e => match e with EvCout l => [l] | _ => [] end) t.

(** The values assigned to the verdict variable. *)
Definition assigns (t : list (Event I)) : list bool :=
  flat_map (fun e => match e with EvAssign b => [b] | _ => [] end) t.

Definition ops (t : list (Event I)) : list Op :=
  flat_map (fun e => match e with
                     | EvWrite p v => [OpWrite p v]
                     | EvEval _ => [OpEval]
                     | EvVcd c => [OpVcd c]
                     | EvDelete => [OpDelete]
                     | _ => []
                     end) t.

(** The value of the verdict variable after the events [t], when it held
    [b0] before them. *)
Definition verdict_after (b0 : bool) (t : list (Event I)) : bool :=
  last (assigns t) b0.

End Projections.

(** The outcome of a whole run. *)
Record Run (I L : Type) : Type := mkRun {
  exit_code : Z;
  final : State I L;
  trace : list (Event I)
}.
Arguments mkRun {I L} _ _ _.
Arguments exit_code {I L} _.
Arguments final {I L} _.
Arguments trace {I L} _.

Definition run_main {I L} (main : M I L Z) (s0 : State I L) : Run I L :=
  mkRun (value main s0) (exec main s0) (emit main s0).

(** ** The adder testbench: docs/4位加法器testbench.cpp *)

Module Adder.

(** [(a + b) & 0xF] *)
Definition expected_c (a b : Z) : Z := Z.land (a + b) 15.

Definition diagnostic (a b got expected : Z) : string :=
  ("TEST FAILED: " ++ dec a ++ " + " ++ dec b ++ " => " ++ dec got
     ++ " (expected " ++ dec expected ++ ")")%string.

Section WithModel.
Variable Mdl : Model.

(** Lines 16-29: one input pair. *)
Definition body (a b : Z) : M (core_t Mdl) unit unit :=
  write io_a a ;;
  write io_b b ;;
  eval (model_eval Mdl) ;;
  let expected := expected_c a b in
  c <- read io_c ;;
  when (negb (c =? expected)) (
    got <- read io_c ;;
    cout (diagnostic a b got expected) ;;
    assign_pass false).

Definition main : M (core_t Mdl) unit Z :=
  for_ 0 16 (fun a => for_ 0 16 (fun b => body a b)) ;;
  p <- get_pass ;;
  when p (cout "--- TEST PASSED ---") ;;
  delete_dut ;;
  ret 0.

(** [VTestModule* top = new VTestModule; bool pass = true;] *)
Definition init : State (core_t Mdl) unit := mkState (new_dut Mdl) true tt.

Definition run : Run (core_t Mdl) unit := run_main main init.

End WithModel.

End Adder.

(** ** The register testbench: tests/tb_SyncReset4BitReg.cpp *)

Module Reg.

(** [struct TestCase { bool io_reset; uint8_t d; uint8_t expected_q; }];
    the fields carry a prefix because [io_reset] is also a pin. *)
Record TestCase : Set := mkCase {
  tc_io_reset : bool;
  tc_d : Z;
  tc_expected_q : Z
}.

Definition test_cases : list TestCase :=
  [ mkCase true 10 0      (* Reset active *)
  ; mkCase false 10 10    (* Reset inactive, load A *)
  ; mkCase true 5 0       (* Reset active again *)
  ; mkCase false 5 5 ].   (* Reset inactive, load 5 *)

Definition diagnostic (i expected got : Z) : string :=
  ("Error at test case " ++ dec i ++ ": expected " ++ dec expected
     ++ ", got " ++ dec got)%string.

Section WithModel.
Variable Mdl : Model.

(** [m_trace->dump(sim_time++)], [sim_time] being a [vluint64_t]. *)
Definition dump : M (core_t Mdl) Z unit :=
  t <- get_local ;;
  set_local ((t + 1) mod 2 ^ 64) ;;
  vcd (VcdDump t).

(** Lines 47-63: one test case. *)
Definition body (i : Z) : M (core_t Mdl) Z unit :=
  let tc := nth (Z.to_nat i) test_cases (mkCase false 0 0) in
  write io_reset (Z.b2z (tc_io_reset tc)) ;;
  write io_d (tc_d tc) ;;
  write clock 1 ;;
  eval (model_eval Mdl) ;;
  dump ;;
  write clock 0 ;;
  eval (model_eval Mdl) ;;
  dump ;;
  q <- read io_q ;;
  when (negb (q =? tc_expected_q tc)) (
    got <- read io_q ;;
    cout (diagnostic i (tc_expected_q tc) got) ;;
    assign_pass false).

(** Lines 14-32: the recorder is attached and the initial reset applied. *)
Definition prologue : M (core_t Mdl) Z unit :=
  vcd (VcdTrace 5) ;;
  vcd (VcdOpen "waveform.vcd") ;;
  (* Initial reset *)
  write clock 0 ;;
  write reset 1 ;;
  write io_reset 1 ;;
  eval (model_eval Mdl) ;;
  dump ;;
  write clock 1 ;;
  eval (model_eval Mdl) ;;
  dump ;;
  write clock 0 ;;
  write reset 0.

(** Lines 66-75. *)
Definition epilogue : M (core_t Mdl) Z Z :=
  vcd VcdClose ;;
  delete_dut ;;
  p <- get_pass ;;
  if p then cout "TEST PASSED" ;; ret 0
  else cout "TEST FAILED" ;; ret 1.

Definition main : M (core_t Mdl) Z Z :=
  prologue ;;
  for_ 0 4 body ;;
  epilogue.

(** [vluint64_t sim_time = 0; ... new VSyncReset4BitReg;
    bool test_passed = true;] *)
Definition init : State (core_t Mdl) Z := mkState (new_dut Mdl) true 0.

Definition run : Run (core_t Mdl) Z := run_main main init.

End WithModel.

End Reg.

(** ** The counter testbench: tests/tb_ten_timer.cpp *)

Module Timer.

Definition cycle_diagnostic (i expected got : Z) : string :=
  ("FAILED: Cycle " ++ dec i ++ " - Expected count=" ++ dec expected
     ++ ", Got=" ++ dec got)%string.

Definition progress (i count overflow : Z) : string :=
  ("  After cycle " ++ dec i ++ ": count=" ++ dec count
     ++ ", overflow=" ++ dec overflow)%string.

(** [(i + 1) % 10] on [int]. *)
Definition expected_count (i : Z) : Z := Z.rem (i + 1) 10.

Section WithModel.
Variable Mdl : Model.

(** One clock period: rising edge, evaluate, falling edge, evaluate. *)
Definition period : M (core_t Mdl) Z unit :=
  write clock 1 ;;
  eval (model_eval Mdl) ;;
  write clock 0 ;;
  eval (model_eval Mdl).

(** Lines 34-58: one cycle of Test 1. *)
Definition body1 (i : Z) : M (core_t Mdl) Z unit :=
  period ;;
  let expected := expected_count i in
  c <- read io_count ;;
  when (negb (c =? expected)) (
    got <- read io_count ;;
    cout (cycle_diagnostic i expected got) ;;
    assign_pass false) ;;
  when ((i <? 15) && (Z.rem i 5 =? 0)) (
    c <- read io_count ;;
    o <- read io_overflow ;;
    cout (progress i c o)) ;;
  n <- get_local ;;
  set_local (n + 1).

(** Lines 67-75: one cycle of Test 2. *)
Definition body2 (frozen_count : Z) (i : Z) : M (core_t Mdl) Z unit :=
  period ;;
  c <- read io_count ;;
  when (negb (c =? frozen_count)) (
    cout "FAILED: Count changed while enable=0" ;;
    assign_pass false).

(** Lines 107-116: one cycle of Test 4.  Reading a member has no effect,
    so the short-circuit of [&&] is not visible. *)
Definition body4 (i : Z) : M (core_t Mdl) Z unit :=
  period ;;
  c <- read io_count ;;
  o <- read io_overflow ;;
  when ((c =? 9) && negb (o =? 1)) (
    cout "FAILED: Overflow not set at count=9" ;;
    assign_pass false).

(** Lines 13-21. *)
Definition startup : M (core_t Mdl) Z unit :=
  write clock 0 ;;
  write reset 1 ;;
  write io_enable 0 ;;
  write io_reset_count 0 ;;
  eval (model_eval Mdl) ;;
  write reset 0 ;;
  eval (model_eval Mdl).

(** Lines 23-31. *)
Definition test1_setup : M (core_t Mdl) Z unit :=
  cout "=== Test 1: 基本计数测试 (0-9) ===" ;;
  write io_enable 1 ;;
  write io_reset_count 0 ;;
  c <- read io_count ;;
  when (negb (c =? 0)) (
    got <- read io_count ;;
    cout ("FAILED: Initial count should be 0, got " ++ dec got)%string ;;
    assign_pass false).

(** Lines 23-59. *)
Definition test1 : M (core_t Mdl) Z unit :=
  test1_setup ;;
  for_ 0 20 body1.

(** Lines 61-63. *)
Definition test2_setup : M (core_t Mdl) Z unit :=
  cout (nl ++ "=== Test 2: 使能控制测试 ===")%string ;;
  write io_enable 0.

(** Line 77. *)
Definition test2_report : M (core_t Mdl) Z unit :=
  c <- read io_count ;;
  cout ("  Enable=0, count frozen at " ++ dec c ++ " ✓")%string.

(** Lines 61-77. *)
Definition test2 : M (core_t Mdl) Z unit :=
  test2_setup ;;
  frozen_count <- read io_count ;;
  for_ 0 5 (body2 frozen_count) ;;
  test2_report.

(** Lines 79-94. *)
Definition test3 : M (core_t Mdl) Z unit :=
  cout (nl ++ "=== Test 3: 计数器复位测试 ===")%string ;;
  write io_enable 1 ;;
  write io_reset_count 1 ;;
  period ;;
  c <- read io_count ;;
  (if negb (c =? 0)
   then cout "FAILED: Reset didn't clear counter to 0" ;;
        assign_pass false
   else got <- read io_count ;;
        cout ("  Reset successful, count=" ++ dec got ++ " ✓")%string) ;;
  write io_reset_count 0.

(** Lines 96-104: the counter is brought back to 0. *)
Definition test4_setup : M (core_t Mdl) Z unit :=
  cout (nl ++ "=== Test 4: 溢出信号测试 ===")%string ;;
  write io_reset_count 1 ;;
  period ;;
  write io_reset_count 0.

(** Lines 96-118. *)
Definition test4 : M (core_t Mdl) Z unit :=
  test4_setup ;;
  for_ 0 10 body4 ;;
  cout "  Overflow signal works correctly ✓".

(** Lines 120-131. *)
Definition finish : M (core_t Mdl) Z Z :=
  cout (nl ++ "========================================")%string ;;
  p <- get_pass ;;
  (if p
   then cout "TEST PASSED - All tests successful!" ;;
        n <- get_local ;;
        cout ("Total test cycles: " ++ dec n)%string
   else cout "TEST FAILED - Some tests failed") ;;
  cout "========================================" ;;
  delete_dut ;;
  p <- get_pass ;;
  ret (if p then 0 else 1).

Definition main : M (core_t Mdl) Z Z :=
  startup ;; test1 ;; test2 ;; test3 ;; test4 ;; finish.

(** [new VTenTimer; bool pass = true; int test_count = 0;] *)
Definition init : State (core_t Mdl) Z := mkState (new_dut Mdl) true 0.

Definition run : Run (core_t Mdl) Z := run_main main init.

End WithModel.

End Timer.

(** ** Concrete models *)

Module Models.

Definition blank {I} (c : I) : Dut I := mkDut (fun _ => 0) c.

Definition nonzero (z : Z) : bool := negb (z =? 0).

(** A 4-bit adder. *)
Definition good_adder : Model :=
  mkModel unit (blank tt)
    (fun d => set io_c ((pins d io_a + pins d io_b) mod 16) d).

(** An adder whose output is stuck at 0. *)
Definition stuck_adder : Model :=
  mkModel unit (blank tt) (fun d => set io_c 0 d).

(** Sequential models keep the clock level seen by the previous [eval()]
    and one register; the register is updated on a rising edge. *)
Definition rising (d : Dut (Z * Z)) : bool :=
  (fst (core d) =? 0) && nonzero (pins d clock).

Definition clocked (next : Dut (Z * Z) -> Z) (out : Z -> Dut (Z * Z) -> Pin -> Z)
    (d : Dut (Z * Z)) : Dut (Z * Z) :=
  let r := if rising d then next d else snd (core d) in
  mkDut (out r d) (pins d clock, r).

(** A 4-bit register with synchronous reset. *)
Definition reg_next (d : Dut (Z * Z)) : Z :=
  if nonzero (pins d reset) || nonzero (pins d io_reset) then 0
  else (pins d io_d) mod 16.

Definition good_reg : Model :=
  mkModel (Z * Z) (blank (0, 0))
    (clocked reg_next (fun r d p => if Pin_eq_dec p io_q then r else pins d p)).

(** A register that ignores [io_reset]. *)
Definition noreset_reg : Model :=
  mkModel (Z * Z) (blank (0, 0))
    (clocked (fun d => if nonzero (pins d reset) then 0 else (pins d io_d) mod 16)
             (fun r d p => if Pin_eq_dec p io_q then r else pins d p)).

(** A decimal counter. *)
Definition timer_next (d : Dut (Z * Z)) : Z :=
  let c := snd (core d) in
  if nonzero (pins d reset) || nonzero (pins d io_reset_count) then 0
  else if nonzero (pins d io_enable) then (if c =? 9 then 0 else c + 1)
  else c.

Definition timer_out (overflow : Z -> Dut (Z * Z) -> Z) (r : Z) (d : Dut (Z * Z))
    (p : Pin) : Z :=
  if Pin_eq_dec p io_count then r
  else if Pin_eq_dec p io_overflow then overflow r d
  else pins d p.

(** Overflow while enabled at count 9. *)
Definition good_timer : Model :=
  mkModel (Z * Z) (blank (0, 0))
    (clocked timer_next
       (timer_out (fun r d => Z.b2z (nonzero (pins d io_enable) && (r =? 9))))).

(** Overflow asserted on every cycle. *)
Definition always_overflow_timer : Model :=
  mkModel (Z * Z) (blank (0, 0))
    (clocked timer_next (timer_out (fun _ _ => 1))).

(** Overflow never asserted. *)
Definition never_overflow_timer : Model :=
  mkModel (Z * Z) (blank (0, 0))
    (clocked timer_next (timer_out (fun _ _ => 0))).

(** A counter that counts modulo 16. *)
Definition hex_timer : Model :=
  mkModel (Z * Z) (blank (0, 0))
    (clocked (fun d =>
                let c := snd (core d) in
                if nonzero (pins d reset) || nonzero (pins d io_reset_count) then 0
                else if nonzero (pins d io_enable) then (c + 1) mod 16 else c)
       (timer_out (fun r d => Z.b2z (nonzero (pins d io_enable) && (r =? 9))))).

End Models.

(** * Properties *)

(** ** Lists *)

(** The second element of each consecutive pair: for a list of evaluation
    points made of whole clock periods, the objects left by the evaluation
    after each falling edge. *)
Fixpoint falling {A} (l : list A) : list A :=
  match l with
  | _ :: d :: r => d :: falling r
  | _ => []
  end.

(** The [len] evaluation points from index [from] on. *)
Definition window {A} (from len : nat) (l : list A) : list A :=
  firstn len (skipn from l).

Lemma window_app {A} (from len : nat) (a b c : list A) :
  length a = from -> length b = len -> window from len (a ++ b ++ c) = b.
Proof.
  intros Ha Hb. unfold window.
  rewrite skipn_app, <- Ha, skipn_all, Nat.sub_diag. cbn [skipn app].
  rewrite firstn_app, <- Hb, firstn_all, Nat.sub_diag. cbn [firstn].
  apply app_nil_r.
Qed.

Lemma last_app_cons {A} (l1 l2 : list A) (x d d' : A) :
  last (l1 ++ x :: l2) d = last (x :: l2) d'.
Proof.
  induction l1 as [|y l1 IH].
  - cbn [app]. revert x. induction l2 as [|z l2 IH2]; intros x; [reflexivity|].
    change (last (x :: z :: l2) d) with (last (z :: l2) d).
    change (last (x :: z :: l2) d') with (last (z :: l2) d'). apply IH2.
  - cbn [app]. destruct (l1 ++ x :: l2) as [|z r] eqn:E.
    + destruct l1; discriminate.
    + exact IH.
Qed.

Lemma last_app_r {A} (l1 l2 : list A) (d : A) :
  last (l1 ++ l2) d = last l2 (last l1 d).
Proof.
  destruct l2 as [|x l2].
  - rewrite app_nil_r. reflexivity.
  - apply last_app_cons.
Qed.

Lemma flat_map_flat_map {A B C} (f : A -> list B) (g : B -> list C) (l : list A) :
  flat_map g (flat_map f l) = flat_map (fun x => flat_map g (f x)) l.
Proof.
  induction l as [|x l IH]; [reflexivity|].
  cbn [flat_map]. rewrite flat_map_app, IH. reflexivity.
Qed.

(** ** The monad and the trace projections *)

Section MonadFacts.
Context {I L : Type}.
Implicit Types s : State I L.

Lemma emit_bind {A B} (m : M I L A) (k : A -> M I L B) s :
  emit (bind m k) s = emit m s ++ emit (k (value m s)) (exec m s).
Proof.
  unfold emit, value, exec, bind.
  destruct (m s) as [[a s1] t1]. cbn [fst snd].
  destruct (k a s1) as [[b s2] t2]. reflexivity.
Qed.

Lemma exec_bind {A B} (m : M I L A) (k : A -> M I L B) s :
  exec (bind m k) s = exec (k (value m s)) (exec m s).
Proof.
  unfold value, exec, bind.
  destruct (m s) as [[a s1] t1]. cbn [fst snd].
  destruct (k a s1) as [[b s2] t2]. reflexivity.
Qed.

Lemma value_bind {A B} (m : M I L A) (k : A -> M I L B) s :
  value (bind m k) s = value (k (value m s)) (exec m s).
Proof.
  unfold value, exec, bind.
  destruct (m s) as [[a s1] t1]. cbn [fst snd].
  destruct (k a s1) as [[b s2] t2]. reflexivity.
Qed.

Lemma emit_when (b : bool) (m : M I L unit) s :
  emit (when b m) s = if b then emit m s else [].
Proof. destruct b; reflexivity. Qed.

Lemma exec_when (b : bool) (m : M I L unit) s :
  exec (when b m) s = if b then exec m s else s.
Proof. destruct b; reflexivity. Qed.

Lemma emit_foreach_cons {X} (x : X) l (body : X -> M I L unit) s :
  emit (foreach (x :: l) body) s
  = emit (body x) s ++ emit (foreach l body) (exec (body x) s).
Proof. cbn [foreach]. apply emit_bind. Qed.

Lemma exec_foreach_cons {X} (x : X) l (body : X -> M I L unit) s :
  exec (foreach (x :: l) body) s = exec (foreach l body) (exec (body x) s).
Proof. cbn [foreach]. apply exec_bind. Qed.

Lemma evals_app (a b : list (Event I)) : evals (a ++ b) = evals a ++ evals b.
Proof. apply flat_map_app. Qed.

Lemma couts_app (a b : list (Event I)) : couts (a ++ b) = couts a ++ couts b.
Proof. apply flat_map_app. Qed.

Lemma assigns_app (a b : list (Event I)) : assigns (a ++ b) = assigns a ++ assigns b.
Proof. apply flat_map_app. Qed.

Lemma ops_app (a b : list (Event I)) : ops (a ++ b) = ops a ++ ops b.
Proof. apply flat_map_app. Qed.

Lemma verdict_after_app (b0 : bool) (a b : list (Event I)) :
  verdict_after b0 (a ++ b) = verdict_after (verdict_after b0 a) b.
Proof. unfold verdict_after. rewrite assigns_app. apply last_app_r. Qed.

End MonadFacts.

(** ** Discipline on the verdict variable

    A program keeps the discipline when the verdict it leaves is the last
    value it assigned (or the one it found) and every value it assigns is
    [false].  The property is closed under the constructs the testbenches
    are written with. *)

Section Verdict.
Context {I L : Type}.

Definition Disciplined {A} (m : M I L A) : Prop :=
  forall s, pass (exec m s) = verdict_after (pass s) (emit m s)
            /\ Forall (fun b => b = false) (assigns (emit m s)).

Lemma disc_silent {A} (m : M I L A) :
  (forall s, pass (exec m s) = pass s /\ assigns (emit m s) = []) ->
  Disciplined m.
Proof.
  intros H s. destruct (H s) as [Hp Ha]. unfold verdict_after.
  rewrite Ha, Hp. split; [reflexivity | constructor].
Qed.

Lemma disc_ret {A} (a : A) : Disciplined (@ret I L A a).
Proof. apply disc_silent. intros s. split; reflexivity. Qed.

Lemma disc_write p v : Disciplined (@write I L p v).
Proof. apply disc_silent. intros s. split; reflexivity. Qed.

Lemma disc_eval f : Disciplined (@eval I L f).
Proof. apply disc_silent. intros s. split; reflexivity. Qed.

Lemma disc_read p : Disciplined (@read I L p).
Proof. apply disc_silent. intros s. split; reflexivity. Qed.

Lemma disc_cout l : Disciplined (@cout I L l).
Proof. apply disc_silent. intros s. split; reflexivity. Qed.

Lemma disc_get_pass : Disciplined (@get_pass I L).
Proof. apply disc_silent. intros s. split; reflexivity. Qed.

Lemma disc_get_local : Disciplined (@get_local I L).
Proof. apply disc_silent. intros s. split; reflexivity. Qed.

Lemma disc_set_local l : Disciplined (@set_local I L l).
Proof. apply disc_silent. intros s. split; reflexivity. Qed.

Lemma disc_vcd c : Disciplined (@vcd I L c).
Proof. apply disc_silent. intros s. split; reflexivity. Qed.

Lemma disc_delete : Disciplined (@delete_dut I L).
Proof. apply disc_silent. intros s. split; reflexivity. Qed.

Lemma disc_assign_false : Disciplined (@assign_pass I L false).
Proof. intros s. split; [reflexivity | repeat constructor]. Qed.

Lemma disc_bind {A B} (m : M I L A) (k : A -> M I L B) :
  Disciplined m -> (forall a, Disciplined (k a)) -> Disciplined (bind m k).
Proof.
  intros Hm Hk s. rewrite exec_bind, emit_bind, verdict_after_app, assigns_app.
  destruct (Hm s) as [Hm1 Hm2].
  destruct (Hk (value m s) (exec m s)) as [Hk1 Hk2].
  split.
  - rewrite Hk1, Hm1. reflexivity.
  - apply Forall_app. split; assumption.
Qed.

Lemma disc_if {A} (b : bool) (m1 m2 : M I L A) :
  Disciplined m1 -> Disciplined m2 -> Disciplined (if b then m1 else m2).
Proof. destruct b; auto. Qed.

Lemma disc_when (b : bool) (m : M I L unit) :
  Disciplined m -> Disciplined (when b m).
Proof. intros H. unfold when. apply disc_if; [exact H | apply disc_ret]. Qed.

Lemma disc_foreach {X} (l : list X) (body : X -> M I L unit) :
  (forall x, Disciplined (body x)) -> Disciplined (foreach l body).
Proof.
  intros H. induction l as [|x l IH]; cbn [foreach].
  - apply disc_ret.
  - apply disc_bind; auto.
Qed.

Lemma disc_for lo hi (body : Z -> M I L unit) :
  (forall i, Disciplined (body i)) -> Disciplined (for_ lo hi body).
Proof. apply disc_foreach. Qed.

End Verdict.

Create HintDb discipline.
#[export] Hint Resolve disc_ret disc_write disc_eval disc_read disc_cout
  disc_get_pass disc_get_local disc_set_local disc_vcd disc_delete
  disc_assign_false : discipline.

Ltac discipline_step :=
  lazymatch goal with
  | |- Disciplined (bind _ _) => apply disc_bind; [ | intros ?; cbv beta ]
  | |- Disciplined (when _ _) => apply disc_when
  | |- Disciplined (for_ _ _ _) => apply disc_for; intros ?; cbv beta
  | |- Disciplined (foreach _ _) => apply disc_foreach; intros ?; cbv beta
  | |- Disciplined (if _ then _ else _) => apply disc_if
  | |- Disciplined (let _ := _ in _) => cbv zeta
  | |- Disciplined _ => solve [ auto with discipline ]
  end.

Ltac discipline := repeat discipline_step.

(** ** What a run does to the model does not depend on the model

    A driver is the part of a program that acts on the model and the
    recorder: from the integer local it yields the operations performed and
    the new local.  [Drives m f] says that [m] performs the operations of
    [f] whatever the model object and the verdict are. *)

Section Drive.
Context {I L : Type}.

Definition Driver : Type := L -> list Op * L.

Definition d_skip : Driver := fun l => ([], l).
Definition d_op (o : Op) : Driver := fun l => ([o], l).
Definition d_set (l' : L) : Driver := fun _ => ([], l').
Definition d_get (g : L -> Driver) : Driver := fun l => g l l.
Definition d_seq (f g : Driver) : Driver :=
  fun l => let r1 := f l in
           let r2 := g (snd r1) in
           (fst r1 ++ fst r2, snd r2).

Fixpoint d_foreach {X} (xs : list X) (f : X -> Driver) : Driver :=
  match xs with
  | [] => d_skip
  | x :: xs' => d_seq (f x) (d_foreach xs' f)
  end.

Definition Drives {A} (m : M I L A) (f : Driver) : Prop :=
  forall s : State I L,
    ops (emit m s) = fst (f (locals s)) /\ locals (exec m s) = snd (f (locals s)).

(** No operation on the model or the recorder, and the local unchanged. *)
Definition Silent {A} (m : M I L A) : Prop := Drives m d_skip.

Lemma silent_ret {A} (a : A) : Silent (@ret I L A a).
Proof. intros s. split; reflexivity. Qed.

Lemma silent_read p : Silent (@read I L p).
Proof. intros s. split; reflexivity. Qed.

Lemma silent_cout l : Silent (@cout I L l).
Proof. intros s. split; reflexivity. Qed.

Lemma silent_assign b : Silent (@assign_pass I L b).
Proof. intros s. split; reflexivity. Qed.

Lemma silent_get_pass : Silent (@get_pass I L).
Proof. intros s. split; reflexivity. Qed.

Lemma silent_get_local : Silent (@get_local I L).
Proof. intros s. split; reflexivity. Qed.

Lemma drives_write p v : Drives (@write I L p v) (d_op (OpWrite p v)).
Proof. intros s. split; reflexivity. Qed.

Lemma drives_eval f : Drives (@eval I L f) (d_op OpEval).
Proof. intros s. split; reflexivity. Qed.

Lemma drives_vcd c : Drives (@vcd I L c) (d_op (OpVcd c)).
Proof. intros s. split; reflexivity. Qed.

Lemma drives_delete : Drives (@delete_dut I L) (d_op OpDelete).
Proof. intros s. split; reflexivity. Qed.

Lemma drives_set_local l : Drives (@set_local I L l) (d_set l).
Proof. intros s. split; reflexivity. Qed.

Lemma drives_bind {A B} (m : M I L A) (k : A -> M I L B) f g :
  Drives m f -> (forall a, Drives (k a) g) -> Drives (bind m k) (d_seq f g).
Proof.
  intros Hm Hk s. rewrite emit_bind, exec_bind, ops_app.
  destruct (Hm s) as [Hm1 Hm2].
  destruct (Hk (value m s) (exec m s)) as [Hk1 Hk2].
  unfold d_seq. cbv zeta. cbn [fst snd]. rewrite Hk1, Hk2, Hm1, Hm2.
  split; reflexivity.
Qed.

Lemma drives_get {B} (k : L -> M I L B) g :
  (forall l, Drives (k l) (g l)) -> Drives (bind get_local k) (d_get g).
Proof.
  intros Hk s. rewrite emit_bind, exec_bind.
  change (exec get_local s) with s. change (value get_local s) with (locals s).
  change (emit get_local s) with (@nil (Event I)). cbn [app].
  apply (Hk (locals s) s).
Qed.

Lemma silent_bind {A B} (m : M I L A) (k : A -> M I L B) :
  Silent m -> (forall a, Silent (k a)) -> Silent (bind m k).
Proof.
  intros Hm Hk s. destruct (drives_bind m k _ _ Hm Hk s) as [H1 H2].
  split; assumption.
Qed.

Lemma silent_if {A} (b : bool) (m1 m2 : M I L A) :
  Silent m1 -> Silent m2 -> Silent (if b then m1 else m2).
Proof. destruct b; auto. Qed.

Lemma silent_when (b : bool) (m : M I L unit) : Silent m -> Silent (when b m).
Proof. intros H. unfold when. apply silent_if; [exact H | apply silent_ret]. Qed.

Lemma drives_silent {A} (m : M I L A) : Silent m -> Drives m d_skip.
Proof. exact (fun H => H). Qed.

Lemma drives_foreach {X} (l : list X) (body : X -> M I L unit) f :
  (forall x, Drives (body x) (f x)) -> Drives (foreach l body) (d_foreach l f).
Proof.
  intros H. induction l as [|x l IH]; cbn [foreach d_foreach].
  - apply silent_ret.
  - apply drives_bind; auto.
Qed.

Lemma drives_for lo hi (body : Z -> M I L unit) f :
  (forall i, Drives (body i) (f i)) ->
  Drives (for_ lo hi body) (d_foreach (zrange lo hi) f).
Proof. apply drives_foreach. Qed.

End Drive.

Create HintDb silent.
#[export] Hint Resolve silent_ret silent_read silent_cout silent_assign
  silent_get_pass silent_get_local : silent.

Ltac silent_step :=
  lazymatch goal with
  | |- Silent (bind _ _) => apply silent_bind; [ | intros ?; cbv beta ]
  | |- Silent (when _ _) => apply silent_when
  | |- Silent (if _ then _ else _) => apply silent_if
  | |- Silent (let _ := _ in _) => cbv zeta
  | |- Silent _ => solve [ auto with silent ]
  end.

Ltac drive_step :=
  lazymatch goal with
  | |- Drives (bind get_local _) _ => eapply drives_get; intros ?; cbv beta
  | |- Drives (bind _ _) _ => eapply drives_bind; [ | intros ?; cbv beta ]
  | |- Drives (when _ _) _ => apply drives_silent
  | |- Drives (if _ then _ else _) _ => apply drives_silent
  | |- Drives (for_ _ _ _) _ => eapply drives_for; intros ?; cbv beta
  | |- Drives (let _ := _ in _) _ => cbv zeta
  | |- Drives (write _ _) _ => apply drives_write
  | |- Drives (eval _) _ => apply drives_eval
  | |- Drives (vcd _) _ => apply drives_vcd
  | |- Drives delete_dut _ => apply drives_delete
  | |- Drives (set_local _) _ => apply drives_set_local
  | |- Drives _ _ => apply drives_silent
  | |- Silent _ => silent_step
  end.

Ltac drive := repeat drive_step.

(** ** Loops whose body ends on an evaluation

    [sel] picks, among the evaluation points of a loop, the one each
    iteration ends on: every point for the adder, every second point for a
    loop of clock periods. *)

Section Loop.
Context {I L X : Type}.
Variable body : X -> M I L unit.
Variable sel : list (Dut I) -> list (Dut I).
Hypothesis sel_nil : sel [] = [].
Hypothesis sel_body : forall x s r,
  sel (evals (emit (body x) s) ++ r) = dut (exec (body x) s) :: sel r.

Lemma foreach_sel_length (l : list X) (s : State I L) :
  length (sel (evals (emit (foreach l body) s))) = length l.
Proof.
  revert s. induction l as [|x l IH]; intros s.
  - cbn. rewrite sel_nil. reflexivity.
  - rewrite emit_foreach_cons, evals_app, sel_body. cbn [length].
    rewrite IH. reflexivity.
Qed.

Lemma foreach_last_dut (l : list X) (s : State I L) :
  dut (exec (foreach l body) s)
  = last (sel (evals (emit (foreach l body) s))) (dut s).
Proof.
  revert s. induction l as [|x l IH]; intros s.
  - cbn. rewrite sel_nil. reflexivity.
  - rewrite emit_foreach_cons, exec_foreach_cons, evals_app, sel_body, IH.
    destruct (sel (evals (emit (foreach l body) (exec (body x) s)))) as [|d r];
      [reflexivity|].
    apply (last_app_cons [dut (exec (body x) s)] r d).
Qed.

(** Any projection [P] of the trace that, for one iteration, is a function
    [R] of the stimulus and of the point the iteration ends on, is for the
    loop the concatenation of [R] over the stimuli and those points. *)
Lemma foreach_proj {Y} (P : list (Event I) -> list Y) (R : X -> Dut I -> list Y) :
  P [] = [] ->
  (forall a b, P (a ++ b) = P a ++ P b) ->
  (forall x s, P (emit (body x) s) = R x (dut (exec (body x) s))) ->
  forall (l : list X) (s : State I L),
    P (emit (foreach l body) s)
    = flat_map (fun xd => R (fst xd) (snd xd))
        (combine l (sel (evals (emit (foreach l body) s)))).
Proof.
  intros Pnil Papp HR l. induction l as [|x l IH]; intros s.
  - cbn. exact Pnil.
  - rewrite emit_foreach_cons, Papp, evals_app, sel_body, HR, IH. reflexivity.
Qed.

End Loop.

Lemma falling_pair {A} (d1 d2 : A) (r : list A) :
  falling ([d1; d2] ++ r) = d2 :: falling r.
Proof. reflexivity. Qed.

Lemma falling_length {A} (l : list A) (n : nat) :
  length l = (2 * n)%nat -> length (falling l) = n.
Proof.
  revert l. induction n as [|n IH]; intros l H.
  - destruct l; [reflexivity | discriminate].
  - destruct l as [|a [|b r]]; try (cbn in H; lia).
    cbn [falling length]. f_equal. apply IH. cbn in H. lia.
Qed.

Lemma last_clears {A} (f : A -> bool) (l : list A) (b0 : bool) :
  last (flat_map (fun x => if f x then [] else [false]) l) b0 = b0 && forallb f l.
Proof.
  revert b0. induction l as [|x l IH]; intros b0; cbn [flat_map forallb].
  - cbn. rewrite andb_true_r. reflexivity.
  - rewrite last_app_r, IH. destruct (f x); cbn [last].
    + reflexivity.
    + rewrite andb_false_r. reflexivity.
Qed.

Lemma length_clears {A} (f : A -> bool) (l : list A) :
  length (flat_map (fun x => if f x then [] else [false]) l)
  = length (filter (fun x => negb (f x)) l).
Proof.
  induction l as [|x l IH]; [reflexivity|].
  cbn [flat_map filter]. rewrite length_app, IH. destruct (f x); reflexivity.
Qed.

(** ** Nested loops *)

Section Flatten.
Context {I L : Type}.

Lemma foreach_app {X} (l1 l2 : list X) (body : X -> M I L unit) s :
  foreach (l1 ++ l2) body s = (foreach l1 body ;; foreach l2 body) s.
Proof.
  revert s. induction l1 as [|x l1 IH]; intros s; cbn [app foreach].
  - unfold bind, ret. destruct (foreach l2 body s) as [[[] s2] t2]. reflexivity.
  - unfold bind at 1 2 3. destruct (body x s) as [[a s1] t1]. rewrite IH.
    unfold bind. destruct (foreach l1 body s1) as [[b s2] t2].
    destruct (foreach l2 body s2) as [[c s3] t3]. rewrite app_assoc. reflexivity.
Qed.

Lemma foreach_map {X Y} (g : X -> Y) (l : list X) (body : Y -> M I L unit) s :
  foreach (map g l) body s = foreach l (fun x => body (g x)) s.
Proof.
  revert s. induction l as [|x l IH]; intros s; cbn [map foreach]; [reflexivity|].
  unfold bind. destruct (body (g x) s) as [[a s1] t1]. rewrite IH. reflexivity.
Qed.

(** Two nested loops visit the pairs of [list_prod], the inner index
    running fastest. *)
Lemma foreach_nested {X Y} (la : list X) (lb : list Y) (f : X -> Y -> M I L unit) s :
  foreach la (fun a => foreach lb (fun b => f a b)) s
  = foreach (list_prod la lb) (fun ab => f (fst ab) (snd ab)) s.
Proof.
  revert s. induction la as [|a la IH]; intros s; cbn [list_prod foreach];
    [reflexivity|].
  rewrite foreach_app. unfold bind. rewrite foreach_map. cbn [fst snd].
  destruct (foreach lb (fun x => f a x) s) as [[u s1] t1]. rewrite IH. reflexivity.
Qed.

End Flatten.

(** Symbolic execution of a straight-line piece of program. *)

Section Branches.
Context {I L : Type}.
Implicit Types s : State I L.

Lemma emit_if {A} (b : bool) (m1 m2 : M I L A) s :
  emit (if b then m1 else m2) s = if b then emit m1 s else emit m2 s.
Proof. destruct b; reflexivity. Qed.

Lemma exec_if {A} (b : bool) (m1 m2 : M I L A) s :
  exec (if b then m1 else m2) s = if b then exec m1 s else exec m2 s.
Proof. destruct b; reflexivity. Qed.

Lemma value_if {A} (b : bool) (m1 m2 : M I L A) s :
  value (if b then m1 else m2) s = if b then value m1 s else value m2 s.
Proof. destruct b; reflexivity. Qed.

End Branches.

Ltac run_body :=
  cbv zeta;
  repeat (rewrite ?emit_bind, ?exec_bind, ?value_bind, ?emit_when, ?exec_when,
            ?emit_if, ?exec_if, ?value_if);
  cbn [emit exec value write eval read cout assign_pass get_pass get_local
       set_local vcd delete_dut ret fst snd dut pass locals].

Ltac project := rewrite ?evals_app, ?couts_app, ?assigns_app, ?ops_app.

Lemma foreach_evals_length {I L X} (body : X -> M I L unit) (k : nat) :
  (forall x s, length (evals (emit (body x) s)) = k) ->
  forall l s, length (evals (emit (foreach l body) s)) = (length l * k)%nat.
Proof.
  intros H l. induction l as [|x l IH]; intros s.
  - reflexivity.
  - rewrite emit_foreach_cons, evals_app, length_app, H, IH. reflexivity.
Qed.

Lemma run_verdict {I L} (main : M I L Z) (s0 : State I L) :
  Disciplined main ->
  pass (final (run_main main s0)) = verdict_after (pass s0) (trace (run_main main s0))
  /\ Forall (fun b => b = false) (assigns (trace (run_main main s0))).
Proof. intros H. exact (H s0). Qed.

(** ** The adder testbench *)

(** The input pairs in the order the two loops visit them. *)
Definition adder_pairs : list (Z * Z) := list_prod (zrange 0 16) (zrange 0 16).

(** What the testbench does to the model for one pair. *)
Definition adder_vector_ops (ab : Z * Z) : list Op :=
  [OpWrite io_a (fst ab); OpWrite io_b (snd ab); OpEval].

Definition adder_script : list Op :=
  flat_map adder_vector_ops adder_pairs ++ [OpDelete].

(** The comparison of line 22 at the evaluation point [d]. *)
Definition adder_matches {I} (ab : Z * Z) (d : Dut I) : bool :=
  pins d io_c =? Adder.expected_c (fst ab) (snd ab).

Definition adder_report {I} (ab : Z * Z) (d : Dut I) : list string :=
  if adder_matches ab d then []
  else [Adder.diagnostic (fst ab) (snd ab) (pins d io_c)
          (Adder.expected_c (fst ab) (snd ab))].

Lemma adder_pairs_length : length adder_pairs = 256%nat.
Proof. reflexivity. Qed.

Lemma zrange_spec (lo hi x : Z) : In x (zrange lo hi) <-> lo <= x < hi.
Proof.
  unfold zrange. rewrite in_map_iff. split.
  - intros [k [Hk Hin]]. apply in_seq in Hin. lia.
  - intros H. exists (Z.to_nat (x - lo)). split; [lia|].
    apply in_seq. lia.
Qed.

Lemma zrange_NoDup (lo hi : Z) : NoDup (zrange lo hi).
Proof.
  unfold zrange. apply NoDup_map_NoDup_ForallPairs; [|apply seq_NoDup].
  intros a b _ _ H. lia.
Qed.

Lemma NoDup_list_prod {A B} (l : list A) (l' : list B) :
  NoDup l -> NoDup l' -> NoDup (list_prod l l').
Proof.
  intros Hl Hl'. induction Hl as [|x l Hx Hl IH]; cbn [list_prod]; [constructor|].
  apply NoDup_app.
  - apply NoDup_map_NoDup_ForallPairs; [|exact Hl'].
    intros a b _ _ H. congruence.
  - exact IH.
  - intros [a b] Hin1 Hin2. apply in_map_iff in Hin1.
    destruct Hin1 as [y [Hy _]]. injection Hy as -> ->.
    apply in_prod_iff in Hin2. tauto.
Qed.

Lemma adder_pairs_spec (a b : Z) :
  In (a, b) adder_pairs <-> 0 <= a < 16 /\ 0 <= b < 16.
Proof. unfold adder_pairs. rewrite in_prod_iff, !zrange_spec. tauto. Qed.

Lemma adder_pairs_NoDup : NoDup adder_pairs.
Proof. apply NoDup_list_prod; apply zrange_NoDup. Qed.

(** On 4-bit operands the mask is the remainder modulo 16. *)
Lemma expected_c_mod (a b : Z) : Adder.expected_c a b = (a + b) mod 16.
Proof. unfold Adder.expected_c. apply (Z.land_ones (a + b) 4). lia. Qed.

Section AdderFacts.
Variable Mdl : Model.

Lemma adder_ops : ops (trace (Adder.run Mdl)) = adder_script.
Proof.
  assert (H : exists F, Drives (Adder.main Mdl) F /\ fst (F tt) = adder_script).
  { eexists. split.
    - unfold Adder.main, Adder.body. drive.
    - vm_compute. reflexivity. }
  destruct H as [F [HF HS]]. rewrite <- HS. apply (HF (Adder.init Mdl)).
Qed.

Definition adder_vec (ab : Z * Z) : M (core_t Mdl) unit unit :=
  Adder.body Mdl (fst ab) (snd ab).

Definition adder_loop : M (core_t Mdl) unit unit := foreach adder_pairs adder_vec.

Lemma adder_vec_sel ab s r :
  evals (emit (adder_vec ab) s) ++ r = dut (exec (adder_vec ab) s) :: r.
Proof.
  unfold adder_vec, Adder.body. run_body. rewrite !evals_app.
  destruct (negb _); reflexivity.
Qed.

Lemma adder_vec_couts ab s :
  couts (emit (adder_vec ab) s) = adder_report ab (dut (exec (adder_vec ab) s)).
Proof.
  unfold adder_vec, Adder.body, adder_report, adder_matches. run_body.
  match goal with |- context [negb ?c] => destruct c eqn:E end;
    cbn [negb dut couts flat_map app]; rewrite ?E; reflexivity.
Qed.

Lemma adder_vec_assigns ab s :
  assigns (emit (adder_vec ab) s)
  = if adder_matches ab (dut (exec (adder_vec ab) s)) then [] else [false].
Proof.
  unfold adder_vec, Adder.body, adder_matches. run_body.
  match goal with |- context [negb ?c] => destruct c eqn:E end;
    cbn [negb dut assigns flat_map app]; rewrite ?E; reflexivity.
Qed.

Lemma adder_main_loop s :
  Adder.main Mdl s
  = (adder_loop ;; p <- get_pass ;; when p (cout "--- TEST PASSED ---") ;;
     delete_dut ;; ret 0) s.
Proof.
  unfold Adder.main, adder_loop, for_, bind at 1 5.
  rewrite (foreach_nested (zrange 0 16) (zrange 0 16) (Adder.body Mdl) s).
  reflexivity.
Qed.

Lemma adder_trace :
  trace (Adder.run Mdl)
  = emit adder_loop (Adder.init Mdl)
    ++ (if pass (exec adder_loop (Adder.init Mdl))
        then [EvCout "--- TEST PASSED ---"] else [])
    ++ [EvDelete].
Proof.
  unfold Adder.run, run_main, trace. unfold emit at 1. rewrite adder_main_loop.
  change (snd ?x)
    with (emit (adder_loop ;; p <- get_pass ;; when p (cout "--- TEST PASSED ---") ;;
                delete_dut ;; ret 0) (Adder.init Mdl)).
  run_body. destruct (pass _); reflexivity.
Qed.

Lemma adder_exit : exit_code (Adder.run Mdl) = 0.
Proof.
  unfold Adder.run, run_main, exit_code. unfold value. rewrite adder_main_loop.
  change (fst (fst ?x))
    with (value (adder_loop ;; p <- get_pass ;; when p (cout "--- TEST PASSED ---") ;;
                 delete_dut ;; ret 0) (Adder.init Mdl)).
  rewrite !value_bind. reflexivity.
Qed.

Lemma adder_final_pass :
  pass (final (Adder.run Mdl)) = pass (exec adder_loop (Adder.init Mdl)).
Proof.
  unfold Adder.run, run_main, final. unfold exec at 1. rewrite adder_main_loop.
  change (snd (fst ?x))
    with (exec (adder_loop ;; p <- get_pass ;; when p (cout "--- TEST PASSED ---") ;;
                delete_dut ;; ret 0) (Adder.init Mdl)).
  run_body.
  destruct (pass (exec adder_loop (Adder.init Mdl))) eqn:E; cbn [pass]; exact E.
Qed.

Lemma adder_evals :
  evals (trace (Adder.run Mdl)) = evals (emit adder_loop (Adder.init Mdl)).
Proof.
  rewrite adder_trace, !evals_app. destruct (pass _); cbn; apply app_nil_r.
Qed.

Lemma adder_evals_length : length (evals (trace (Adder.run Mdl))) = 256%nat.
Proof.
  rewrite adder_evals. unfold adder_loop.
  apply (foreach_sel_length adder_vec (fun l => l) eq_refl adder_vec_sel).
Qed.

Lemma adder_couts :
  couts (trace (Adder.run Mdl))
  = flat_map (fun xd => adder_report (fst xd) (snd xd))
      (combine adder_pairs (evals (trace (Adder.run Mdl))))
    ++ (if pass (final (Adder.run Mdl)) then ["--- TEST PASSED ---"] else []).
Proof.
  rewrite adder_final_pass, adder_evals, adder_trace, !couts_app. unfold adder_loop.
  rewrite (foreach_proj adder_vec (fun l => l) adder_vec_sel couts adder_report
             eq_refl couts_app adder_vec_couts).
  f_equal. destruct (pass _); reflexivity.
Qed.

Lemma adder_assigns :
  assigns (trace (Adder.run Mdl))
  = flat_map (fun xd => if adder_matches (fst xd) (snd xd) then [] else [false])
      (combine adder_pairs (evals (trace (Adder.run Mdl)))).
Proof.
  rewrite adder_evals, adder_trace, !assigns_app. unfold adder_loop.
  rewrite (foreach_proj adder_vec (fun l => l) adder_vec_sel assigns
             (fun ab d => if adder_matches ab d then [] else [false])
             eq_refl assigns_app adder_vec_assigns).
  destruct (pass _); cbn; apply app_nil_r.
Qed.

Lemma adder_disciplined : Disciplined (Adder.main Mdl).
Proof. unfold Adder.main, Adder.body. discipline. Qed.

Lemma adder_pass :
  pass (final (Adder.run Mdl))
  = forallb (fun xd => adder_matches (fst xd) (snd xd))
      (combine adder_pairs (evals (trace (Adder.run Mdl)))).
Proof.
  destruct (run_verdict (Adder.main Mdl) (Adder.init Mdl) adder_disciplined) as [H _].
  fold (Adder.run Mdl) in H. rewrite H. unfold verdict_after. rewrite adder_assigns.
  cbn [Adder.init pass].
  rewrite (last_clears (fun xd => adder_matches (fst xd) (snd xd))). reflexivity.
Qed.

End AdderFacts.

(** ** The register testbench *)

(** The test cases with their index [i]. *)
Definition reg_indexed_cases : list (Z * Reg.TestCase) :=
  combine (zrange 0 4) Reg.test_cases.

(** What the testbench does to the model and the recorder for test case
    [i]: the inputs, then one clock period, each evaluation followed by a
    dump. *)
Definition reg_case_ops (it : Z * Reg.TestCase) : list Op :=
  [ OpWrite io_reset (Z.b2z (Reg.tc_io_reset (snd it)));
    OpWrite io_d (Reg.tc_d (snd it));
    OpWrite clock 1; OpEval; OpVcd (VcdDump (2 + 2 * fst it));
    OpWrite clock 0; OpEval; OpVcd (VcdDump (3 + 2 * fst it)) ].

(** Lines 14-32: the recorder is attached and the initial reset applied. *)
Definition reg_prologue_ops : list Op :=
  [ OpVcd (VcdTrace 5); OpVcd (VcdOpen "waveform.vcd");
    OpWrite clock 0; OpWrite reset 1; OpWrite io_reset 1;
    OpEval; OpVcd (VcdDump 0);
    OpWrite clock 1; OpEval; OpVcd (VcdDump 1);
    OpWrite clock 0; OpWrite reset 0 ].

Definition reg_script : list Op :=
  reg_prologue_ops
  ++ flat_map reg_case_ops reg_indexed_cases
  ++ [ OpVcd VcdClose; OpDelete ].

(** The comparison of line 58 for a test case at the evaluation point [d]. *)
Definition reg_matches {I} (it : Z * Reg.TestCase) (d : Dut I) : bool :=
  pins d io_q =? Reg.tc_expected_q (snd it).

Definition reg_report {I} (it : Z * Reg.TestCase) (d : Dut I) : list string :=
  if reg_matches it d then []
  else [Reg.diagnostic (fst it) (Reg.tc_expected_q (snd it)) (pins d io_q)].

(** Of the ten evaluation points of a run, the four that the comparisons
    read: the one after the falling edge of each test case's clock period. *)
Definition reg_samples {I} (es : list (Dut I)) : list (Dut I) :=
  falling (window 2 8 es).

Definition reg_summary (p : bool) : string :=
  if p then "TEST PASSED" else "TEST FAILED".

Section RegFacts.
Variable Mdl : Model.

Lemma reg_ops : ops (trace (Reg.run Mdl)) = reg_script.
Proof.
  assert (H : exists F, Drives (Reg.main Mdl) F /\ fst (F 0) = reg_script).
  { eexists. split.
    - unfold Reg.main, Reg.prologue, Reg.epilogue, Reg.body, Reg.dump. drive.
    - vm_compute. reflexivity. }
  destruct H as [F [HF HS]]. rewrite <- HS. apply (HF (Reg.init Mdl)).
Qed.

Lemma reg_disciplined : Disciplined (Reg.main Mdl).
Proof.
  unfold Reg.main, Reg.prologue, Reg.epilogue, Reg.body, Reg.dump. discipline.
Qed.

Definition reg_case (i : Z) : Reg.TestCase :=
  nth (Z.to_nat i) Reg.test_cases (Reg.mkCase false 0 0).

Lemma reg_body_sel i s r :
  falling (evals (emit (Reg.body Mdl i) s) ++ r)
  = dut (exec (Reg.body Mdl i) s) :: falling r.
Proof.
  unfold Reg.body, Reg.dump. run_body. project.
  destruct (negb _); reflexivity.
Qed.

Lemma reg_body_evals i s : length (evals (emit (Reg.body Mdl i) s)) = 2%nat.
Proof.
  unfold Reg.body, Reg.dump. run_body. project.
  destruct (negb _); reflexivity.
Qed.

Lemma reg_body_couts i s :
  couts (emit (Reg.body Mdl i) s)
  = reg_report (i, reg_case i) (dut (exec (Reg.body Mdl i) s)).
Proof.
  unfold Reg.body, Reg.dump, reg_report, reg_matches, reg_case. run_body.
  match goal with |- context [negb ?c] => destruct c eqn:E end;
    cbn [negb dut couts flat_map app]; rewrite ?E; reflexivity.
Qed.

Lemma reg_body_assigns i s :
  assigns (emit (Reg.body Mdl i) s)
  = if reg_matches (i, reg_case i) (dut (exec (Reg.body Mdl i) s))
    then [] else [false].
Proof.
  unfold Reg.body, Reg.dump, reg_matches, reg_case. run_body.
  match goal with |- context [negb ?c] => destruct c eqn:E end;
    cbn [negb dut assigns flat_map app]; rewrite ?E; reflexivity.
Qed.

Definition reg_loop : M (core_t Mdl) Z unit := for_ 0 4 (Reg.body Mdl).

(** The state in which the loop over the test cases starts, and the one it
    leaves. *)
Definition reg_at_loop : State (core_t Mdl) Z :=
  exec (Reg.prologue Mdl) (Reg.init Mdl).

Definition reg_after_loop : State (core_t Mdl) Z := exec reg_loop reg_at_loop.

Lemma reg_trace :
  trace (Reg.run Mdl)
  = emit (Reg.prologue Mdl) (Reg.init Mdl)
    ++ emit reg_loop reg_at_loop
    ++ emit (Reg.epilogue Mdl) reg_after_loop.
Proof.
  unfold Reg.run, run_main, Reg.main. cbn [trace].
  rewrite (emit_bind (Reg.prologue Mdl)), (emit_bind (for_ 0 4 (Reg.body Mdl))).
  unfold reg_after_loop, reg_loop, reg_at_loop. reflexivity.
Qed.

Lemma reg_prologue_evals s :
  exists dA dB, evals (emit (Reg.prologue Mdl) s) = [dA; dB].
Proof. do 2 eexists. unfold Reg.prologue, Reg.dump. run_body. reflexivity. Qed.

Lemma reg_prologue_couts s : couts (emit (Reg.prologue Mdl) s) = [].
Proof. unfold Reg.prologue, Reg.dump. run_body. reflexivity. Qed.

Lemma reg_prologue_assigns s : assigns (emit (Reg.prologue Mdl) s) = [].
Proof. unfold Reg.prologue, Reg.dump. run_body. reflexivity. Qed.

Lemma reg_epilogue_emit s :
  emit (Reg.epilogue Mdl) s
  = [EvVcd VcdClose; EvDelete; EvCout (reg_summary (pass s))].
Proof.
  unfold Reg.epilogue, reg_summary. run_body. destruct (pass s); reflexivity.
Qed.

Lemma reg_epilogue_pass s : pass (exec (Reg.epilogue Mdl) s) = pass s.
Proof. unfold Reg.epilogue. run_body. destruct (pass s) eqn:E; exact E. Qed.

Lemma reg_epilogue_value s :
  value (Reg.epilogue Mdl) s = if pass s then 0 else 1.
Proof. unfold Reg.epilogue. run_body. destruct (pass s); reflexivity. Qed.

Lemma reg_loop_evals_length s : length (evals (emit reg_loop s)) = 8%nat.
Proof.
  unfold reg_loop, for_.
  apply (foreach_evals_length (Reg.body Mdl) 2 reg_body_evals (zrange 0 4) s).
Qed.

Lemma reg_evals :
  exists dA dB,
    evals (trace (Reg.run Mdl)) = [dA; dB] ++ evals (emit reg_loop reg_at_loop) ++ [].
Proof.
  destruct (reg_prologue_evals (Reg.init Mdl)) as [dA [dB H]].
  exists dA, dB. rewrite reg_trace. project. rewrite H, reg_epilogue_emit.
  reflexivity.
Qed.

Lemma reg_evals_length : length (evals (trace (Reg.run Mdl))) = 10%nat.
Proof.
  destruct reg_evals as [dA [dB H]]. rewrite H, !length_app, reg_loop_evals_length.
  reflexivity.
Qed.

Lemma reg_samples_loop :
  reg_samples (evals (trace (Reg.run Mdl)))
  = falling (evals (emit reg_loop reg_at_loop)).
Proof.
  destruct reg_evals as [dA [dB H]]. rewrite H. unfold reg_samples. f_equal.
  apply window_app; [reflexivity | apply reg_loop_evals_length].
Qed.

Lemma reg_samples_length :
  length (reg_samples (evals (trace (Reg.run Mdl)))) = 4%nat.
Proof.
  rewrite reg_samples_loop. unfold reg_loop, for_.
  apply (foreach_sel_length (Reg.body Mdl) falling eq_refl reg_body_sel (zrange 0 4)).
Qed.

Lemma reg_final_pass : pass (final (Reg.run Mdl)) = pass reg_after_loop.
Proof.
  unfold Reg.run, run_main, Reg.main. cbn [final].
  rewrite (exec_bind (Reg.prologue Mdl)), (exec_bind (for_ 0 4 (Reg.body Mdl))).
  unfold reg_after_loop, reg_loop, reg_at_loop. apply reg_epilogue_pass.
Qed.

Lemma reg_exit : exit_code (Reg.run Mdl) = if pass (final (Reg.run Mdl)) then 0 else 1.
Proof.
  rewrite reg_final_pass.
  unfold Reg.run, run_main, Reg.main. cbn [exit_code].
  rewrite (value_bind (Reg.prologue Mdl)), (value_bind (for_ 0 4 (Reg.body Mdl))).
  unfold reg_after_loop, reg_loop, reg_at_loop. apply reg_epilogue_value.
Qed.

Lemma reg_index {Y} (R : Z * Reg.TestCase -> Dut (core_t Mdl) -> list Y) l :
  flat_map (fun xd => R (fst xd, reg_case (fst xd)) (snd xd)) (combine (zrange 0 4) l)
  = flat_map (fun xd => R (fst xd) (snd xd)) (combine reg_indexed_cases l).
Proof. destruct l as [|a [|b [|c [|d l]]]]; reflexivity. Qed.

Lemma reg_couts :
  couts (trace (Reg.run Mdl))
  = flat_map (fun xd => reg_report (fst xd) (snd xd))
      (combine reg_indexed_cases (reg_samples (evals (trace (Reg.run Mdl)))))
    ++ [reg_summary (pass (final (Reg.run Mdl)))].
Proof.
  rewrite reg_samples_loop, reg_final_pass, reg_trace. project.
  rewrite reg_prologue_couts, reg_epilogue_emit. unfold reg_loop, for_.
  rewrite (foreach_proj (Reg.body Mdl) falling reg_body_sel couts
             (fun i d => reg_report (i, reg_case i) d)
             eq_refl couts_app reg_body_couts).
  rewrite (reg_index reg_report). reflexivity.
Qed.

Lemma reg_assigns :
  assigns (trace (Reg.run Mdl))
  = flat_map (fun xd => if reg_matches (fst xd) (snd xd) then [] else [false])
      (combine reg_indexed_cases (reg_samples (evals (trace (Reg.run Mdl))))).
Proof.
  rewrite reg_samples_loop, reg_trace. project.
  rewrite reg_prologue_assigns, reg_epilogue_emit. unfold reg_loop, for_.
  rewrite (foreach_proj (Reg.body Mdl) falling reg_body_sel assigns
             (fun i d => if reg_matches (i, reg_case i) d then [] else [false])
             eq_refl assigns_app reg_body_assigns).
  rewrite (reg_index (fun it d => if reg_matches it d then [] else [false])).
  cbn [assigns flat_map app]. apply app_nil_r.
Qed.

Lemma reg_pass :
  pass (final (Reg.run Mdl))
  = forallb (fun xd => reg_matches (fst xd) (snd xd))
      (combine reg_indexed_cases (reg_samples (evals (trace (Reg.run Mdl))))).
Proof.
  destruct (run_verdict (Reg.main Mdl) (Reg.init Mdl) reg_disciplined) as [H _].
  fold (Reg.run Mdl) in H. rewrite H. unfold verdict_after. rewrite reg_assigns.
  cbn [Reg.init pass].
  rewrite (last_clears (fun xd => reg_matches (fst xd) (snd xd))). reflexivity.
Qed.

End RegFacts.

(** ** The counter testbench *)

Definition count_of {I} (d : Dut I) : Z := pins d io_count.
Definition overflow_of {I} (d : Dut I) : Z := pins d io_overflow.

(** One clock period as the model sees it. *)
Definition timer_period_ops : list Op :=
  [OpWrite clock 1; OpEval; OpWrite clock 0; OpEval].

Definition timer_script : list Op :=
  [ OpWrite clock 0; OpWrite reset 1; OpWrite io_enable 0;
    OpWrite io_reset_count 0; OpEval; OpWrite reset 0; OpEval ]
  ++ [ OpWrite io_enable 1; OpWrite io_reset_count 0 ]
  ++ concat (repeat timer_period_ops 20)
  ++ [ OpWrite io_enable 0 ]
  ++ concat (repeat timer_period_ops 5)
  ++ [ OpWrite io_enable 1; OpWrite io_reset_count 1 ]
  ++ timer_period_ops
  ++ [ OpWrite io_reset_count 0 ]
  ++ [ OpWrite io_reset_count 1 ]
  ++ timer_period_ops
  ++ [ OpWrite io_reset_count 0 ]
  ++ concat (repeat timer_period_ops 10)
  ++ [ OpDelete ].

(** The 76 evaluation points of a run, by the comparison that reads them:
    point 1 (the second evaluation of the start-up) for the initial check,
    then the point after the falling edge of each period of Test 1 (points
    3, 5, ..., 41), of Test 2 (43, ..., 51), of Test 3 (53) and of the loop
    of Test 4 (57, ..., 75).  Points 54 and 55 are the period that brings the
    counter back to 0 before Test 4; nothing reads them. *)
Definition timer_initial {A} (es : list A) : list A := window 1 1 es.
Definition timer_test1_samples {A} (es : list A) : list A := falling (window 2 40 es).
Definition timer_test2_samples {A} (es : list A) : list A := falling (window 42 10 es).
Definition timer_test3_samples {A} (es : list A) : list A := falling (window 52 2 es).
Definition timer_test4_samples {A} (es : list A) : list A := falling (window 56 20 es).

(** [frozen_count]: the count read when Test 2 starts, that is at the last
    evaluation point of Test 1. *)
Definition timer_frozen {I} (es : list (Dut I)) : Z :=
  last (map count_of (timer_test1_samples es)) 0.

(** The comparisons, as "the observed value is the expected one". *)
Definition timer_ok0 {I} (d : Dut I) : bool := count_of d =? 0.
Definition timer_ok1 {I} (id : Z * Dut I) : bool :=
  count_of (snd id) =? Timer.expected_count (fst id).
Definition timer_ok2 {I} (frozen_count : Z) (d : Dut I) : bool :=
  count_of d =? frozen_count.
Definition timer_ok3 {I} (d : Dut I) : bool := count_of d =? 0.
Definition timer_ok4 {I} (d : Dut I) : bool :=
  negb ((count_of d =? 9) && negb (overflow_of d =? 1)).

(** The outcome of the 37 comparisons of a run, in program order. *)
Definition timer_checks {I} (es : list (Dut I)) : list bool :=
  map timer_ok0 (timer_initial es)
  ++ map timer_ok1 (combine (zrange 0 20) (timer_test1_samples es))
  ++ map (timer_ok2 (timer_frozen es)) (timer_test2_samples es)
  ++ map timer_ok3 (timer_test3_samples es)
  ++ map timer_ok4 (timer_test4_samples es).

(** The assignments a list of comparison outcomes gives rise to. *)
Definition clears (bs : list bool) : list bool :=
  flat_map (fun b : bool => if b then [] else [false]) bs.

Lemma clears_app (a b : list bool) : clears (a ++ b) = clears a ++ clears b.
Proof. apply flat_map_app. Qed.

Lemma clears_map {A} (f : A -> bool) (l : list A) :
  clears (map f l) = flat_map (fun x => if f x then [] else [false]) l.
Proof.
  induction l as [|x l IH]; [reflexivity|].
  cbn [map flat_map]. unfold clears in *. cbn [flat_map]. rewrite IH. reflexivity.
Qed.

Lemma last_clears_all (bs : list bool) (b0 : bool) :
  last (clears bs) b0 = b0 && forallb (fun b => b) bs.
Proof. apply (last_clears (fun b : bool => b)). Qed.

(** What the testbench prints at each comparison. *)
Definition timer_rep0 {I} (d : Dut I) : list string :=
  if timer_ok0 d then []
  else [("FAILED: Initial count should be 0, got " ++ dec (count_of d))%string].

Definition timer_rep1 {I} (id : Z * Dut I) : list string :=
  (if timer_ok1 id then []
   else [Timer.cycle_diagnostic (fst id) (Timer.expected_count (fst id))
           (count_of (snd id))])
  ++ (if (fst id <? 15) && (Z.rem (fst id) 5 =? 0)
      then [Timer.progress (fst id) (count_of (snd id)) (overflow_of (snd id))]
      else []).

Definition timer_rep2 {I} (frozen_count : Z) (d : Dut I) : list string :=
  if timer_ok2 frozen_count d then [] else ["FAILED: Count changed while enable=0"].

Definition timer_rep3 {I} (d : Dut I) : list string :=
  if timer_ok3 d
  then [("  Reset successful, count=" ++ dec (count_of d) ++ " ✓")%string]
  else ["FAILED: Reset didn't clear counter to 0"].

Definition timer_rep4 {I} (d : Dut I) : list string :=
  if timer_ok4 d then [] else ["FAILED: Overflow not set at count=9"].

Definition timer_summary (p : bool) (test_count : Z) : list string :=
  if p then ["TEST PASSED - All tests successful!";
             ("Total test cycles: " ++ dec test_count)%string]
  else ["TEST FAILED - Some tests failed"].

Definition timer_hdr1 : string := "=== Test 1: 基本计数测试 (0-9) ===".
Definition timer_hdr2 : string := (nl ++ "=== Test 2: 使能控制测试 ===")%string.
Definition timer_hdr3 : string := (nl ++ "=== Test 3: 计数器复位测试 ===")%string.
Definition timer_hdr4 : string := (nl ++ "=== Test 4: 溢出信号测试 ===")%string.
Definition timer_frozen_line (c : Z) : string :=
  ("  Enable=0, count frozen at " ++ dec c ++ " ✓")%string.
Definition timer_rule : string := "========================================".

(** Everything a run prints, from its evaluation points and its verdict. *)
Definition timer_lines {I} (es : list (Dut I)) (p : bool) : list string :=
  (timer_hdr1 :: flat_map timer_rep0 (timer_initial es)
     ++ flat_map timer_rep1 (combine (zrange 0 20) (timer_test1_samples es)))
  ++ (timer_hdr2 :: flat_map (timer_rep2 (timer_frozen es)) (timer_test2_samples es)
        ++ [timer_frozen_line (last (map count_of (timer_test2_samples es)) 0)])
  ++ (timer_hdr3 :: flat_map timer_rep3 (timer_test3_samples es))
  ++ (timer_hdr4 :: flat_map timer_rep4 (timer_test4_samples es)
        ++ ["  Overflow signal works correctly ✓"])
  ++ ((nl ++ timer_rule)%string :: timer_summary p 20 ++ [timer_rule]).

Section TimerBodies.
Variable Mdl : Model.
Implicit Types s : State (core_t Mdl) Z.

Lemma timer_ops : ops (trace (Timer.run Mdl)) = timer_script.
Proof.
  assert (H : exists F, Drives (Timer.main Mdl) F /\ fst (F 0) = timer_script).
  { eexists. split.
    - unfold Timer.main, Timer.startup, Timer.test1, Timer.test1_setup,
        Timer.test2, Timer.test2_setup, Timer.test2_report, Timer.test3,
        Timer.test4, Timer.test4_setup, Timer.finish, Timer.body1,
        Timer.body2, Timer.body4, Timer.period.
      drive.
    - vm_compute. reflexivity. }
  destruct H as [F [HF HS]]. rewrite <- HS. apply (HF (Timer.init Mdl)).
Qed.

Lemma timer_test_count : locals (final (Timer.run Mdl)) = 20.
Proof.
  assert (H : exists F, Drives (Timer.main Mdl) F /\ snd (F 0) = 20).
  { eexists. split.
    - unfold Timer.main, Timer.startup, Timer.test1, Timer.test1_setup,
        Timer.test2, Timer.test2_setup, Timer.test2_report, Timer.test3,
        Timer.test4, Timer.test4_setup, Timer.finish, Timer.body1,
        Timer.body2, Timer.body4, Timer.period.
      drive.
    - vm_compute. reflexivity. }
  destruct H as [F [HF HS]]. rewrite <- HS. apply (HF (Timer.init Mdl)).
Qed.

Lemma timer_disciplined : Disciplined (Timer.main Mdl).
Proof.
  unfold Timer.main, Timer.startup, Timer.test1, Timer.test1_setup,
    Timer.test2, Timer.test2_setup, Timer.test2_report, Timer.test3,
    Timer.test4, Timer.test4_setup, Timer.finish, Timer.body1,
    Timer.body2, Timer.body4, Timer.period.
  discipline.
Qed.

(** *** One iteration of each loop *)

Lemma timer_body1_sel i s r :
  falling (evals (emit (Timer.body1 Mdl i) s) ++ r)
  = dut (exec (Timer.body1 Mdl i) s) :: falling r.
Proof.
  unfold Timer.body1, Timer.period. run_body. project.
  destruct (negb _); destruct (_ && _); reflexivity.
Qed.

Lemma timer_body1_evals i s : length (evals (emit (Timer.body1 Mdl i) s)) = 2%nat.
Proof.
  unfold Timer.body1, Timer.period. run_body. project.
  destruct (negb _); destruct (_ && _); reflexivity.
Qed.

Lemma timer_body1_couts i s :
  couts (emit (Timer.body1 Mdl i) s)
  = timer_rep1 (i, dut (exec (Timer.body1 Mdl i) s)).
Proof.
  unfold Timer.body1, Timer.period, timer_rep1, timer_ok1, count_of, overflow_of.
  run_body. cbn [fst snd].
  destruct (_ =? Timer.expected_count i) eqn:E; destruct (_ && _);
    cbn [negb dut couts flat_map app]; rewrite ?E; reflexivity.
Qed.

Lemma timer_body1_assigns i s :
  assigns (emit (Timer.body1 Mdl i) s)
  = if timer_ok1 (i, dut (exec (Timer.body1 Mdl i) s)) then [] else [false].
Proof.
  unfold Timer.body1, Timer.period, timer_ok1, count_of.
  run_body. cbn [fst snd].
  destruct (_ =? Timer.expected_count i) eqn:E; destruct (_ && _);
    cbn [negb dut assigns flat_map app]; rewrite ?E; reflexivity.
Qed.

Lemma timer_body2_sel f i s r :
  falling (evals (emit (Timer.body2 Mdl f i) s) ++ r)
  = dut (exec (Timer.body2 Mdl f i) s) :: falling r.
Proof.
  unfold Timer.body2, Timer.period. run_body. project.
  destruct (negb _); reflexivity.
Qed.

Lemma timer_body2_evals f i s :
  length (evals (emit (Timer.body2 Mdl f i) s)) = 2%nat.
Proof.
  unfold Timer.body2, Timer.period. run_body. project.
  destruct (negb _); reflexivity.
Qed.

Lemma timer_body2_couts f i s :
  couts (emit (Timer.body2 Mdl f i) s)
  = timer_rep2 f (dut (exec (Timer.body2 Mdl f i) s)).
Proof.
  unfold Timer.body2, Timer.period, timer_rep2, timer_ok2, count_of. run_body.
  destruct (_ =? f) eqn:E;
    cbn [negb dut couts flat_map app]; rewrite ?E; reflexivity.
Qed.

Lemma timer_body2_assigns f i s :
  assigns (emit (Timer.body2 Mdl f i) s)
  = if timer_ok2 f (dut (exec (Timer.body2 Mdl f i) s)) then [] else [false].
Proof.
  unfold Timer.body2, Timer.period, timer_ok2, count_of. run_body.
  destruct (_ =? f) eqn:E;
    cbn [negb dut assigns flat_map app]; rewrite ?E; reflexivity.
Qed.

Lemma timer_body4_sel i s r :
  falling (evals (emit (Timer.body4 Mdl i) s) ++ r)
  = dut (exec (Timer.body4 Mdl i) s) :: falling r.
Proof.
  unfold Timer.body4, Timer.period. run_body. project.
  destruct (_ && _); reflexivity.
Qed.

Lemma timer_body4_evals i s : length (evals (emit (Timer.body4 Mdl i) s)) = 2%nat.
Proof.
  unfold Timer.body4, Timer.period. run_body. project.
  destruct (_ && _); reflexivity.
Qed.

Lemma timer_body4_couts i s :
  couts (emit (Timer.body4 Mdl i) s)
  = timer_rep4 (dut (exec (Timer.body4 Mdl i) s)).
Proof.
  unfold Timer.body4, Timer.period, timer_rep4, timer_ok4, count_of, overflow_of.
  run_body.
  destruct (_ && _) eqn:E;
    cbn [negb dut couts flat_map app]; rewrite ?E; reflexivity.
Qed.

Lemma timer_body4_assigns i s :
  assigns (emit (Timer.body4 Mdl i) s)
  = if timer_ok4 (dut (exec (Timer.body4 Mdl i) s)) then [] else [false].
Proof.
  unfold Timer.body4, Timer.period, timer_ok4, count_of, overflow_of.
  run_body.
  destruct (_ && _) eqn:E;
    cbn [negb dut assigns flat_map app]; rewrite ?E; reflexivity.
Qed.

End TimerBodies.

Lemma pins_set_other {I} (p q : Pin) (v : Z) (d : Dut I) :
  p <> q -> pins (set q v d) p = pins d p.
Proof.
  intros H. unfold set. cbn [pins]. destruct (Pin_eq_dec p q); [contradiction|reflexivity].
Qed.

Lemma last_map_nonempty {A B} (g : A -> B) (l : list A) (d : A) (z : B) :
  l <> [] -> g (last l d) = last (map g l) z.
Proof.
  induction l as [|x l IH]; intros H; [contradiction|].
  destruct l as [|y l]; [reflexivity|].
  change (g (last (y :: l) d) = last (map g (y :: l)) z). apply IH. discriminate.
Qed.

Lemma window_app2 {A} (from len : nat) (a1 a2 b c : list A) :
  (length a1 + length a2)%nat = from -> length b = len ->
  window from len (a1 ++ a2 ++ b ++ c) = b.
Proof.
  intros Ha Hb. rewrite (app_assoc a1 a2). apply window_app; [|exact Hb].
  rewrite length_app. exact Ha.
Qed.

Lemma window_app3 {A} (from len : nat) (a1 a2 a3 b c : list A) :
  (length a1 + length a2 + length a3)%nat = from -> length b = len ->
  window from len (a1 ++ a2 ++ a3 ++ b ++ c) = b.
Proof.
  intros Ha Hb. rewrite (app_assoc a1 a2). apply window_app2; [|exact Hb].
  rewrite length_app. exact Ha.
Qed.

Lemma window_app4 {A} (from len : nat) (a1 a2 a3 a4 b c : list A) :
  (length a1 + length a2 + length a3 + length a4)%nat = from -> length b = len ->
  window from len (a1 ++ a2 ++ a3 ++ a4 ++ b ++ c) = b.
Proof.
  intros Ha Hb. rewrite (app_assoc a1 a2). apply window_app3; [|exact Hb].
  rewrite length_app. exact Ha.
Qed.

Lemma flat_map_combine_snd {A B C} (g : B -> list C) (l1 : list A) (l2 : list B) :
  length l2 = length l1 ->
  flat_map (fun xd => g (snd xd)) (combine l1 l2) = flat_map g l2.
Proof.
  revert l2. induction l1 as [|x l1 IH]; intros [|y l2] H; try discriminate H;
    [reflexivity|].
  cbn [combine flat_map snd]. rewrite IH; [reflexivity|]. injection H as H. exact H.
Qed.

Ltac timer_windows :=
  unfold timer_frozen, timer_initial, timer_test1_samples, timer_test2_samples,
    timer_test3_samples, timer_test4_samples;
  match goal with
  | HL1 : length ?E1 = 40%nat, HL2 : length ?E2 = 10%nat, HL4 : length ?E4 = 20%nat
    |- context [window _ _ ([?dA; ?d0] ++ ?E1 ++ ?E2 ++ [?d3a; ?d3; ?r1; ?r2] ++ ?E4 ++ [])] =>
      change (window 1 1 ([dA; d0] ++ E1 ++ E2 ++ [d3a; d3; r1; r2] ++ E4 ++ []))
        with [d0];
      rewrite (window_app 2 40 [dA; d0] E1 (E2 ++ [d3a; d3; r1; r2] ++ E4 ++ [])
                 eq_refl HL1);
      rewrite (window_app2 42 10 [dA; d0] E1 E2 ([d3a; d3; r1; r2] ++ E4 ++ []))
        by (rewrite ?HL1; trivial);
      change (window 52 2 ([dA; d0] ++ E1 ++ E2 ++ [d3a; d3; r1; r2] ++ E4 ++ []))
        with (window 52 2 ([dA; d0] ++ E1 ++ E2 ++ [d3a; d3] ++ [r1; r2] ++ E4 ++ []));
      rewrite (window_app3 52 2 [dA; d0] E1 E2 [d3a; d3] ([r1; r2] ++ E4 ++ []))
        by (rewrite ?HL1, ?HL2; trivial);
      rewrite (window_app4 56 20 [dA; d0] E1 E2 [d3a; d3; r1; r2] E4 [])
        by (rewrite ?HL1, ?HL2; trivial)
  end.

Section TimerPhases.
Variable Mdl : Model.
Implicit Types s : State (core_t Mdl) Z.

Definition timer_loop1 : M (core_t Mdl) Z unit := for_ 0 20 (Timer.body1 Mdl).
Definition timer_loop2 (f : Z) : M (core_t Mdl) Z unit := for_ 0 5 (Timer.body2 Mdl f).
Definition timer_loop4 : M (core_t Mdl) Z unit := for_ 0 10 (Timer.body4 Mdl).

(** *** The loops *)

Lemma timer_loop1_length s : length (evals (emit timer_loop1 s)) = 40%nat.
Proof.
  exact (foreach_evals_length (Timer.body1 Mdl) 2 (timer_body1_evals Mdl) (zrange 0 20) s).
Qed.

Lemma timer_loop2_length f s : length (evals (emit (timer_loop2 f) s)) = 10%nat.
Proof.
  exact (foreach_evals_length (Timer.body2 Mdl f) 2 (timer_body2_evals Mdl f) (zrange 0 5) s).
Qed.

Lemma timer_loop4_length s : length (evals (emit timer_loop4 s)) = 20%nat.
Proof.
  exact (foreach_evals_length (Timer.body4 Mdl) 2 (timer_body4_evals Mdl) (zrange 0 10) s).
Qed.

Lemma timer_loop1_couts s :
  couts (emit timer_loop1 s)
  = flat_map timer_rep1 (combine (zrange 0 20) (falling (evals (emit timer_loop1 s)))).
Proof.
  unfold timer_loop1, for_.
  rewrite (foreach_proj (Timer.body1 Mdl) falling (timer_body1_sel Mdl) couts
             (fun i d => timer_rep1 (i, d)) eq_refl couts_app (timer_body1_couts Mdl)).
  apply flat_map_ext. intros [i d]. reflexivity.
Qed.

Lemma timer_loop1_assigns s :
  assigns (emit timer_loop1 s)
  = clears (map timer_ok1 (combine (zrange 0 20) (falling (evals (emit timer_loop1 s))))).
Proof.
  unfold timer_loop1, for_.
  rewrite (foreach_proj (Timer.body1 Mdl) falling (timer_body1_sel Mdl) assigns
             (fun i d => if timer_ok1 (i, d) then [] else [false])
             eq_refl assigns_app (timer_body1_assigns Mdl)).
  rewrite clears_map. apply flat_map_ext. intros [i d]. reflexivity.
Qed.

Lemma timer_loop1_count s :
  count_of (dut (exec timer_loop1 s))
  = last (map count_of (falling (evals (emit timer_loop1 s)))) 0.
Proof.
  unfold timer_loop1, for_.
  rewrite (foreach_last_dut (Timer.body1 Mdl) falling eq_refl (timer_body1_sel Mdl)).
  apply last_map_nonempty. intros H.
  pose proof (foreach_sel_length (Timer.body1 Mdl) falling eq_refl
                (timer_body1_sel Mdl) (zrange 0 20) s) as HL.
  rewrite H in HL. discriminate HL.
Qed.

Lemma timer_loop2_couts f s :
  couts (emit (timer_loop2 f) s)
  = flat_map (timer_rep2 f) (falling (evals (emit (timer_loop2 f) s))).
Proof.
  unfold timer_loop2, for_.
  rewrite (foreach_proj (Timer.body2 Mdl f) falling (timer_body2_sel Mdl f) couts
             (fun i d => timer_rep2 f d) eq_refl couts_app (timer_body2_couts Mdl f)).
  pose proof (foreach_sel_length (Timer.body2 Mdl f) falling eq_refl
                (timer_body2_sel Mdl f) (zrange 0 5) s) as HL.
  destruct (falling _) as [|a [|b [|c [|d [|e [|x l]]]]]]; try discriminate HL.
  reflexivity.
Qed.

Lemma timer_loop2_assigns f s :
  assigns (emit (timer_loop2 f) s)
  = clears (map (timer_ok2 f) (falling (evals (emit (timer_loop2 f) s)))).
Proof.
  unfold timer_loop2, for_.
  rewrite (foreach_proj (Timer.body2 Mdl f) falling (timer_body2_sel Mdl f) assigns
             (fun i d => if timer_ok2 f d then [] else [false])
             eq_refl assigns_app (timer_body2_assigns Mdl f)).
  pose proof (foreach_sel_length (Timer.body2 Mdl f) falling eq_refl
                (timer_body2_sel Mdl f) (zrange 0 5) s) as HL.
  destruct (falling _) as [|a [|b [|c [|d [|e [|x l]]]]]]; try discriminate HL.
  reflexivity.
Qed.

Lemma timer_loop2_count f s :
  count_of (dut (exec (timer_loop2 f) s))
  = last (map count_of (falling (evals (emit (timer_loop2 f) s)))) 0.
Proof.
  unfold timer_loop2, for_.
  rewrite (foreach_last_dut (Timer.body2 Mdl f) falling eq_refl (timer_body2_sel Mdl f)).
  apply last_map_nonempty. intros H.
  pose proof (foreach_sel_length (Timer.body2 Mdl f) falling eq_refl
                (timer_body2_sel Mdl f) (zrange 0 5) s) as HL.
  rewrite H in HL. discriminate HL.
Qed.

Lemma timer_loop4_couts s :
  couts (emit timer_loop4 s)
  = flat_map timer_rep4 (falling (evals (emit timer_loop4 s))).
Proof.
  unfold timer_loop4, for_.
  rewrite (foreach_proj (Timer.body4 Mdl) falling (timer_body4_sel Mdl) couts
             (fun i d => timer_rep4 d) eq_refl couts_app (timer_body4_couts Mdl)).
  apply flat_map_combine_snd.
  apply (foreach_sel_length (Timer.body4 Mdl) falling eq_refl (timer_body4_sel Mdl)).
Qed.

Lemma timer_loop4_assigns s :
  assigns (emit timer_loop4 s)
  = clears (map timer_ok4 (falling (evals (emit timer_loop4 s)))).
Proof.
  unfold timer_loop4, for_.
  rewrite (foreach_proj (Timer.body4 Mdl) falling (timer_body4_sel Mdl) assigns
             (fun i d => if timer_ok4 d then [] else [false])
             eq_refl assigns_app (timer_body4_assigns Mdl)).
  rewrite clears_map.
  apply (flat_map_combine_snd (fun d : Dut (core_t Mdl) => if timer_ok4 d then [] else [false])).
  apply (foreach_sel_length (Timer.body4 Mdl) falling eq_refl (timer_body4_sel Mdl)).
Qed.

(** *** The straight-line blocks *)

Lemma timer_startup_emit s :
  exists dA,
    evals (emit (Timer.startup Mdl) s) = [dA; dut (exec (Timer.startup Mdl) s)]
    /\ couts (emit (Timer.startup Mdl) s) = []
    /\ assigns (emit (Timer.startup Mdl) s) = [].
Proof.
  eexists. unfold Timer.startup. run_body. repeat split; reflexivity.
Qed.

Lemma timer_setup1_emit s :
  evals (emit (Timer.test1_setup Mdl) s) = []
  /\ couts (emit (Timer.test1_setup Mdl) s) = timer_hdr1 :: timer_rep0 (dut s)
  /\ assigns (emit (Timer.test1_setup Mdl) s) = clears [timer_ok0 (dut s)].
Proof.
  unfold Timer.test1_setup, timer_rep0, timer_ok0, count_of. run_body.
  rewrite !pins_set_other by discriminate.
  destruct (pins (dut s) io_count =? 0); repeat split; reflexivity.
Qed.

Lemma timer_setup2_emit s :
  evals (emit (Timer.test2_setup Mdl) s) = []
  /\ couts (emit (Timer.test2_setup Mdl) s) = [timer_hdr2]
  /\ assigns (emit (Timer.test2_setup Mdl) s) = []
  /\ count_of (dut (exec (Timer.test2_setup Mdl) s)) = count_of (dut s).
Proof.
  unfold Timer.test2_setup, count_of. run_body.
  rewrite !pins_set_other by discriminate. repeat split; reflexivity.
Qed.

Lemma timer_report2_emit s :
  evals (emit (Timer.test2_report Mdl) s) = []
  /\ couts (emit (Timer.test2_report Mdl) s) = [timer_frozen_line (count_of (dut s))]
  /\ assigns (emit (Timer.test2_report Mdl) s) = [].
Proof. unfold Timer.test2_report. run_body. repeat split; reflexivity. Qed.

Lemma timer_test3_emit s :
  exists d1 d2,
    evals (emit (Timer.test3 Mdl) s) = [d1; d2]
    /\ couts (emit (Timer.test3 Mdl) s) = timer_hdr3 :: timer_rep3 d2
    /\ assigns (emit (Timer.test3 Mdl) s) = clears [timer_ok3 d2].
Proof.
  exists (model_eval Mdl (set clock 1 (set io_reset_count 1 (set io_enable 1 (dut s))))).
  exists (model_eval Mdl (set clock 0 (model_eval Mdl
            (set clock 1 (set io_reset_count 1 (set io_enable 1 (dut s))))))).
  unfold Timer.test3, Timer.period, timer_rep3, timer_ok3, count_of.
  run_body.
  match goal with |- context [negb ?c] => destruct c end; repeat split; reflexivity.
Qed.

Lemma timer_setup4_emit s :
  exists r1 r2,
    evals (emit (Timer.test4_setup Mdl) s) = [r1; r2]
    /\ couts (emit (Timer.test4_setup Mdl) s) = [timer_hdr4]
    /\ assigns (emit (Timer.test4_setup Mdl) s) = [].
Proof.
  do 2 eexists. unfold Timer.test4_setup, Timer.period. run_body.
  repeat split; reflexivity.
Qed.

Lemma timer_finish_emit s :
  emit (Timer.finish Mdl) s
  = EvCout (nl ++ timer_rule)%string
    :: map EvCout (timer_summary (pass s) (locals s))
    ++ [EvCout timer_rule; EvDelete].
Proof.
  unfold Timer.finish, timer_summary. run_body. destruct (pass s); reflexivity.
Qed.

Lemma timer_finish_state s :
  pass (exec (Timer.finish Mdl) s) = pass s
  /\ locals (exec (Timer.finish Mdl) s) = locals s
  /\ value (Timer.finish Mdl) s = if pass s then 0 else 1.
Proof.
  unfold Timer.finish. run_body. destruct (pass s) eqn:E; cbn [pass locals];
    rewrite ?E; repeat split; reflexivity.
Qed.

(** *** The four tests *)

Lemma timer_test1_emit s :
  length (evals (emit (Timer.test1 Mdl) s)) = 40%nat
  /\ couts (emit (Timer.test1 Mdl) s)
     = timer_hdr1 :: timer_rep0 (dut s)
       ++ flat_map timer_rep1
            (combine (zrange 0 20) (falling (evals (emit (Timer.test1 Mdl) s))))
  /\ assigns (emit (Timer.test1 Mdl) s)
     = clears (timer_ok0 (dut s)
               :: map timer_ok1
                    (combine (zrange 0 20) (falling (evals (emit (Timer.test1 Mdl) s)))))
  /\ count_of (dut (exec (Timer.test1 Mdl) s))
     = last (map count_of (falling (evals (emit (Timer.test1 Mdl) s)))) 0.
Proof.
  destruct (timer_setup1_emit s) as [He [Hc Ha]].
  unfold Timer.test1.
  rewrite (emit_bind (Timer.test1_setup Mdl)), (exec_bind (Timer.test1_setup Mdl)).
  fold timer_loop1. project. rewrite He, Hc, Ha. cbn [app].
  repeat split.
  - apply timer_loop1_length.
  - rewrite timer_loop1_couts. reflexivity.
  - rewrite timer_loop1_assigns. destruct (timer_ok0 (dut s)); reflexivity.
  - apply timer_loop1_count.
Qed.

Lemma timer_test2_emit s :
  length (evals (emit (Timer.test2 Mdl) s)) = 10%nat
  /\ couts (emit (Timer.test2 Mdl) s)
     = timer_hdr2
       :: flat_map (timer_rep2 (count_of (dut s)))
            (falling (evals (emit (Timer.test2 Mdl) s)))
       ++ [timer_frozen_line
             (last (map count_of (falling (evals (emit (Timer.test2 Mdl) s)))) 0)]
  /\ assigns (emit (Timer.test2 Mdl) s)
     = clears (map (timer_ok2 (count_of (dut s)))
                 (falling (evals (emit (Timer.test2 Mdl) s)))).
Proof.
  destruct (timer_setup2_emit s) as [He [Hc [Ha Hf]]].
  unfold Timer.test2.
  rewrite (emit_bind (Timer.test2_setup Mdl)), (emit_bind (read io_count)).
  cbn [value read fst]. fold (count_of (dut (exec (Timer.test2_setup Mdl) s))).
  rewrite Hf. fold (timer_loop2 (count_of (dut s))).
  rewrite (emit_bind (timer_loop2 (count_of (dut s)))).
  change (emit (read io_count) ?x) with (@nil (Event (core_t Mdl))).
  change (exec (read io_count) ?x) with x.
  destruct (timer_report2_emit
              (exec (timer_loop2 (count_of (dut s))) (exec (Timer.test2_setup Mdl) s)))
    as [He2 [Hc2 Ha2]].
  project. rewrite He, Hc, Ha, He2, Hc2, Ha2. cbn [app evals couts assigns flat_map].
  rewrite !app_nil_r. repeat split.
  - apply timer_loop2_length.
  - rewrite timer_loop2_couts, timer_loop2_count. reflexivity.
  - apply timer_loop2_assigns.
Qed.

Lemma timer_test4_emit s :
  exists r1 r2 E4,
    length E4 = 20%nat
    /\ evals (emit (Timer.test4 Mdl) s) = [r1; r2] ++ E4
    /\ couts (emit (Timer.test4 Mdl) s)
       = timer_hdr4 :: flat_map timer_rep4 (falling E4)
         ++ ["  Overflow signal works correctly ✓"]
    /\ assigns (emit (Timer.test4 Mdl) s) = clears (map timer_ok4 (falling E4)).
Proof.
  destruct (timer_setup4_emit s) as [r1 [r2 [He [Hc Ha]]]].
  exists r1, r2, (evals (emit timer_loop4 (exec (Timer.test4_setup Mdl) s))).
  unfold Timer.test4.
  rewrite (emit_bind (Timer.test4_setup Mdl)). fold timer_loop4.
  rewrite (emit_bind timer_loop4).
  change (emit (cout ?l) ?x) with [@EvCout (core_t Mdl) l].
  project. rewrite He, Hc, Ha. cbn [app evals couts assigns flat_map].
  rewrite !app_nil_r. repeat split.
  - apply timer_loop4_length.
  - rewrite timer_loop4_couts. reflexivity.
  - apply timer_loop4_assigns.
Qed.

(** *** The whole run *)

Definition timer_s1 : State (core_t Mdl) Z := exec (Timer.startup Mdl) (Timer.init Mdl).
Definition timer_s2 : State (core_t Mdl) Z := exec (Timer.test1 Mdl) timer_s1.
Definition timer_s3 : State (core_t Mdl) Z := exec (Timer.test2 Mdl) timer_s2.
Definition timer_s4 : State (core_t Mdl) Z := exec (Timer.test3 Mdl) timer_s3.
Definition timer_s5 : State (core_t Mdl) Z := exec (Timer.test4 Mdl) timer_s4.

Lemma timer_trace :
  trace (Timer.run Mdl)
  = emit (Timer.startup Mdl) (Timer.init Mdl)
    ++ emit (Timer.test1 Mdl) timer_s1
    ++ emit (Timer.test2 Mdl) timer_s2
    ++ emit (Timer.test3 Mdl) timer_s3
    ++ emit (Timer.test4 Mdl) timer_s4
    ++ emit (Timer.finish Mdl) timer_s5.
Proof.
  unfold Timer.run, run_main, Timer.main. cbn [trace].
  rewrite (emit_bind (Timer.startup Mdl)), (emit_bind (Timer.test1 Mdl)),
    (emit_bind (Timer.test2 Mdl)), (emit_bind (Timer.test3 Mdl)),
    (emit_bind (Timer.test4 Mdl)).
  unfold timer_s5, timer_s4, timer_s3, timer_s2, timer_s1. reflexivity.
Qed.

Lemma timer_final :
  pass (final (Timer.run Mdl)) = pass timer_s5
  /\ locals (final (Timer.run Mdl)) = locals timer_s5
  /\ exit_code (Timer.run Mdl) = if pass timer_s5 then 0 else 1.
Proof.
  unfold Timer.run, run_main, Timer.main. cbn [final exit_code].
  rewrite (exec_bind (Timer.startup Mdl)), (exec_bind (Timer.test1 Mdl)),
    (exec_bind (Timer.test2 Mdl)), (exec_bind (Timer.test3 Mdl)),
    (exec_bind (Timer.test4 Mdl)).
  rewrite (value_bind (Timer.startup Mdl)), (value_bind (Timer.test1 Mdl)),
    (value_bind (Timer.test2 Mdl)), (value_bind (Timer.test3 Mdl)),
    (value_bind (Timer.test4 Mdl)).
  unfold timer_s5, timer_s4, timer_s3, timer_s2, timer_s1.
  repeat split; apply timer_finish_state.
Qed.

Lemma timer_anatomy :
  exists dA d0 E1 E2 d3a d3 r1 r2 E4,
    length E1 = 40%nat /\ length E2 = 10%nat /\ length E4 = 20%nat
    /\ evals (trace (Timer.run Mdl))
       = [dA; d0] ++ E1 ++ E2 ++ [d3a; d3; r1; r2] ++ E4 ++ []
    /\ couts (trace (Timer.run Mdl))
       = (timer_hdr1 :: timer_rep0 d0
            ++ flat_map timer_rep1 (combine (zrange 0 20) (falling E1)))
         ++ (timer_hdr2
               :: flat_map (timer_rep2 (last (map count_of (falling E1)) 0)) (falling E2)
               ++ [timer_frozen_line (last (map count_of (falling E2)) 0)])
         ++ (timer_hdr3 :: timer_rep3 d3)
         ++ (timer_hdr4 :: flat_map timer_rep4 (falling E4)
               ++ ["  Overflow signal works correctly ✓"])
         ++ ((nl ++ timer_rule)%string
               :: timer_summary (pass (final (Timer.run Mdl))) 20 ++ [timer_rule])
    /\ assigns (trace (Timer.run Mdl))
       = clears (timer_ok0 d0 :: map timer_ok1 (combine (zrange 0 20) (falling E1)))
         ++ clears (map (timer_ok2 (last (map count_of (falling E1)) 0)) (falling E2))
         ++ clears [timer_ok3 d3]
         ++ clears (map timer_ok4 (falling E4)).
Proof.
  destruct (timer_startup_emit (Timer.init Mdl)) as [dA [He0 [Hc0 Ha0]]].
  destruct (timer_test1_emit timer_s1) as [HL1 [Hc1 [Ha1 Hf1]]].
  destruct (timer_test2_emit timer_s2) as [HL2 [Hc2 Ha2]].
  destruct (timer_test3_emit timer_s3) as [d3a [d3 [He3 [Hc3 Ha3]]]].
  destruct (timer_test4_emit timer_s4) as [r1 [r2 [E4 [HL4 [He4 [Hc4 Ha4]]]]]].
  destruct timer_final as [Hp [Hl _]].
  fold timer_s1 in He0. fold timer_s2 in Hf1. rewrite Hf1 in Hc2, Ha2.
  exists dA, (dut timer_s1), (evals (emit (Timer.test1 Mdl) timer_s1)),
    (evals (emit (Timer.test2 Mdl) timer_s2)), d3a, d3, r1, r2, E4.
  split; [exact HL1|]. split; [exact HL2|]. split; [exact HL4|].
  rewrite timer_trace, timer_finish_emit. project.
  rewrite He0, Hc0, Ha0, Hc1, Ha1, Hc2, Ha2, He3, Hc3, Ha3, He4, Hc4, Ha4.
  rewrite Hp, <- Hl, timer_test_count.
  unfold timer_summary.
  destruct (pass timer_s5); cbn [map evals couts assigns flat_map app];
    rewrite ?app_nil_r; repeat split; reflexivity.
Qed.

Lemma timer_evals_length : length (evals (trace (Timer.run Mdl))) = 76%nat.
Proof.
  destruct timer_anatomy
    as (dA & d0 & E1 & E2 & d3a & d3 & r1 & r2 & E4 & HL1 & HL2 & HL4 & He & _).
  rewrite He, !length_app, HL1, HL2, HL4. reflexivity.
Qed.

Lemma timer_couts :
  couts (trace (Timer.run Mdl))
  = timer_lines (evals (trace (Timer.run Mdl))) (pass (final (Timer.run Mdl))).
Proof.
  destruct timer_anatomy
    as (dA & d0 & E1 & E2 & d3a & d3 & r1 & r2 & E4 & HL1 & HL2 & HL4 & He & Hc & _).
  rewrite Hc, He. unfold timer_lines. timer_windows.
  cbn [falling flat_map]. rewrite !app_nil_r. reflexivity.
Qed.

Lemma timer_assigns :
  assigns (trace (Timer.run Mdl)) = clears (timer_checks (evals (trace (Timer.run Mdl)))).
Proof.
  destruct timer_anatomy
    as (dA & d0 & E1 & E2 & d3a & d3 & r1 & r2 & E4 & HL1 & HL2 & HL4 & He & _ & Ha).
  rewrite Ha, He. unfold timer_checks. timer_windows.
  rewrite !clears_app. cbn [map falling].
  change (timer_ok0 d0 :: ?l) with ([timer_ok0 d0] ++ l).
  rewrite clears_app, <- app_assoc. reflexivity.
Qed.

Lemma timer_pass :
  pass (final (Timer.run Mdl))
  = forallb (fun b => b) (timer_checks (evals (trace (Timer.run Mdl)))).
Proof.
  destruct (run_verdict (Timer.main Mdl) (Timer.init Mdl) (timer_disciplined Mdl))
    as [H _].
  fold (Timer.run Mdl) in H. rewrite H. unfold verdict_after. rewrite timer_assigns.
  cbn [Timer.init pass]. rewrite last_clears_all. reflexivity.
Qed.

Lemma timer_exit :
  exit_code (Timer.run Mdl) = if pass (final (Timer.run Mdl)) then 0 else 1.
Proof. destruct timer_final as [Hp [_ Hx]]. rewrite Hp. exact Hx. Qed.

End TimerPhases.

(** * The claims *)

(** ** Exit status (C1) *)

(** The register and the counter testbench return the verdict. *)
Lemma sequential_exit_reflects_verdict (Mdl : Model) :
  exit_code (Reg.run Mdl) = (if pass (final (Reg.run Mdl)) then 0 else 1)
  /\ exit_code (Timer.run Mdl) = (if pass (final (Timer.run Mdl)) then 0 else 1).
Proof. split; [apply reg_exit | apply timer_exit]. Qed.

(** The adder testbench returns 0 whatever the verdict is. *)
Lemma adder_exit_constant (Mdl : Model) : exit_code (Adder.run Mdl) = 0.
Proof. apply adder_exit. Qed.

(** C1, at the failing input: with an adder model whose output is stuck at
    0, 240 of the 256 comparisons fail and the verdict is false, yet the
    process exit status is 0, and nothing is printed but the 240 per-pair
    diagnostics: there is no pass/fail summary line. *)
Theorem adder_exit_status_on_mismatch :
  let r := Adder.run Models.stuck_adder in
  pass (final r) = false
  /\ length (assigns (trace r)) = 240%nat
  /\ exit_code r = 0
  /\ length (couts (trace r)) = 240%nat
  /\ forallb (String.prefix "TEST FAILED: ") (couts (trace r)) = true
  /\ nth 0 (couts (trace r)) "" = "TEST FAILED: 0 + 1 => 0 (expected 1)".
Proof. vm_compute. repeat split; reflexivity. Qed.

(** ** The adder oracle (C3) *)

(** C3: the adder testbench applies each of the 256 pairs of [0,16)x[0,16)
    exactly once, in order, with one evaluation each; the expected value of
    a pair is (a + b) mod 16 (0 for 7 + 9, 5 for 3 + 2); and for every pair
    a diagnostic is printed and the verdict cleared exactly when io_c, at
    the evaluation point of that pair, differs from the expected value. *)
Theorem adder_exhaustive_oracle (Mdl : Model) :
  let r := Adder.run Mdl in
  let es := evals (trace r) in
  let differs (xd : Z * Z * Dut (core_t Mdl)) : bool :=
    negb (pins (snd xd) io_c =? (fst (fst xd) + snd (fst xd)) mod 16) in
  (* the stimuli *)
  ops (trace r) = flat_map adder_vector_ops adder_pairs ++ [OpDelete]
  /\ length adder_pairs = 256%nat
  /\ NoDup adder_pairs
  /\ (forall a b, In (a, b) adder_pairs <-> 0 <= a < 16 /\ 0 <= b < 16)
  (* the oracle *)
  /\ (forall a b, Adder.expected_c a b = (a + b) mod 16)
  /\ Adder.expected_c 7 9 = 0
  /\ Adder.expected_c 3 2 = 5
  (* the comparisons *)
  /\ length es = 256%nat
  /\ couts (trace r)
     = flat_map (fun xd => if differs xd
                           then [Adder.diagnostic (fst (fst xd)) (snd (fst xd))
                                   (pins (snd xd) io_c)
                                   ((fst (fst xd) + snd (fst xd)) mod 16)]
                           else [])
         (combine adder_pairs es)
       ++ (if pass (final r) then ["--- TEST PASSED ---"] else [])
  /\ assigns (trace r)
     = flat_map (fun xd => if differs xd then [false] else []) (combine adder_pairs es)
  /\ pass (final r) = negb (existsb differs (combine adder_pairs es)).
Proof.
  cbv zeta.
  split; [apply adder_ops|].
  split; [reflexivity|].
  split; [apply adder_pairs_NoDup|].
  split; [apply adder_pairs_spec|].
  split; [apply expected_c_mod|].
  split; [reflexivity|].
  split; [reflexivity|].
  split; [apply adder_evals_length|].
  split; [|split].
  - rewrite adder_couts. f_equal. apply flat_map_ext. intros [[a b] d].
    unfold adder_report, adder_matches. cbn [fst snd]. rewrite expected_c_mod.
    destruct (_ =? _); reflexivity.
  - rewrite adder_assigns. apply flat_map_ext. intros [[a b] d].
    unfold adder_matches. cbn [fst snd]. rewrite expected_c_mod.
    destruct (_ =? _); reflexivity.
  - rewrite adder_pass.
    induction (combine adder_pairs (evals (trace (Adder.run Mdl)))) as [|[[a b] d] l IH];
      [reflexivity|].
    cbn [forallb existsb]. rewrite IH, negb_orb, negb_involutive.
    unfold adder_matches. cbn [fst snd]. rewrite expected_c_mod. reflexivity.
Qed.

(** C3 instantiated on a correct 4-bit adder: the run passes. *)
Lemma adder_exhaustive_oracle_witness :
  pass (final (Adder.run Models.good_adder))
  = negb (existsb
            (fun xd : Z * Z * Dut unit =>
               negb (pins (snd xd) io_c =? (fst (fst xd) + snd (fst xd)) mod 16))
            (combine adder_pairs (evals (trace (Adder.run Models.good_adder))))).
Proof. apply (adder_exhaustive_oracle Models.good_adder). Defined.

(** ** The register scenario (C5) *)

(** C5: the register testbench applies, in this order, reset=1 (expected q
    0), reset=0 with d=0xA (expected q 0xA), reset=1 again (expected q 0),
    followed by a fourth case; each expected q is 0 when io_reset is
    asserted and the applied d otherwise; and for every case a diagnostic is
    printed and the verdict cleared exactly when io_q, at the evaluation
    point that ends the case's clock period, differs from the expected q. *)
Theorem reg_scenario (Mdl : Model) :
  let r := Reg.run Mdl in
  let samples := reg_samples (evals (trace r)) in
  let differs (xd : Z * Reg.TestCase * Dut (core_t Mdl)) : bool :=
    negb (pins (snd xd) io_q =? Reg.tc_expected_q (snd (fst xd))) in
  firstn 3 Reg.test_cases
  = [Reg.mkCase true 10 0; Reg.mkCase false 10 10; Reg.mkCase true 5 0]
  /\ Forall (fun tc => Reg.tc_expected_q tc
                       = if Reg.tc_io_reset tc then 0 else Reg.tc_d tc)
       Reg.test_cases
  /\ ops (trace r)
     = reg_prologue_ops ++ flat_map reg_case_ops reg_indexed_cases
       ++ [OpVcd VcdClose; OpDelete]
  /\ length samples = length Reg.test_cases
  /\ couts (trace r)
     = flat_map (fun xd => if differs xd
                           then [Reg.diagnostic (fst (fst xd))
                                   (Reg.tc_expected_q (snd (fst xd)))
                                   (pins (snd xd) io_q)]
                           else [])
         (combine reg_indexed_cases samples)
       ++ [reg_summary (pass (final r))]
  /\ assigns (trace r)
     = flat_map (fun xd => if differs xd then [false] else [])
         (combine reg_indexed_cases samples)
  /\ pass (final r) = negb (existsb differs (combine reg_indexed_cases samples)).
Proof.
  cbv zeta.
  split; [reflexivity|].
  split; [repeat constructor|].
  split; [apply reg_ops|].
  split; [apply reg_samples_length|].
  split; [|split].
  - rewrite reg_couts. f_equal. apply flat_map_ext. intros [[i tc] d].
    unfold reg_report, reg_matches. cbn [fst snd]. destruct (_ =? _); reflexivity.
  - rewrite reg_assigns. apply flat_map_ext. intros [[i tc] d].
    unfold reg_matches. cbn [fst snd]. destruct (_ =? _); reflexivity.
  - rewrite reg_pass.
    induction (combine reg_indexed_cases (reg_samples (evals (trace (Reg.run Mdl)))))
      as [|[[i tc] d] l IH]; [reflexivity|].
    cbn [forallb existsb]. rewrite IH, negb_orb, negb_involutive. reflexivity.
Qed.

(** C5 instantiated on a register that ignores io_reset: the third case is
    reported. *)
Lemma reg_scenario_witness :
  couts (trace (Reg.run Models.noreset_reg))
  = ["Error at test case 2: expected 0, got 5"; "TEST FAILED"].
Proof.
  destruct (reg_scenario Models.noreset_reg) as (_ & _ & _ & _ & H & _).
  rewrite H. vm_compute. reflexivity.
Defined.

(** ** The waveform recorder (C9) *)

Definition is_dump (o : Op) : bool :=
  match o with OpVcd (VcdDump _) => true | _ => false end.

(** C9: whatever the model does, a run of the register testbench ends with
    the recorder's close, then the deletion of the model, then the summary
    line, and returns its exit status; the ten dumps (timestamps 0 to 9) all
    come before the close, and neither the close nor the deletion occurs
    earlier. *)
Theorem reg_recorder_closed (Mdl : Model) :
  let r := Reg.run Mdl in
  exists pre,
    trace r = pre ++ [EvVcd VcdClose; EvDelete; EvCout (reg_summary (pass (final r)))]
    /\ ops pre = reg_prologue_ops ++ flat_map reg_case_ops reg_indexed_cases
    /\ filter is_dump (ops pre) = map (fun t => OpVcd (VcdDump t)) (zrange 0 10)
    /\ ~ In (OpVcd VcdClose) (ops pre)
    /\ ~ In OpDelete (ops pre)
    /\ exit_code r = (if pass (final r) then 0 else 1).
Proof.
  cbv zeta.
  exists (emit (Reg.prologue Mdl) (Reg.init Mdl) ++ emit (reg_loop Mdl) (reg_at_loop Mdl)).
  assert (Ht : trace (Reg.run Mdl)
               = (emit (Reg.prologue Mdl) (Reg.init Mdl)
                  ++ emit (reg_loop Mdl) (reg_at_loop Mdl))
                 ++ [EvVcd VcdClose; EvDelete;
                     EvCout (reg_summary (pass (final (Reg.run Mdl))))]).
  { rewrite reg_trace, reg_epilogue_emit, reg_final_pass, app_assoc. reflexivity. }
  assert (Ho : ops (emit (Reg.prologue Mdl) (Reg.init Mdl)
                    ++ emit (reg_loop Mdl) (reg_at_loop Mdl))
               = reg_prologue_ops ++ flat_map reg_case_ops reg_indexed_cases).
  { pose proof (reg_ops Mdl) as H. rewrite Ht, ops_app in H.
    change (ops [EvVcd VcdClose; EvDelete; EvCout ?l]) with [OpVcd VcdClose; OpDelete] in H.
    unfold reg_script in H. rewrite app_assoc in H.
    apply app_inv_tail in H. exact H. }
  split; [exact Ht|]. split; [exact Ho|]. rewrite Ho.
  split; [reflexivity|].
  split; [|split].
  - intros H. vm_compute in H.
    repeat (destruct H as [H|H]; [discriminate H|]). exact H.
  - intros H. vm_compute in H.
    repeat (destruct H as [H|H]; [discriminate H|]). exact H.
  - apply reg_exit.
Qed.

(** C9 instantiated on a failing run: the exit status 1 is returned after
    the close. *)
Lemma reg_recorder_closed_witness :
  exists pre,
    trace (Reg.run Models.noreset_reg)
    = pre ++ [EvVcd VcdClose; EvDelete; EvCout "TEST FAILED"]
    /\ exit_code (Reg.run Models.noreset_reg) = 1.
Proof.
  destruct (reg_recorder_closed Models.noreset_reg) as (pre & Ht & _ & _ & _ & _ & Hx).
  exists pre. split; [exact Ht | exact Hx].
Defined.

(** ** The counter: what the verdict depends on *)

(** The comparisons on the count (initial check, Tests 1 to 3) and the
    comparisons on the overflow (Test 4). *)
Definition timer_counts_ok {I} (es : list (Dut I)) : bool :=
  forallb timer_ok0 (timer_initial es)
  && forallb timer_ok1 (combine (zrange 0 20) (timer_test1_samples es))
  && forallb (timer_ok2 (timer_frozen es)) (timer_test2_samples es)
  && forallb timer_ok3 (timer_test3_samples es).

Definition timer_overflow_ok {I} (es : list (Dut I)) : bool :=
  forallb timer_ok4 (timer_test4_samples es).

Lemma forallb_id_map {A} (f : A -> bool) (l : list A) :
  forallb (fun b => b) (map f l) = forallb f l.
Proof. induction l as [|x l IH]; [reflexivity|]. cbn. rewrite IH. reflexivity. Qed.

Lemma timer_checks_split {I} (es : list (Dut I)) :
  forallb (fun b => b) (timer_checks es) = timer_counts_ok es && timer_overflow_ok es.
Proof.
  unfold timer_checks, timer_counts_ok, timer_overflow_ok.
  rewrite !forallb_app, !forallb_id_map, !andb_assoc. reflexivity.
Qed.

Section TimerVerdict.
Variable Mdl : Model.

Lemma timer_pass_split :
  pass (final (Timer.run Mdl))
  = timer_counts_ok (evals (trace (Timer.run Mdl)))
    && timer_overflow_ok (evals (trace (Timer.run Mdl))).
Proof. rewrite timer_pass. apply timer_checks_split. Qed.

Lemma timer_samples_lengths :
  let es := evals (trace (Timer.run Mdl)) in
  length (timer_initial es) = 1%nat
  /\ length (timer_test1_samples es) = 20%nat
  /\ length (timer_test2_samples es) = 5%nat
  /\ length (timer_test3_samples es) = 1%nat
  /\ length (timer_test4_samples es) = 10%nat.
Proof.
  cbv zeta.
  destruct (timer_anatomy Mdl)
    as (dA & d0 & E1 & E2 & d3a & d3 & r1 & r2 & E4 & HL1 & HL2 & HL4 & He & _).
  rewrite He. timer_windows.
  split; [reflexivity|].
  split; [apply falling_length; exact HL1|].
  split; [apply falling_length; exact HL2|].
  split; [reflexivity|].
  apply falling_length; exact HL4.
Qed.

End TimerVerdict.




(** ** The count oracle (C4) *)





(** ** The overflow check (C2) *)

(** C2 as stated fails: a counter model that asserts overflow on every
    cycle, also where the count is 1 to 8, is not flagged.  Its ten Test 4
    evaluation points are listed as (count, overflow). *)
Lemma timer_stray_overflow_passes :
  let r := Timer.run Models.always_overflow_timer in
  map (fun d => (count_of d, overflow_of d)) (timer_test4_samples (evals (trace r)))
  = [(1, 1); (2, 1); (3, 1); (4, 1); (5, 1); (6, 1); (7, 1); (8, 1); (9, 1); (0, 1)]
  /\ assigns (trace r) = []
  /\ pass (final r) = true
  /\ exit_code r = 0.
Proof. vm_compute. repeat split; reflexivity. Qed.

Lemma timer_ok4_spec {I} (d : Dut I) :
  timer_ok4 d = true <-> (count_of d = 9 -> overflow_of d = 1).
Proof.
  unfold timer_ok4. rewrite negb_true_iff, andb_false_iff, negb_false_iff, Z.eqb_neq,
    Z.eqb_eq.
  split.
  - intros [H|H] H9; [contradiction | exact H].
  - intros H. destruct (Z.eq_dec (count_of d) 9) as [E|E]; [right; auto | left; exact E].
Qed.

(** C2, amended: after each of the ten clock periods of Test 4 the counter
    testbench checks that io_overflow is 1 whenever io_count reads 9, and
    nothing else about the overflow; the verdict is the conjunction of the
    count comparisons and of these checks; a model whose overflow is not 1
    at such a point fails the run, with exit status 1 and the overflow
    diagnostic printed. *)
Theorem timer_overflow_checked_at_nine (Mdl : Model) :
  let r := Timer.run Mdl in
  let es := evals (trace r) in
  (timer_overflow_ok es = true <->
     forall d, In d (timer_test4_samples es) -> count_of d = 9 -> overflow_of d = 1)
  /\ pass (final r) = timer_counts_ok es && timer_overflow_ok es
  /\ (forall d, In d (timer_test4_samples es) -> count_of d = 9 -> overflow_of d <> 1 ->
        pass (final r) = false
        /\ exit_code r = 1
        /\ In "FAILED: Overflow not set at count=9" (couts (trace r))).
Proof.
  cbv zeta.
  assert (Hok : timer_overflow_ok (evals (trace (Timer.run Mdl))) = true <->
                forall d, In d (timer_test4_samples (evals (trace (Timer.run Mdl)))) ->
                          count_of d = 9 -> overflow_of d = 1).
  { unfold timer_overflow_ok. rewrite forallb_forall. split.
    - intros H d Hin. apply timer_ok4_spec. apply H. exact Hin.
    - intros H d Hin. apply timer_ok4_spec. apply H. exact Hin. }
  split; [exact Hok|]. split; [apply timer_pass_split|].
  intros d Hin H9 Hov.
  assert (Hbad : timer_ok4 d = false).
  { destruct (timer_ok4 d) eqn:E; [|reflexivity].
    apply timer_ok4_spec in E; [contradiction | exact H9]. }
  assert (Hno : timer_overflow_ok (evals (trace (Timer.run Mdl))) = false).
  { destruct (timer_overflow_ok _) eqn:E; [|reflexivity].
    unfold timer_overflow_ok in E. rewrite forallb_forall in E.
    rewrite (E d Hin) in Hbad. discriminate Hbad. }
  assert (Hp : pass (final (Timer.run Mdl)) = false).
  { rewrite timer_pass_split, Hno. apply andb_false_r. }
  split; [exact Hp|]. split; [rewrite timer_exit, Hp; reflexivity|].
  rewrite timer_couts. unfold timer_lines.
  apply in_or_app; right. apply in_or_app; right. apply in_or_app; right.
  apply in_or_app; left. right. apply in_or_app; left.
  apply in_flat_map. exists d. split; [exact Hin|].
  unfold timer_rep4. rewrite Hbad. left. reflexivity.
Qed.

(** C2 amended, instantiated on a counter that never asserts overflow: the
    ninth evaluation point of Test 4 reads count 9 with overflow 0. *)
Lemma timer_overflow_checked_at_nine_witness :
  pass (final (Timer.run Models.never_overflow_timer)) = false
  /\ exit_code (Timer.run Models.never_overflow_timer) = 1
  /\ In "FAILED: Overflow not set at count=9"
       (couts (trace (Timer.run Models.never_overflow_timer))).
Proof.
  destruct (timer_overflow_checked_at_nine Models.never_overflow_timer) as (_ & _ & H).
  apply (H (nth 8 (timer_test4_samples
                     (evals (trace (Timer.run Models.never_overflow_timer))))
              (new_dut Models.never_overflow_timer))).
  - apply nth_In. vm_compute. lia.
  - vm_compute. reflexivity.
  - vm_compute. discriminate.
Defined.

(** ** Overflow away from count 9 (C10) *)

(** Two evaluation points agree when they show the same count and, if that
    count is 9, the same overflow. *)
Definition agree_off_nine {I1 I2} (d1 : Dut I1) (d2 : Dut I2) : Prop :=
  count_of d1 = count_of d2 /\ (count_of d1 = 9 -> overflow_of d1 = overflow_of d2).

Definition agree_off_nineb {I1 I2} (d1 : Dut I1) (d2 : Dut I2) : bool :=
  (count_of d1 =? count_of d2)
  && (negb (count_of d1 =? 9) || (overflow_of d1 =? overflow_of d2)).

Lemma agree_off_nineb_sound {I1 I2} (d1 : Dut I1) (d2 : Dut I2) :
  agree_off_nineb d1 d2 = true -> agree_off_nine d1 d2.
Proof.
  unfold agree_off_nineb, agree_off_nine.
  rewrite andb_true_iff, orb_true_iff, negb_true_iff, Z.eqb_neq, !Z.eqb_eq.
  intros [H1 [H2|H2]]; split; auto. intros H9. contradiction.
Qed.

Section Pointwise.
Context {A B : Type} (R : A -> B -> Prop).

Lemma Forall2_skipn (n : nat) (l1 : list A) (l2 : list B) :
  Forall2 R l1 l2 -> Forall2 R (skipn n l1) (skipn n l2).
Proof.
  intros H. revert n. induction H as [|a b l1 l2 Hab H IH]; intros [|n]; cbn [skipn];
    auto using Forall2.
Qed.

Lemma Forall2_firstn (n : nat) (l1 : list A) (l2 : list B) :
  Forall2 R l1 l2 -> Forall2 R (firstn n l1) (firstn n l2).
Proof.
  intros H. revert n. induction H as [|a b l1 l2 Hab H IH]; intros [|n]; cbn [firstn];
    auto using Forall2.
Qed.

Lemma Forall2_window (from len : nat) (l1 : list A) (l2 : list B) :
  Forall2 R l1 l2 -> Forall2 R (window from len l1) (window from len l2).
Proof. intros H. apply Forall2_firstn, Forall2_skipn, H. Qed.

Lemma Forall2_falling (l1 : list A) (l2 : list B) :
  Forall2 R l1 l2 -> Forall2 R (falling l1) (falling l2).
Proof.
  intros H.
  enough (G : Forall2 R (falling l1) (falling l2)
              /\ forall a b, R a b -> Forall2 R (falling (a :: l1)) (falling (b :: l2)))
    by apply G.
  induction H as [|x y l1 l2 Hxy H [IH1 IH2]].
  - split; [constructor | intros; constructor].
  - split.
    + apply IH2. exact Hxy.
    + intros a b Hab. cbn [falling]. constructor; [exact Hxy | exact IH1].
Qed.

Lemma Forall2_map_eq {C} (f : A -> C) (g : B -> C) (l1 : list A) (l2 : list B) :
  (forall a b, R a b -> f a = g b) -> Forall2 R l1 l2 -> map f l1 = map g l2.
Proof.
  intros Hfg H. induction H as [|a b l1 l2 Hab H IH]; [reflexivity|].
  cbn [map]. rewrite (Hfg a b Hab), IH. reflexivity.
Qed.

Lemma Forall2_map_combine_eq {X C} (f : X * A -> C) (g : X * B -> C)
    (xs : list X) (l1 : list A) (l2 : list B) :
  (forall x a b, R a b -> f (x, a) = g (x, b)) ->
  Forall2 R l1 l2 -> map f (combine xs l1) = map g (combine xs l2).
Proof.
  intros Hfg H. revert xs. induction H as [|a b l1 l2 Hab H IH]; intros [|x xs];
    try reflexivity.
  cbn [combine map]. rewrite (Hfg x a b Hab), IH. reflexivity.
Qed.

Lemma Forall2_of_forallb (t : A -> B -> bool) (l1 : list A) (l2 : list B) :
  (forall a b, t a b = true -> R a b) ->
  length l1 = length l2 ->
  forallb (fun p => t (fst p) (snd p)) (combine l1 l2) = true ->
  Forall2 R l1 l2.
Proof.
  intros Ht. revert l2. induction l1 as [|a l1 IH]; intros [|b l2] HL H;
    try discriminate HL; [constructor|].
  cbn [combine forallb fst snd] in H. apply andb_true_iff in H. destruct H as [H1 H2].
  constructor; [apply Ht, H1 | apply IH; [injection HL as HL; exact HL | exact H2]].
Qed.

End Pointwise.

Lemma timer_checks_agree {I1 I2} (es1 : list (Dut I1)) (es2 : list (Dut I2)) :
  Forall2 agree_off_nine es1 es2 -> timer_checks es1 = timer_checks es2.
Proof.
  intros H.
  assert (Hc : forall from len,
             map count_of (falling (window from len es1))
             = map count_of (falling (window from len es2))).
  { intros from len. apply (Forall2_map_eq agree_off_nine); [intros a b [E _]; exact E|].
    apply Forall2_falling, Forall2_window, H. }
  assert (Hf : timer_frozen es1 = timer_frozen es2).
  { unfold timer_frozen, timer_test1_samples. rewrite Hc. reflexivity. }
  unfold timer_checks. rewrite Hf. f_equal; [|f_equal; [|f_equal; [|f_equal]]].
  - apply (Forall2_map_eq agree_off_nine).
    + intros a b [E _]. unfold timer_ok0. rewrite E. reflexivity.
    + apply Forall2_window, H.
  - apply (Forall2_map_combine_eq agree_off_nine).
    + intros x a b [E _]. unfold timer_ok1. cbn [fst snd]. rewrite E. reflexivity.
    + apply Forall2_falling, Forall2_window, H.
  - apply (Forall2_map_eq agree_off_nine).
    + intros a b [E _]. unfold timer_ok2. rewrite E. reflexivity.
    + apply Forall2_falling, Forall2_window, H.
  - apply (Forall2_map_eq agree_off_nine).
    + intros a b [E _]. unfold timer_ok3. rewrite E. reflexivity.
    + apply Forall2_falling, Forall2_window, H.
  - apply (Forall2_map_eq agree_off_nine).
    + intros a b [E E9]. unfold timer_ok4. rewrite <- E.
      destruct (count_of a =? 9) eqn:T; [|reflexivity].
      apply Z.eqb_eq in T. rewrite (E9 T). reflexivity.
    + apply Forall2_falling, Forall2_window, H.
Qed.

(** C10: two counter models whose evaluation points show the same io_count
    everywhere and the same io_overflow wherever io_count is 9 get the same
    verdict and the same exit status, however their io_overflow differs
    elsewhere. *)
Theorem timer_verdict_blind_to_stray_overflow (M1 M2 : Model) :
  Forall2 agree_off_nine
    (evals (trace (Timer.run M1))) (evals (trace (Timer.run M2))) ->
  pass (final (Timer.run M1)) = pass (final (Timer.run M2))
  /\ exit_code (Timer.run M1) = exit_code (Timer.run M2).
Proof.
  intros H.
  assert (Hp : pass (final (Timer.run M1)) = pass (final (Timer.run M2))).
  { rewrite !timer_pass, (timer_checks_agree _ _ H). reflexivity. }
  split; [exact Hp|]. rewrite !timer_exit, Hp. reflexivity.
Qed.

(** C10 instantiated: the correct counter and the one that asserts overflow
    on every cycle agree in that sense, differ in overflow at 70 evaluation
    points, and get the same verdict. *)
Lemma timer_verdict_blind_to_stray_overflow_witness :
  Forall2 agree_off_nine
    (evals (trace (Timer.run Models.good_timer)))
    (evals (trace (Timer.run Models.always_overflow_timer)))
  /\ pass (final (Timer.run Models.good_timer))
     = pass (final (Timer.run Models.always_overflow_timer))
  /\ exit_code (Timer.run Models.good_timer)
     = exit_code (Timer.run Models.always_overflow_timer).
Proof.
  assert (H : Forall2 agree_off_nine
                (evals (trace (Timer.run Models.good_timer)))
                (evals (trace (Timer.run Models.always_overflow_timer)))).
  { apply (Forall2_of_forallb agree_off_nine agree_off_nineb).
    - intros a b. apply agree_off_nineb_sound.
    - vm_compute. reflexivity.
    - vm_compute. reflexivity. }
  split; [exact H|].
  exact (timer_verdict_blind_to_stray_overflow
           Models.good_timer Models.always_overflow_timer H).
Defined.

(** ** Comparisons and their diagnostics *)

(** Each comparison of a run, from the evaluation points: whether the
    observed value is the expected one, and the line printed if it is not. *)
Definition adder_comparisons {I} (es : list (Dut I)) : list (bool * string) :=
  map (fun xd : Z * Z * Dut I =>
         (adder_matches (fst xd) (snd xd),
          Adder.diagnostic (fst (fst xd)) (snd (fst xd)) (pins (snd xd) io_c)
            (Adder.expected_c (fst (fst xd)) (snd (fst xd)))))
    (combine adder_pairs es).

Definition reg_comparisons {I} (es : list (Dut I)) : list (bool * string) :=
  map (fun xd : Z * Reg.TestCase * Dut I =>
         (reg_matches (fst xd) (snd xd),
          Reg.diagnostic (fst (fst xd)) (Reg.tc_expected_q (snd (fst xd)))
            (pins (snd xd) io_q)))
    (combine reg_indexed_cases (reg_samples es)).

Definition timer_comparisons {I} (es : list (Dut I)) : list (bool * string) :=
  map (fun d => (timer_ok0 d,
                 ("FAILED: Initial count should be 0, got " ++ dec (count_of d))%string))
    (timer_initial es)
  ++ map (fun id : Z * Dut I =>
            (timer_ok1 id,
             Timer.cycle_diagnostic (fst id) (Timer.expected_count (fst id))
               (count_of (snd id))))
       (combine (zrange 0 20) (timer_test1_samples es))
  ++ map (fun d => (timer_ok2 (timer_frozen es) d, "FAILED: Count changed while enable=0"))
       (timer_test2_samples es)
  ++ map (fun d => (timer_ok3 d, "FAILED: Reset didn't clear counter to 0"))
       (timer_test3_samples es)
  ++ map (fun d => (timer_ok4 d, "FAILED: Overflow not set at count=9"))
       (timer_test4_samples es).

Lemma timer_comparisons_checks {I} (es : list (Dut I)) :
  map fst (timer_comparisons es) = timer_checks es.
Proof.
  unfold timer_comparisons, timer_checks. rewrite !map_app, !map_map. reflexivity.
Qed.

Lemma adder_comparisons_checks {I} (es : list (Dut I)) :
  map fst (adder_comparisons es)
  = map (fun xd => adder_matches (fst xd) (snd xd)) (combine adder_pairs es).
Proof. unfold adder_comparisons. rewrite map_map. reflexivity. Qed.

Lemma reg_comparisons_checks {I} (es : list (Dut I)) :
  map fst (reg_comparisons es)
  = map (fun xd => reg_matches (fst xd) (snd xd))
      (combine reg_indexed_cases (reg_samples es)).
Proof. unfold reg_comparisons. rewrite map_map. reflexivity. Qed.

Lemma reported {A} (ok : A -> bool) (dg : A -> string) (rep : A -> list string)
    (l : list A) (c : bool * string) :
  (forall x, ok x = false -> In (dg x) (rep x)) ->
  In c (map (fun x => (ok x, dg x)) l) -> fst c = false ->
  In (snd c) (flat_map rep l).
Proof.
  intros Hrep Hin Hc. apply in_map_iff in Hin. destruct Hin as [x [Hx Hin]].
  subst c. cbn [fst snd] in *. apply in_flat_map. exists x. split; [exact Hin|].
  apply Hrep, Hc.
Qed.

Lemma failed_comparison {c : bool * string} {cs : list (bool * string)} :
  In c cs -> fst c = false -> forallb (fun b => b) (map fst cs) = false.
Proof.
  intros Hin Hc. destruct (forallb (fun b => b) (map fst cs)) eqn:E; [|reflexivity].
  rewrite forallb_forall in E. rewrite <- Hc. symmetry. apply E. apply in_map. exact Hin.
Qed.

Lemma last_all_false (l : list bool) (d : bool) :
  Forall (fun b => b = false) l -> l <> [] -> last l d = false.
Proof.
  intros H Hne. induction H as [|b l Hb H IH]; [contradiction|].
  destruct l as [|b' l]; [exact Hb|].
  change (last (b' :: l) d = false). apply IH. discriminate.
Qed.

Lemma clears_all_false (bs : list bool) : Forall (fun b => b = false) (clears bs).
Proof.
  induction bs as [|[] bs IH]; [constructor | exact IH | constructor; [reflexivity|exact IH]].
Qed.

(** ** The verdict is only ever cleared (C6) *)

(** The discipline a run [r], started in [s0] and making the comparisons
    [checks], keeps on its verdict. *)
Definition verdict_discipline {I L} (r : Run I L) (s0 : State I L)
    (checks : list bool) : Prop :=
  pass s0 = true
  /\ assigns (trace r) = clears checks
  /\ Forall (fun b => b = false) (assigns (trace r))
  /\ pass (final r) = verdict_after true (trace r)
  /\ forall t1 t2,
       trace r = t1 ++ t2 -> verdict_after true t1 = false ->
       verdict_after true (t1 ++ t2) = false /\ pass (final r) = false.

Lemma verdict_discipline_intro {I L} (main : M I L Z) (s0 : State I L)
    (checks : list bool) :
  Disciplined main -> pass s0 = true ->
  assigns (trace (run_main main s0)) = clears checks ->
  verdict_discipline (run_main main s0) s0 checks.
Proof.
  intros Hd Hs Ha. destruct (run_verdict main s0 Hd) as [Hp Hf]. rewrite Hs in Hp.
  split; [exact Hs|]. split; [exact Ha|]. split; [exact Hf|]. split; [exact Hp|].
  intros t1 t2 Ht H1.
  assert (G : verdict_after true (t1 ++ t2) = false).
  { unfold verdict_after in *. rewrite Ht, assigns_app in Hf.
    apply Forall_app in Hf. destruct Hf as [Hf1 Hf2].
    rewrite assigns_app. apply last_all_false.
    - apply Forall_app. split; assumption.
    - destruct (assigns t1); [discriminate H1 | discriminate]. }
  split; [exact G|]. rewrite Hp, Ht. exact G.
Qed.

(** C6: in each of the three testbenches the verdict starts true, each
    failing comparison assigns false to it, in order, and nothing else is
    ever assigned; so once the verdict is false after some prefix of a run it
    is false after the whole run, and that is the verdict returned. *)
Theorem verdict_never_restored (Mdl : Model) :
  verdict_discipline (Adder.run Mdl) (Adder.init Mdl)
    (map fst (adder_comparisons (evals (trace (Adder.run Mdl)))))
  /\ verdict_discipline (Reg.run Mdl) (Reg.init Mdl)
       (map fst (reg_comparisons (evals (trace (Reg.run Mdl)))))
  /\ verdict_discipline (Timer.run Mdl) (Timer.init Mdl)
       (map fst (timer_comparisons (evals (trace (Timer.run Mdl))))).
Proof.
  split; [|split].
  - apply verdict_discipline_intro; [apply adder_disciplined | reflexivity |].
    fold (Adder.run Mdl). rewrite adder_assigns, adder_comparisons_checks.
    symmetry. apply clears_map.
  - apply verdict_discipline_intro; [apply reg_disciplined | reflexivity |].
    fold (Reg.run Mdl). rewrite reg_assigns, reg_comparisons_checks.
    symmetry. apply clears_map.
  - apply verdict_discipline_intro; [apply timer_disciplined | reflexivity |].
    fold (Timer.run Mdl). rewrite timer_assigns, timer_comparisons_checks. reflexivity.
Qed.

(** C6 instantiated on the adder stuck at 0: the verdict is false after the
    first ten events of the run (the pair 0 + 1 fails) and false at the end. *)
Lemma verdict_never_restored_witness :
  verdict_after true (firstn 10 (trace (Adder.run Models.stuck_adder))) = false
  /\ pass (final (Adder.run Models.stuck_adder)) = false.
Proof.
  destruct (verdict_never_restored Models.stuck_adder) as [(_ & _ & _ & _ & H) _].
  split; [vm_compute; reflexivity|].
  apply (H (firstn 10 (trace (Adder.run Models.stuck_adder)))
           (skipn 10 (trace (Adder.run Models.stuck_adder)))).
  - symmetry. apply firstn_skipn.
  - vm_compute. reflexivity.
Defined.

(** ** No fail-fast (C7) *)

(** A run [r] that applies the whole [script] and makes all [n]
    [comparisons], whatever their outcome. *)
Definition runs_to_completion {I L} (r : Run I L) (script : list Op)
    (comparisons : list (bool * string)) (n : nat) : Prop :=
  ops (trace r) = script
  /\ length comparisons = n
  /\ assigns (trace r) = clears (map fst comparisons)
  /\ forall c, In c comparisons -> fst c = false ->
       In (snd c) (couts (trace r)) /\ pass (final r) = false.

Lemma zrange_length (lo hi : Z) : length (zrange lo hi) = Z.to_nat (hi - lo).
Proof. unfold zrange. rewrite length_map, length_seq. reflexivity. Qed.

Lemma reg_indexed_cases_length : length reg_indexed_cases = 4%nat.
Proof. reflexivity. Qed.

(** A failing comparison has its diagnostic among the lines printed. *)
Lemma adder_reported {I} (es : list (Dut I)) (tl : list string) (c : bool * string) :
  In c (adder_comparisons es) -> fst c = false ->
  In (snd c)
    (flat_map (fun xd => adder_report (fst xd) (snd xd)) (combine adder_pairs es) ++ tl).
Proof.
  intros Hin Hc. apply in_or_app. left. unfold adder_comparisons in Hin.
  refine (reported
            (fun xd : Z * Z * Dut I => adder_matches (fst xd) (snd xd))
            (fun xd => Adder.diagnostic (fst (fst xd)) (snd (fst xd))
                         (pins (snd xd) io_c)
                         (Adder.expected_c (fst (fst xd)) (snd (fst xd))))
            (fun xd => adder_report (fst xd) (snd xd)) _ c _ Hin Hc).
  intros xd Hx. cbv beta in Hx |- *. unfold adder_report. rewrite Hx. left. reflexivity.
Qed.

Lemma reg_reported {I} (es : list (Dut I)) (tl : list string) (c : bool * string) :
  In c (reg_comparisons es) -> fst c = false ->
  In (snd c)
    (flat_map (fun xd => reg_report (fst xd) (snd xd))
       (combine reg_indexed_cases (reg_samples es)) ++ tl).
Proof.
  intros Hin Hc. apply in_or_app. left. unfold reg_comparisons in Hin.
  refine (reported
            (fun xd : Z * Reg.TestCase * Dut I => reg_matches (fst xd) (snd xd))
            (fun xd => Reg.diagnostic (fst (fst xd))
                         (Reg.tc_expected_q (snd (fst xd))) (pins (snd xd) io_q))
            (fun xd => reg_report (fst xd) (snd xd)) _ c _ Hin Hc).
  intros xd Hx. cbv beta in Hx |- *. unfold reg_report. rewrite Hx. left. reflexivity.
Qed.

Lemma timer_reported {I} (es : list (Dut I)) (p : bool) (c : bool * string) :
  In c (timer_comparisons es) -> fst c = false -> In (snd c) (timer_lines es p).
Proof.
  intros Hin Hc. unfold timer_lines. unfold timer_comparisons in Hin.
  rewrite !in_app_iff in Hin. destruct Hin as [Hin|[Hin|[Hin|[Hin|Hin]]]].
  - apply in_or_app; left. right. apply in_or_app; left.
    refine (reported timer_ok0 _ timer_rep0 _ c _ Hin Hc).
    intros d Hd. cbv beta in Hd |- *. unfold timer_rep0. rewrite Hd. left. reflexivity.
  - apply in_or_app; left. right. apply in_or_app; right.
    refine (reported timer_ok1 _ timer_rep1 _ c _ Hin Hc).
    intros d Hd. cbv beta in Hd |- *. unfold timer_rep1. rewrite Hd. left. reflexivity.
  - apply in_or_app; right. apply in_or_app; left. right.
    apply in_or_app; left.
    refine (reported (timer_ok2 (timer_frozen es)) _ (timer_rep2 (timer_frozen es))
              _ c _ Hin Hc).
    intros d Hd. cbv beta in Hd |- *. unfold timer_rep2. rewrite Hd. left. reflexivity.
  - apply in_or_app; right. apply in_or_app; right. apply in_or_app; left.
    right.
    refine (reported timer_ok3 _ timer_rep3 _ c _ Hin Hc).
    intros d Hd. cbv beta in Hd |- *. unfold timer_rep3. rewrite Hd. left. reflexivity.
  - apply in_or_app; right. apply in_or_app; right. apply in_or_app; right.
    apply in_or_app; left. right. apply in_or_app; left.
    refine (reported timer_ok4 _ timer_rep4 _ c _ Hin Hc).
    intros d Hd. cbv beta in Hd |- *. unfold timer_rep4. rewrite Hd. left. reflexivity.
Qed.

Lemma adder_runs_to_completion (Mdl : Model) :
  runs_to_completion (Adder.run Mdl) adder_script
    (adder_comparisons (evals (trace (Adder.run Mdl)))) 256.
Proof.
  split; [apply adder_ops|]. split; [|split].
  - unfold adder_comparisons.
    rewrite length_map, length_combine, adder_evals_length, adder_pairs_length.
    reflexivity.
  - rewrite adder_assigns, adder_comparisons_checks. symmetry. apply clears_map.
  - intros c Hin Hc. split.
    + rewrite adder_couts. apply adder_reported; assumption.
    + rewrite adder_pass, <- forallb_id_map, <- adder_comparisons_checks.
      exact (failed_comparison Hin Hc).
Qed.

Lemma reg_runs_to_completion (Mdl : Model) :
  runs_to_completion (Reg.run Mdl) reg_script
    (reg_comparisons (evals (trace (Reg.run Mdl)))) 4.
Proof.
  split; [apply reg_ops|]. split; [|split].
  - unfold reg_comparisons.
    rewrite length_map, length_combine, reg_samples_length, reg_indexed_cases_length.
    reflexivity.
  - rewrite reg_assigns, reg_comparisons_checks. symmetry. apply clears_map.
  - intros c Hin Hc. split.
    + rewrite reg_couts. apply reg_reported; assumption.
    + rewrite reg_pass, <- forallb_id_map, <- reg_comparisons_checks.
      exact (failed_comparison Hin Hc).
Qed.

Lemma timer_runs_to_completion (Mdl : Model) :
  runs_to_completion (Timer.run Mdl) timer_script
    (timer_comparisons (evals (trace (Timer.run Mdl)))) 37.
Proof.
  destruct (timer_samples_lengths Mdl) as (L0 & L1 & L2 & L3 & L4).
  split; [apply timer_ops|]. split; [|split].
  - unfold timer_comparisons.
    rewrite !length_app, !length_map, length_combine, zrange_length, L0, L1, L2, L3, L4.
    reflexivity.
  - rewrite timer_assigns, timer_comparisons_checks. reflexivity.
  - intros c Hin Hc. split.
    + rewrite timer_couts. apply timer_reported; assumption.
    + rewrite timer_pass, <- timer_comparisons_checks.
      exact (failed_comparison Hin Hc).
Qed.

(** C7: whatever the model does, each testbench performs the same
    operations on the model (every stimulus is applied), makes every one of
    its comparisons (256, 4 and 37), and for each comparison that fails,
    wherever it stands among the others, prints its diagnostic and clears
    the verdict. *)
Theorem mismatch_never_aborts (Mdl : Model) :
  runs_to_completion (Adder.run Mdl) adder_script
    (adder_comparisons (evals (trace (Adder.run Mdl)))) 256
  /\ runs_to_completion (Reg.run Mdl) reg_script
       (reg_comparisons (evals (trace (Reg.run Mdl)))) 4
  /\ runs_to_completion (Timer.run Mdl) timer_script
       (timer_comparisons (evals (trace (Timer.run Mdl)))) 37.
Proof.
  split; [apply adder_runs_to_completion|].
  split; [apply reg_runs_to_completion | apply timer_runs_to_completion].
Qed.

(** C7 instantiated on a counter that counts modulo 16: the failure of
    cycle 9 does not prevent the failure of cycle 15 from being reported. *)
Lemma mismatch_never_aborts_witness :
  In "FAILED: Cycle 15 - Expected count=6, Got=0"
    (couts (trace (Timer.run Models.hex_timer)))
  /\ pass (final (Timer.run Models.hex_timer)) = false.
Proof.
  destruct (mismatch_never_aborts Models.hex_timer) as (_ & _ & _ & _ & _ & H).
  apply (H (false, "FAILED: Cycle 15 - Expected count=6, Got=0")).
  - vm_compute. do 16 right. left. reflexivity.
  - reflexivity.
Defined.

(** ** Clocking (C8) *)

Definition is_eval (o : Op) : bool :=
  match o with OpEval => true | _ => false end.

(** The evaluation points of a trace are its [eval()] calls, in order. *)
Lemma evals_count {I} (t : list (Event I)) :
  length (evals t) = length (filter is_eval (ops t)).
Proof.
  induction t as [|e t IH]; [reflexivity|].
  unfold evals, ops in *.
  destruct e; cbn [flat_map app filter is_eval length]; rewrite ?IH; reflexivity.
Qed.

Lemma nth_error_falling {A} (l : list A) (k : nat) :
  nth_error (falling l) k = nth_error l (2 * k + 1).
Proof.
  revert l. induction k as [|k IH]; intros [|a [|b l]]; try reflexivity.
  - destruct k; reflexivity.
  - cbn [falling]. replace (2 * S k + 1)%nat with (S (S (2 * k + 1))) by lia.
    cbn [nth_error]. apply IH.
Qed.

(** The [k]-th point picked in a window of [n] clock periods is the
    evaluation after the falling edge of the [k]-th period. *)
Lemma nth_error_samples {A} (from n : nat) (l : list A) (k : nat) :
  (k < n)%nat ->
  nth_error (falling (window from (2 * n) l)) k = nth_error l (from + 2 * k + 1).
Proof.
  intros H. unfold window. rewrite nth_error_falling, nth_error_firstn, nth_error_skipn.
  replace (2 * k + 1 <? 2 * n)%nat with true by (symmetry; apply Nat.ltb_lt; lia).
  f_equal. lia.
Qed.

Lemma adder_script_no_clock (v : Z) : ~ In (OpWrite clock v) adder_script.
Proof.
  unfold adder_script. rewrite in_app_iff, in_flat_map.
  intros [[ab [_ H]]|H].
  - destruct H as [H|[H|[H|[]]]]; discriminate H.
  - destruct H as [H|[]]. discriminate H.
Qed.

(** C8: for every case the register testbench writes the inputs, drives
    the clock high, evaluates, drives it low, evaluates, and compares io_q
    at the point left by that second evaluation; the counter testbench does
    the same with every period of its four tests; the adder testbench
    writes the two operands, evaluates once, compares io_c at the point left
    by that evaluation, and never writes the clock. *)
Theorem clocking_discipline (Mdl : Model) :
  let reg_es := evals (trace (Reg.run Mdl)) in
  let timer_es := evals (trace (Timer.run Mdl)) in
  let adder_es := evals (trace (Adder.run Mdl)) in
  (* register *)
  (ops (trace (Reg.run Mdl))
   = reg_prologue_ops ++ flat_map reg_case_ops reg_indexed_cases
     ++ [OpVcd VcdClose; OpDelete]
   /\ (forall it,
         filter (fun o => negb (is_dump o)) (reg_case_ops it)
         = [OpWrite io_reset (Z.b2z (Reg.tc_io_reset (snd it)));
            OpWrite io_d (Reg.tc_d (snd it));
            OpWrite clock 1; OpEval; OpWrite clock 0; OpEval])
   /\ length reg_es = length (filter is_eval (ops (trace (Reg.run Mdl))))
   /\ (forall k, (k < 4)%nat ->
         nth_error (reg_samples reg_es) k = nth_error reg_es (2 + 2 * k + 1))
   /\ pass (final (Reg.run Mdl))
      = forallb (fun b => b) (map fst (reg_comparisons reg_es)))
  (* counter *)
  /\ (ops (trace (Timer.run Mdl)) = timer_script
      /\ timer_period_ops = [OpWrite clock 1; OpEval; OpWrite clock 0; OpEval]
      /\ length timer_es = length (filter is_eval (ops (trace (Timer.run Mdl))))
      /\ (forall k, (k < 20)%nat ->
            nth_error (timer_test1_samples timer_es) k
            = nth_error timer_es (2 + 2 * k + 1))
      /\ (forall k, (k < 5)%nat ->
            nth_error (timer_test2_samples timer_es) k
            = nth_error timer_es (42 + 2 * k + 1))
      /\ (forall k, (k < 1)%nat ->
            nth_error (timer_test3_samples timer_es) k
            = nth_error timer_es (52 + 2 * k + 1))
      /\ (forall k, (k < 10)%nat ->
            nth_error (timer_test4_samples timer_es) k
            = nth_error timer_es (56 + 2 * k + 1))
      /\ pass (final (Timer.run Mdl))
         = forallb (fun b => b) (map fst (timer_comparisons timer_es)))
  (* adder *)
  /\ (ops (trace (Adder.run Mdl)) = flat_map adder_vector_ops adder_pairs ++ [OpDelete]
      /\ (forall ab, adder_vector_ops ab
                     = [OpWrite io_a (fst ab); OpWrite io_b (snd ab); OpEval])
      /\ (forall v, ~ In (OpWrite clock v) (ops (trace (Adder.run Mdl))))
      /\ length adder_es = length adder_pairs
      /\ pass (final (Adder.run Mdl))
         = forallb (fun b => b) (map fst (adder_comparisons adder_es))).
Proof.
  cbv zeta. split; [|split].
  - split; [apply reg_ops|]. split; [intros it; reflexivity|].
    split; [apply evals_count|]. split.
    + intros k Hk. apply (nth_error_samples 2 4). exact Hk.
    + rewrite reg_pass, <- forallb_id_map, <- reg_comparisons_checks. reflexivity.
  - split; [apply timer_ops|]. split; [reflexivity|].
    split; [apply evals_count|].
    split; [intros k Hk; apply (nth_error_samples 2 20); exact Hk|].
    split; [intros k Hk; apply (nth_error_samples 42 5); exact Hk|].
    split; [intros k Hk; apply (nth_error_samples 52 1); exact Hk|].
    split; [intros k Hk; apply (nth_error_samples 56 10); exact Hk|].
    rewrite timer_pass, <- timer_comparisons_checks. reflexivity.
  - split; [apply adder_ops|]. split; [intros ab; reflexivity|].
    split; [intros v; rewrite adder_ops; apply adder_script_no_clock|].
    split; [rewrite adder_evals_length, adder_pairs_length; reflexivity|].
    rewrite adder_pass, <- forallb_id_map, <- adder_comparisons_checks. reflexivity.
Qed.

(** C8 instantiated on the correct register: the second comparison reads
    io_q = 0xA at evaluation point 5, after the falling edge of its period. *)
Lemma clocking_discipline_witness :
  option_map (fun d => pins d io_q)
    (nth_error (reg_samples (evals (trace (Reg.run Models.good_reg)))) 1)
  = Some 10.
Proof.
  destruct (clocking_discipline Models.good_reg) as [(_ & _ & _ & H & _) _].
  rewrite (H 1%nat) by lia. vm_compute. reflexivity.
Defined.

(** * Further properties of the three testbenches *)

(** ** The evaluation points are the model's answers to the script *)

(** What a model whose [eval()] is [step] answers to a list of operations
    applied to the object [d]: the object left by each evaluation, every
    write landing on the object the previous operation left.  The recorder
    calls and the deletion do not touch the members. *)
Fixpoint responses {I} (step : Dut I -> Dut I) (script : list Op) (d : Dut I)
    : list (Dut I) :=
  match script with
  | [] => []
  | OpWrite p v :: k => responses step k (set p v d)
  | OpEval :: k => step d :: responses step k (step d)
  | OpVcd _ :: k => responses step k d
  | OpDelete :: k => responses step k d
  end.

(** The object the operations leave. *)
Fixpoint left_by {I} (step : Dut I -> Dut I) (script : list Op) (d : Dut I) : Dut I :=
  match script with
  | [] => d
  | OpWrite p v :: k => left_by step k (set p v d)
  | OpEval :: k => left_by step k (step d)
  | OpVcd _ :: k => left_by step k d
  | OpDelete :: k => left_by step k d
  end.

Lemma responses_app {I} (step : Dut I -> Dut I) (a b : list Op) (d : Dut I) :
  responses step (a ++ b) d = responses step a d ++ responses step b (left_by step a d).
Proof.
  revert d. induction a as [|o a IH]; intros d; [reflexivity|].
  destruct o; cbn [app responses left_by]; rewrite IH; reflexivity.
Qed.

Lemma left_by_app {I} (step : Dut I -> Dut I) (a b : list Op) (d : Dut I) :
  left_by step (a ++ b) d = left_by step b (left_by step a d).
Proof.
  revert d. induction a as [|o a IH]; intros d; [reflexivity|].
  destruct o; cbn [app left_by]; rewrite IH; reflexivity.
Qed.

Section Replay.
Context {I L : Type}.
Variable step : Dut I -> Dut I.

(** A program whose evaluation points and final object are those of its
    own operations replayed on the object it started with: it changes the
    object by writes and evaluations only, and evaluates with [step]. *)
Definition Replays {A} (m : M I L A) : Prop :=
  forall s : State I L,
    evals (emit m s) = responses step (ops (emit m s)) (dut s)
    /\ dut (exec m s) = left_by step (ops (emit m s)) (dut s).

Lemma replays_ret {A} (a : A) : Replays (@ret I L A a).
Proof. intros s. split; reflexivity. Qed.

Lemma replays_write p v : Replays (@write I L p v).
Proof. intros s. split; reflexivity. Qed.

Lemma replays_eval : Replays (@eval I L step).
Proof. intros s. split; reflexivity. Qed.

Lemma replays_read p : Replays (@read I L p).
Proof. intros s. split; reflexivity. Qed.

Lemma replays_cout l : Replays (@cout I L l).
Proof. intros s. split; reflexivity. Qed.

Lemma replays_assign b : Replays (@assign_pass I L b).
Proof. intros s. split; reflexivity. Qed.

Lemma replays_get_pass : Replays (@get_pass I L).
Proof. intros s. split; reflexivity. Qed.

Lemma replays_get_local : Replays (@get_local I L).
Proof. intros s. split; reflexivity. Qed.

Lemma replays_set_local l : Replays (@set_local I L l).
Proof. intros s. split; reflexivity. Qed.

Lemma replays_vcd c : Replays (@vcd I L c).
Proof. intros s. split; reflexivity. Qed.

Lemma replays_delete : Replays (@delete_dut I L).
Proof. intros s. split; reflexivity. Qed.

Lemma replays_bind {A B} (m : M I L A) (k : A -> M I L B) :
  Replays m -> (forall a, Replays (k a)) -> Replays (bind m k).
Proof.
  intros Hm Hk s. rewrite emit_bind, exec_bind, evals_app, ops_app.
  destruct (Hm s) as [Hm1 Hm2].
  destruct (Hk (value m s) (exec m s)) as [Hk1 Hk2].
  rewrite responses_app, left_by_app, <- Hm2, <- Hm1, <- Hk1, <- Hk2.
  split; reflexivity.
Qed.

Lemma replays_if {A} (b : bool) (m1 m2 : M I L A) :
  Replays m1 -> Replays m2 -> Replays (if b then m1 else m2).
Proof. destruct b; auto. Qed.

Lemma replays_when (b : bool) (m : M I L unit) : Replays m -> Replays (when b m).
Proof. intros H. unfold when. apply replays_if; [exact H | apply replays_ret]. Qed.

Lemma replays_foreach {X} (l : list X) (body : X -> M I L unit) :
  (forall x, Replays (body x)) -> Replays (foreach l body).
Proof.
  intros H. induction l as [|x l IH]; cbn [foreach].
  - apply replays_ret.
  - apply replays_bind; auto.
Qed.

Lemma replays_for lo hi (body : Z -> M I L unit) :
  (forall i, Replays (body i)) -> Replays (for_ lo hi body).
Proof. apply replays_foreach. Qed.

End Replay.

Create HintDb replay.
#[export] Hint Resolve replays_ret replays_write replays_eval replays_read
  replays_cout replays_assign replays_get_pass replays_get_local
  replays_set_local replays_vcd replays_delete : replay.

Ltac replay_step :=
  lazymatch goal with
  | |- Replays _ (bind _ _) => apply replays_bind; [ | intros ?; cbv beta ]
  | |- Replays _ (when _ _) => apply replays_when
  | |- Replays _ (for_ _ _ _) => apply replays_for; intros ?; cbv beta
  | |- Replays _ (foreach _ _) => apply replays_foreach; intros ?; cbv beta
  | |- Replays _ (if _ then _ else _) => apply replays_if
  | |- Replays _ (let _ := _ in _) => cbv zeta
  | |- Replays _ _ => solve [ auto with replay ]
  end.

Ltac replay := repeat replay_step.

Lemma adder_replays (Mdl : Model) : Replays (model_eval Mdl) (Adder.main Mdl).
Proof. unfold Adder.main, Adder.body. replay. Qed.

Lemma reg_replays (Mdl : Model) : Replays (model_eval Mdl) (Reg.main Mdl).
Proof.
  unfold Reg.main, Reg.prologue, Reg.epilogue, Reg.body, Reg.dump. replay.
Qed.

Lemma timer_replays (Mdl : Model) : Replays (model_eval Mdl) (Timer.main Mdl).
Proof.
  unfold Timer.main, Timer.startup, Timer.test1, Timer.test1_setup,
    Timer.test2, Timer.test2_setup, Timer.test2_report, Timer.test3,
    Timer.test4, Timer.test4_setup, Timer.finish, Timer.body1,
    Timer.body2, Timer.body4, Timer.period.
  replay.
Qed.

Lemma adder_evals_responses (Mdl : Model) :
  evals (trace (Adder.run Mdl)) = responses (model_eval Mdl) adder_script (new_dut Mdl).
Proof.
  destruct (adder_replays Mdl (Adder.init Mdl)) as [H _].
  rewrite <- (adder_ops Mdl). exact H.
Qed.

Lemma reg_evals_responses (Mdl : Model) :
  evals (trace (Reg.run Mdl)) = responses (model_eval Mdl) reg_script (new_dut Mdl).
Proof.
  destruct (reg_replays Mdl (Reg.init Mdl)) as [H _].
  rewrite <- (reg_ops Mdl). exact H.
Qed.

Lemma timer_evals_responses (Mdl : Model) :
  evals (trace (Timer.run Mdl)) = responses (model_eval Mdl) timer_script (new_dut Mdl).
Proof.
  destruct (timer_replays Mdl (Timer.init Mdl)) as [H _].
  rewrite <- (timer_ops Mdl). exact H.
Qed.

Lemma adder_final_dut (Mdl : Model) :
  dut (final (Adder.run Mdl)) = left_by (model_eval Mdl) adder_script (new_dut Mdl).
Proof.
  destruct (adder_replays Mdl (Adder.init Mdl)) as [_ H].
  rewrite <- (adder_ops Mdl). exact H.
Qed.

(** X1: in each of the three testbenches the evaluation points of a run
    are the answers of the model to the testbench's fixed script, replayed
    from the freshly built object: the testbench changes the object by the
    script's writes and evaluations only, and nothing the model answers
    changes what is applied next. *)
Theorem evaluation_points_replay_script (Mdl : Model) :
  evals (trace (Adder.run Mdl)) = responses (model_eval Mdl) adder_script (new_dut Mdl)
  /\ evals (trace (Reg.run Mdl)) = responses (model_eval Mdl) reg_script (new_dut Mdl)
  /\ evals (trace (Timer.run Mdl))
     = responses (model_eval Mdl) timer_script (new_dut Mdl).
Proof.
  split; [apply adder_evals_responses|].
  split; [apply reg_evals_responses | apply timer_evals_responses].
Qed.

(** ** Which models the adder testbench accepts *)

(** A model is combinational in [f] when the [io_c] that [eval()] leaves is
    [f] of the [io_a] and [io_b] it finds. *)
Definition combinational (Mdl : Model) (f : Z -> Z -> Z) : Prop :=
  forall d, pins (model_eval Mdl d) io_c = f (pins d io_a) (pins d io_b).

Lemma pins_set_same {I} (p : Pin) (v : Z) (d : Dut I) : pins (set p v d) p = v.
Proof. unfold set. cbn [pins]. destruct (Pin_eq_dec p p); [reflexivity|contradiction]. Qed.

(** The answers of a combinational model to the vectors of the script. *)
Lemma adder_responses_combinational {I} (step : Dut I -> Dut I) (f : Z -> Z -> Z)
    (l : list (Z * Z)) (tl : list Op) (d : Dut I) :
  (forall d, pins (step d) io_c = f (pins d io_a) (pins d io_b)) ->
  map (fun d => pins d io_c)
    (firstn (length l) (responses step (flat_map adder_vector_ops l ++ tl) d))
  = map (fun ab => f (fst ab) (snd ab)) l.
Proof.
  intros Hf. revert d. induction l as [|[a b] l IH]; intros d; [reflexivity|].
  cbn [flat_map adder_vector_ops app responses fst snd length firstn map].
  rewrite IH, Hf, pins_set_same, pins_set_other, pins_set_same by discriminate.
  reflexivity.
Qed.

Lemma combine_map_snd {A B C} (g : B -> C) (l : list A) (es : list B) (cs : list C) :
  map g (firstn (length l) es) = cs -> length cs = length l ->
  map (fun xd => (fst xd, g (snd xd))) (combine l es) = combine l cs.
Proof.
  revert es cs. induction l as [|x l IH]; intros es cs H HL; [reflexivity|].
  destruct es as [|e es]; cbn [length firstn map] in H.
  - subst cs. discriminate HL.
  - destruct cs as [|c cs]; [discriminate H|]. injection H as H1 H2.
    cbn [combine map fst snd]. rewrite H1. f_equal. apply IH; [exact H2|].
    injection HL as HL. exact HL.
Qed.

Lemma forallb_map_comp {A B} (g : A -> B) (P : B -> bool) (l : list A) :
  forallb P (map g l) = forallb (fun x => P (g x)) l.
Proof. induction l as [|x l IH]; [reflexivity|]. cbn. rewrite IH. reflexivity. Qed.

Lemma flat_map_map_comp {A B C} (g : A -> B) (h : B -> list C) (l : list A) :
  flat_map h (map g l) = flat_map (fun x => h (g x)) l.
Proof. induction l as [|x l IH]; [reflexivity|]. cbn. rewrite IH. reflexivity. Qed.

Lemma flat_map_all_nil {A B} (h : A -> list B) (l : list A) :
  (forall x, In x l -> h x = []) -> flat_map h l = [].
Proof.
  induction l as [|x l IH]; intros H; [reflexivity|].
  cbn [flat_map]. rewrite (H x (or_introl eq_refl)), IH; [reflexivity|].
  intros y Hy. apply H. right. exact Hy.
Qed.

Lemma combine_map_self {A C} (h : A -> C) (l : list A) :
  combine l (map h l) = map (fun x => (x, h x)) l.
Proof. induction l as [|x l IH]; [reflexivity|]. cbn. rewrite IH. reflexivity. Qed.

Section AdderAccepts.
Variable Mdl : Model.
Variable f : Z -> Z -> Z.
Hypothesis Hf : combinational Mdl f.

(** The pairs with the [io_c] read at their evaluation points. *)
Lemma adder_observed :
  map (fun xd => (fst xd, pins (snd xd) io_c))
    (combine adder_pairs (evals (trace (Adder.run Mdl))))
  = map (fun ab => (ab, f (fst ab) (snd ab))) adder_pairs.
Proof.
  rewrite <- (combine_map_self (fun ab => f (fst ab) (snd ab))).
  apply (combine_map_snd (fun d : Dut (core_t Mdl) => pins d io_c)).
  - rewrite adder_evals_responses. unfold adder_script.
    apply adder_responses_combinational. exact Hf.
  - apply length_map.
Qed.

Lemma adder_pass_combinational :
  pass (final (Adder.run Mdl))
  = forallb (fun ab => f (fst ab) (snd ab) =? Adder.expected_c (fst ab) (snd ab))
      adder_pairs.
Proof.
  rewrite adder_pass.
  transitivity
    (forallb (fun xc : Z * Z * Z => snd xc =? Adder.expected_c (fst (fst xc)) (snd (fst xc)))
       (map (fun xd : Z * Z * Dut (core_t Mdl) => (fst xd, pins (snd xd) io_c))
          (combine adder_pairs (evals (trace (Adder.run Mdl)))))).
  - rewrite forallb_map_comp. reflexivity.
  - rewrite adder_observed, forallb_map_comp. reflexivity.
Qed.

Lemma adder_couts_combinational :
  couts (trace (Adder.run Mdl))
  = flat_map (fun ab =>
                if f (fst ab) (snd ab) =? Adder.expected_c (fst ab) (snd ab) then []
                else [Adder.diagnostic (fst ab) (snd ab) (f (fst ab) (snd ab))
                        (Adder.expected_c (fst ab) (snd ab))])
      adder_pairs
    ++ (if pass (final (Adder.run Mdl)) then ["--- TEST PASSED ---"] else []).
Proof.
  rewrite adder_couts. f_equal.
  transitivity
    (flat_map (fun xc : Z * Z * Z =>
                 if snd xc =? Adder.expected_c (fst (fst xc)) (snd (fst xc)) then []
                 else [Adder.diagnostic (fst (fst xc)) (snd (fst xc)) (snd xc)
                         (Adder.expected_c (fst (fst xc)) (snd (fst xc)))])
       (map (fun xd : Z * Z * Dut (core_t Mdl) => (fst xd, pins (snd xd) io_c))
          (combine adder_pairs (evals (trace (Adder.run Mdl)))))).
  - rewrite flat_map_map_comp. apply flat_map_ext. intros [[a b] d].
    unfold adder_report, adder_matches. reflexivity.
  - rewrite adder_observed, flat_map_map_comp. reflexivity.
Qed.

End AdderAccepts.

(** X2: a model whose io_c after eval() is a function f of the io_a and
    io_b it is given passes the adder testbench exactly when f a b is
    (a + b) mod 16 for all 256 pairs of 4-bit operands; it then prints the
    single line of the summary; and for each pair on which f differs, the
    diagnostic of that pair, showing f a b, is printed and the run fails. *)
Theorem adder_accepts_exactly_adders (Mdl : Model) (f : Z -> Z -> Z) :
  combinational Mdl f ->
  let r := Adder.run Mdl in
  (pass (final r) = true <->
     forall a b, 0 <= a < 16 -> 0 <= b < 16 -> f a b = (a + b) mod 16)
  /\ (pass (final r) = true -> couts (trace r) = ["--- TEST PASSED ---"])
  /\ (forall a b, 0 <= a < 16 -> 0 <= b < 16 -> f a b <> (a + b) mod 16 ->
        pass (final r) = false
        /\ In (Adder.diagnostic a b (f a b) ((a + b) mod 16)) (couts (trace r))).
Proof.
  intros Hf. cbv zeta.
  assert (Hiff : pass (final (Adder.run Mdl)) = true <->
                 forall a b, 0 <= a < 16 -> 0 <= b < 16 -> f a b = (a + b) mod 16).
  { rewrite (adder_pass_combinational Mdl f Hf), forallb_forall. split.
    - intros H a b Ha Hb.
      assert (Hin : In (a, b) adder_pairs) by (apply adder_pairs_spec; split; assumption).
      specialize (H (a, b) Hin). cbn [fst snd] in H. apply Z.eqb_eq in H.
      rewrite H. apply expected_c_mod.
    - intros H [a b] Hin. apply adder_pairs_spec in Hin. destruct Hin as [Ha Hb].
      cbn [fst snd]. apply Z.eqb_eq. rewrite expected_c_mod. apply H; assumption. }
  split; [exact Hiff|]. split.
  - intros Hp. rewrite (adder_couts_combinational Mdl f Hf), Hp.
    rewrite (adder_pass_combinational Mdl f Hf) in Hp.
    rewrite forallb_forall in Hp.
    rewrite flat_map_all_nil; [reflexivity|].
    intros ab Hin. rewrite (Hp ab Hin). reflexivity.
  - intros a b Ha Hb Hne.
    assert (Hin : In (a, b) adder_pairs) by (apply adder_pairs_spec; split; assumption).
    split.
    + destruct (pass (final (Adder.run Mdl))) eqn:E; [|reflexivity].
      exfalso. apply Hne. apply Hiff; [reflexivity | exact Ha | exact Hb].
    + rewrite (adder_couts_combinational Mdl f Hf). apply in_or_app. left.
      apply in_flat_map. exists (a, b). split; [exact Hin|]. cbn [fst snd].
      rewrite expected_c_mod.
      destruct (f a b =? (a + b) mod 16) eqn:E; [|left; reflexivity].
      apply Z.eqb_eq in E. contradiction.
Qed.

(** X2 instantiated on the 4-bit adder model: it is combinational in
    (a + b) mod 16 and passes. *)
Lemma adder_accepts_exactly_adders_witness :
  pass (final (Adder.run Models.good_adder)) = true.
Proof.
  pose proof (adder_accepts_exactly_adders Models.good_adder
                (fun a b => (a + b) mod 16) (fun d => eq_refl)) as H.
  cbv zeta in H. destruct H as [H _]. apply (proj2 H). intros a b _ _. reflexivity.
Defined.

(** ** Sorting the printed lines by how they begin *)

Lemma filter_flat_map_each {A B} (P : B -> bool) (h : A -> list B) (l : list A) :
  filter P (flat_map h l) = flat_map (fun x => filter P (h x)) l.
Proof.
  induction l as [|x l IH]; [reflexivity|].
  cbn [flat_map]. rewrite filter_app, IH. reflexivity.
Qed.

Lemma filter_cons_app {A} (P : A -> bool) (x : A) (l : list A) :
  filter P (x :: l) = filter P [x] ++ filter P l.
Proof. cbn [filter]. destruct (P x); reflexivity. Qed.

Lemma flat_map_each_nil {A B} (h : A -> list B) (l : list A) :
  (forall x, h x = []) -> flat_map h l = [].
Proof.
  intros H. induction l as [|x l IH]; [reflexivity|].
  cbn [flat_map]. rewrite H, IH. reflexivity.
Qed.

Lemma length_flat_map_clears {A B} (ok : A -> bool) (h : A -> list B) (l : list A) :
  (forall x, length (h x) = if ok x then 0%nat else 1%nat) ->
  length (flat_map h l) = length (clears (map ok l)).
Proof.
  intros H. induction l as [|x l IH]; [reflexivity|].
  cbn [flat_map map]. change (ok x :: map ok l) with ([ok x] ++ map ok l).
  rewrite clears_app, !length_app, IH, H. destruct (ok x); reflexivity.
Qed.

(** The lines of a run of the counter testbench that satisfy [P], block by
    block. *)
Lemma timer_lines_filter {I} (P : string -> bool) (es : list (Dut I)) (p : bool) :
  filter P (timer_lines es p)
  = (filter P [timer_hdr1]
     ++ flat_map (fun d => filter P (timer_rep0 d)) (timer_initial es)
     ++ flat_map (fun id => filter P (timer_rep1 id))
          (combine (zrange 0 20) (timer_test1_samples es)))
    ++ (filter P [timer_hdr2]
        ++ flat_map (fun d => filter P (timer_rep2 (timer_frozen es) d))
             (timer_test2_samples es)
        ++ filter P [timer_frozen_line (last (map count_of (timer_test2_samples es)) 0)])
    ++ (filter P [timer_hdr3]
        ++ flat_map (fun d => filter P (timer_rep3 d)) (timer_test3_samples es))
    ++ (filter P [timer_hdr4]
        ++ flat_map (fun d => filter P (timer_rep4 d)) (timer_test4_samples es)
        ++ filter P ["  Overflow signal works correctly ✓"])
    ++ filter P ((nl ++ timer_rule)%string :: timer_summary p 20 ++ [timer_rule]).
Proof.
  unfold timer_lines. rewrite !filter_app.
  rewrite (filter_cons_app P timer_hdr1), (filter_cons_app P timer_hdr2),
    (filter_cons_app P timer_hdr3), (filter_cons_app P timer_hdr4).
  rewrite !filter_app, !filter_flat_map_each. reflexivity.
Qed.

(** Deciding a filter on the lines one comparison prints. *)
Ltac sort_lines :=
  intros;
  unfold timer_rep0, timer_rep1, timer_rep2, timer_rep3, timer_rep4, timer_summary,
    timer_frozen_line, Timer.cycle_diagnostic, Timer.progress,
    adder_report, reg_report, Adder.diagnostic, Reg.diagnostic;
  repeat match goal with
         | |- context [if ?c then _ else _] => destruct c
         end;
  reflexivity.

(** *** The summary block (lines 121-131) *)

Definition timer_verdict_line (p : bool) : string :=
  if p then "TEST PASSED - All tests successful!" else "TEST FAILED - Some tests failed".

Lemma timer_lines_verdict {I} (es : list (Dut I)) (p : bool) :
  filter (String.prefix "TEST") (timer_lines es p) = [timer_verdict_line p].
Proof.
  rewrite timer_lines_filter.
  rewrite !flat_map_each_nil by sort_lines.
  destruct p; reflexivity.
Qed.

Lemma timer_lines_total {I} (es : list (Dut I)) (p : bool) :
  filter (String.prefix "Total test cycles") (timer_lines es p)
  = if p then ["Total test cycles: 20"] else [].
Proof.
  rewrite timer_lines_filter.
  rewrite !flat_map_each_nil by sort_lines.
  destruct p; reflexivity.
Qed.

Lemma timer_lines_end {I} (es : list (Dut I)) (p : bool) :
  exists body,
    timer_lines es p
    = body ++ (nl ++ timer_rule)%string :: timer_summary p 20 ++ [timer_rule].
Proof.
  unfold timer_lines. eexists. rewrite !app_assoc. reflexivity.
Qed.

(** X3: the counter testbench ends its output with the summary block: a
    blank line and a rule, the verdict line (followed, on a pass only, by
    the cycle count), and a rule.  The verdict line agrees with the exit
    status, and no other line of the run begins with TEST.  The cycle count
    is that of Test 1 alone: 20 in every run, although 37 periods are
    clocked. *)
Theorem timer_summary_agrees_with_exit (Mdl : Model) :
  let r := Timer.run Mdl in
  (exit_code r = 0 \/ exit_code r = 1)
  /\ (exists body,
        couts (trace r)
        = body
          ++ [(nl ++ "========================================")%string]
          ++ (if exit_code r =? 0
              then ["TEST PASSED - All tests successful!"; "Total test cycles: 20"]
              else ["TEST FAILED - Some tests failed"])
          ++ ["========================================"])
  /\ filter (String.prefix "TEST") (couts (trace r))
     = [if exit_code r =? 0 then "TEST PASSED - All tests successful!"
        else "TEST FAILED - Some tests failed"]
  /\ filter (String.prefix "Total test cycles") (couts (trace r))
     = (if exit_code r =? 0 then ["Total test cycles: 20"] else [])
  /\ locals (final r) = 20
  /\ length (filter (fun o => match o with OpWrite clock 1 => true | _ => false end)
               (ops (trace r))) = 37%nat.
Proof.
  cbv zeta. rewrite timer_couts, timer_exit, timer_ops.
  generalize (evals (trace (Timer.run Mdl))) as es.
  generalize (pass (final (Timer.run Mdl))) as p. intros p es.
  split; [destruct p; auto|].
  split.
  { destruct (timer_lines_end es p) as [body H]. exists body. rewrite H.
    destruct p; reflexivity. }
  split; [rewrite timer_lines_verdict; destruct p; reflexivity|].
  split; [rewrite timer_lines_total; destruct p; reflexivity|].
  split; [apply timer_test_count | reflexivity].
Qed.

(** *** The progress lines of Test 1 (lines 53-56) *)

(** The cycles of Test 1 after which a progress line is printed. *)
Definition timer_reports_progress (i : Z) : bool := (i <? 15) && (Z.rem i 5 =? 0).

Lemma timer_rep1_progress {I} (id : Z * Dut I) :
  filter (String.prefix "  After cycle") (timer_rep1 id)
  = if timer_reports_progress (fst id)
    then [Timer.progress (fst id) (count_of (snd id)) (overflow_of (snd id))]
    else [].
Proof. unfold timer_reports_progress. sort_lines. Qed.

Lemma timer_lines_progress {I} (es : list (Dut I)) (p : bool) :
  filter (String.prefix "  After cycle") (timer_lines es p)
  = flat_map (fun id : Z * Dut I =>
                if timer_reports_progress (fst id)
                then [Timer.progress (fst id) (count_of (snd id)) (overflow_of (snd id))]
                else [])
      (combine (zrange 0 20) (timer_test1_samples es)).
Proof.
  rewrite timer_lines_filter.
  rewrite (flat_map_ext _ _ timer_rep1_progress).
  rewrite (flat_map_each_nil _ (timer_initial es)) by sort_lines.
  rewrite (flat_map_each_nil _ (timer_test2_samples es)) by sort_lines.
  rewrite (flat_map_each_nil _ (timer_test3_samples es)) by sort_lines.
  rewrite (flat_map_each_nil _ (timer_test4_samples es)) by sort_lines.
  destruct p; cbn [filter String.prefix app]; rewrite ?app_nil_r; reflexivity.
Qed.

Lemma timer_progress_three {I} (l : list (Dut I)) :
  length l = 20%nat ->
  exists d0 d5 d10,
    nth_error l 0 = Some d0 /\ nth_error l 5 = Some d5 /\ nth_error l 10 = Some d10
    /\ flat_map (fun id : Z * Dut I =>
                   if timer_reports_progress (fst id)
                   then [Timer.progress (fst id) (count_of (snd id)) (overflow_of (snd id))]
                   else [])
         (combine (zrange 0 20) l)
       = [Timer.progress 0 (count_of d0) (overflow_of d0);
          Timer.progress 5 (count_of d5) (overflow_of d5);
          Timer.progress 10 (count_of d10) (overflow_of d10)].
Proof.
  intros H.
  do 20 (destruct l as [|? l]; [discriminate H|]).
  destruct l; [|discriminate H].
  do 3 eexists. repeat split; reflexivity.
Qed.

(** X4: whatever the model does and whether or not the comparisons
    succeed, Test 1 prints exactly three progress lines, after cycles 0, 5
    and 10, each showing io_count and io_overflow as they are at the
    evaluation point that ends the cycle (points 3, 13 and 23 of the run). *)
Theorem timer_progress_lines (Mdl : Model) :
  let r := Timer.run Mdl in
  exists d0 d5 d10,
    nth_error (evals (trace r)) 3 = Some d0
    /\ nth_error (evals (trace r)) 13 = Some d5
    /\ nth_error (evals (trace r)) 23 = Some d10
    /\ filter (String.prefix "  After cycle") (couts (trace r))
       = [Timer.progress 0 (count_of d0) (overflow_of d0);
          Timer.progress 5 (count_of d5) (overflow_of d5);
          Timer.progress 10 (count_of d10) (overflow_of d10)].
Proof.
  cbv zeta.
  destruct (timer_samples_lengths Mdl) as (_ & L1 & _).
  rewrite timer_couts, timer_lines_progress.
  revert L1. generalize (evals (trace (Timer.run Mdl))) as es. intros es L1.
  destruct (timer_progress_three _ L1) as (d0 & d5 & d10 & H0 & H5 & H10 & H).
  exists d0, d5, d10.
  split; [rewrite <- H0; symmetry; apply (nth_error_samples 2 20 es 0); lia|].
  split; [rewrite <- H5; symmetry; apply (nth_error_samples 2 20 es 5); lia|].
  split; [rewrite <- H10; symmetry; apply (nth_error_samples 2 20 es 10); lia|].
  exact H.
Qed.

(** *** The lines that end Test 2 and Test 4 (lines 77 and 118) *)

Lemma timer_lines_frozen {I} (es : list (Dut I)) (p : bool) :
  filter (String.prefix "  Enable=0") (timer_lines es p)
  = [timer_frozen_line (last (map count_of (timer_test2_samples es)) 0)].
Proof.
  rewrite timer_lines_filter.
  rewrite !flat_map_each_nil by sort_lines.
  destruct p; reflexivity.
Qed.

Lemma timer_lines_works {I} (es : list (Dut I)) (p : bool) :
  filter (String.prefix "  Overflow signal") (timer_lines es p)
  = ["  Overflow signal works correctly ✓"].
Proof.
  rewrite timer_lines_filter.
  rewrite !flat_map_each_nil by sort_lines.
  destruct p; reflexivity.
Qed.

Lemma last_of_five {A B} (g : A -> B) (l : list A) (z : B) :
  length l = 5%nat -> exists d, nth_error l 4 = Some d /\ last (map g l) z = g d.
Proof.
  intros H. do 5 (destruct l as [|? l]; [discriminate H|]).
  destruct l; [|discriminate H]. eexists. split; reflexivity.
Qed.

(** X5: in every run of the counter testbench, whether or not the
    comparisons of Test 2 and of Test 4 succeeded, Test 2 ends with the
    line "count frozen at c" marked with a tick, c being the io_count at
    the last evaluation point of Test 2 (point 51), and Test 4 ends with
    the line "Overflow signal works correctly" marked with a tick; each is
    printed once. *)
Theorem timer_ticks_unconditional (Mdl : Model) :
  let r := Timer.run Mdl in
  exists d,
    nth_error (evals (trace r)) 51 = Some d
    /\ filter (String.prefix "  Enable=0") (couts (trace r))
       = [("  Enable=0, count frozen at " ++ dec (pins d io_count) ++ " ✓")%string]
    /\ filter (String.prefix "  Overflow signal") (couts (trace r))
       = ["  Overflow signal works correctly ✓"].
Proof.
  cbv zeta.
  destruct (timer_samples_lengths Mdl) as (_ & _ & L2 & _).
  rewrite timer_couts, timer_lines_frozen, timer_lines_works.
  revert L2. generalize (evals (trace (Timer.run Mdl))) as es. intros es L2.
  destruct (last_of_five count_of _ 0 L2) as (d & Hd & Hl).
  exists d. rewrite Hl.
  split; [rewrite <- Hd; symmetry; apply (nth_error_samples 42 5 es 4); lia|].
  split; reflexivity.
Qed.

(** *** The two lines of Test 3 (lines 87-92) *)

Lemma timer_rep3_success {I} (d : Dut I) :
  filter (String.prefix "  Reset successful") (timer_rep3 d)
  = if pins d io_count =? 0 then ["  Reset successful, count=0 ✓"] else [].
Proof.
  unfold timer_rep3, timer_ok3, count_of.
  destruct (pins d io_count =? 0) eqn:E; [|reflexivity].
  apply Z.eqb_eq in E. rewrite E. reflexivity.
Qed.

Lemma timer_rep3_failure {I} (d : Dut I) :
  filter (String.prefix "FAILED: Reset") (timer_rep3 d)
  = if pins d io_count =? 0 then [] else ["FAILED: Reset didn't clear counter to 0"].
Proof.
  unfold timer_rep3, timer_ok3, count_of.
  destruct (pins d io_count =? 0); reflexivity.
Qed.

Lemma timer_lines_reset {I} (es : list (Dut I)) (p : bool) :
  filter (String.prefix "  Reset successful") (timer_lines es p)
  = flat_map (fun d => if pins d io_count =? 0
                       then ["  Reset successful, count=0 ✓"] else [])
      (timer_test3_samples es)
  /\ filter (String.prefix "FAILED: Reset") (timer_lines es p)
     = flat_map (fun d => if pins d io_count =? 0
                          then [] else ["FAILED: Reset didn't clear counter to 0"])
         (timer_test3_samples es).
Proof.
  split; rewrite timer_lines_filter.
  - rewrite (flat_map_ext _ _ timer_rep3_success).
    rewrite (flat_map_each_nil _ (timer_initial es)) by sort_lines.
    rewrite (flat_map_each_nil _ (combine _ _)) by sort_lines.
    rewrite (flat_map_each_nil _ (timer_test2_samples es)) by sort_lines.
    rewrite (flat_map_each_nil _ (timer_test4_samples es)) by sort_lines.
    destruct p; cbn [filter String.prefix app]; rewrite ?app_nil_r; reflexivity.
  - rewrite (flat_map_ext _ _ timer_rep3_failure).
    rewrite (flat_map_each_nil _ (timer_initial es)) by sort_lines.
    rewrite (flat_map_each_nil _ (combine _ _)) by sort_lines.
    rewrite (flat_map_each_nil _ (timer_test2_samples es)) by sort_lines.
    rewrite (flat_map_each_nil _ (timer_test4_samples es)) by sort_lines.
    destruct p; cbn [filter String.prefix app]; rewrite ?app_nil_r; reflexivity.
Qed.

(** X6: Test 3 prints exactly one of its two lines: the failure line when
    io_count, at the evaluation point that ends the reset period (point
    53), is not 0, and the success line otherwise; the count the success
    line shows is therefore always 0. *)
Theorem timer_reset_line_exclusive (Mdl : Model) :
  let r := Timer.run Mdl in
  exists d,
    nth_error (evals (trace r)) 53 = Some d
    /\ filter (String.prefix "  Reset successful") (couts (trace r))
       = (if pins d io_count =? 0 then ["  Reset successful, count=0 ✓"] else [])
    /\ filter (String.prefix "FAILED: Reset") (couts (trace r))
       = (if pins d io_count =? 0 then []
          else ["FAILED: Reset didn't clear counter to 0"]).
Proof.
  cbv zeta.
  destruct (timer_samples_lengths Mdl) as (_ & _ & _ & L3 & _).
  rewrite timer_couts.
  revert L3. generalize (evals (trace (Timer.run Mdl))) as es.
  generalize (pass (final (Timer.run Mdl))) as p. intros p es L3.
  destruct (timer_lines_reset es p) as [H1 H2]. rewrite H1, H2.
  assert (Hn : nth_error (timer_test3_samples es) 0 = nth_error es 53).
  { apply (nth_error_samples 52 1 es 0). lia. }
  destruct (timer_test3_samples es) as [|d [|d' l]]; try discriminate L3.
  exists d. split; [rewrite <- Hn; reflexivity|].
  cbn [flat_map]. rewrite !app_nil_r. split; reflexivity.
Qed.

(** *** The output of a passing run *)

Lemma length_failed_map {A} (ok : A -> bool) (dg : A -> string) (l : list A) :
  length (filter (fun x => negb (ok x)) l)
  = length (filter (fun c : bool * string => negb (fst c))
              (map (fun x => (ok x, dg x)) l)).
Proof.
  induction l as [|x l IH]; [reflexivity|].
  cbn [map filter fst]. destruct (negb (ok x)); cbn [length]; rewrite IH; reflexivity.
Qed.

Lemma flat_map_passing {A B} (ok : A -> bool) (f g : A -> list B) (l : list A) :
  forallb ok l = true -> (forall x, ok x = true -> f x = g x) ->
  flat_map f l = flat_map g l.
Proof.
  intros H Hfg. induction l as [|x l IH]; [reflexivity|].
  cbn [forallb] in H. apply andb_true_iff in H. destruct H as [Hx H].
  cbn [flat_map]. rewrite (Hfg x Hx), (IH H). reflexivity.
Qed.

Lemma zrange_0_20 :
  zrange 0 20 = [0; 1; 2; 3; 4; 5; 6; 7; 8; 9; 10; 11; 12; 13; 14; 15; 16; 17; 18; 19].
Proof. reflexivity. Qed.

Lemma timer_rep1_passing {I} (id : Z * Dut I) :
  timer_ok1 id = true ->
  timer_rep1 id
  = if timer_reports_progress (fst id)
    then [Timer.progress (fst id) (Timer.expected_count (fst id)) (overflow_of (snd id))]
    else [].
Proof.
  intros H. unfold timer_rep1. rewrite H. unfold timer_ok1 in H.
  apply Z.eqb_eq in H. rewrite H. reflexivity.
Qed.

Lemma timer_rep3_passing {I} (d : Dut I) :
  timer_ok3 d = true -> timer_rep3 d = ["  Reset successful, count=0 ✓"].
Proof.
  intros H. unfold timer_rep3. rewrite H. unfold timer_ok3 in H.
  apply Z.eqb_eq in H. rewrite H. reflexivity.
Qed.

Lemma timer_last_frozen {I} (c z : Z) (l : list (Dut I)) :
  length l = 5%nat -> forallb (timer_ok2 c) l = true -> last (map count_of l) z = c.
Proof.
  intros HL H. destruct (last_of_five count_of l z HL) as (d & Hd & Hl).
  rewrite Hl. rewrite forallb_forall in H.
  apply Z.eqb_eq. apply (H d). apply (nth_error_In l 4 Hd).
Qed.

Lemma timer_last_expected {I} (l : list (Dut I)) :
  length l = 20%nat -> forallb timer_ok1 (combine (zrange 0 20) l) = true ->
  last (map count_of l) 0 = 0.
Proof.
  intros HL H. rewrite zrange_0_20 in H.
  do 20 (destruct l as [|? l]; [discriminate HL|]).
  destruct l; [|discriminate HL].
  rewrite forallb_forall in H.
  match goal with
  | |- last (map count_of (_ :: _ :: _ :: _ :: _ :: _ :: _ :: _ :: _ :: _ :: _ :: _
                            :: _ :: _ :: _ :: _ :: _ :: _ :: _ :: [?d])) 0 = 0 =>
      specialize (H (19, d)); change (count_of d = 0)
  end.
  apply Z.eqb_eq. apply H. cbn [combine]. do 19 right. left. reflexivity.
Qed.

(** What a run prints when every comparison succeeds. *)
Lemma timer_lines_passing {I} (es : list (Dut I)) :
  length (timer_test1_samples es) = 20%nat ->
  length (timer_test2_samples es) = 5%nat ->
  length (timer_test3_samples es) = 1%nat ->
  forallb (fun b => b) (timer_checks es) = true ->
  exists d0 d5 d10,
    nth_error (timer_test1_samples es) 0 = Some d0
    /\ nth_error (timer_test1_samples es) 5 = Some d5
    /\ nth_error (timer_test1_samples es) 10 = Some d10
    /\ timer_lines es true
       = [ timer_hdr1;
           Timer.progress 0 1 (overflow_of d0);
           Timer.progress 5 6 (overflow_of d5);
           Timer.progress 10 1 (overflow_of d10);
           timer_hdr2;
           "  Enable=0, count frozen at 0 ✓";
           timer_hdr3;
           "  Reset successful, count=0 ✓";
           timer_hdr4;
           "  Overflow signal works correctly ✓";
           (nl ++ timer_rule)%string;
           "TEST PASSED - All tests successful!";
           "Total test cycles: 20";
           timer_rule ].
Proof.
  intros L1 L2 L3 H.
  unfold timer_checks in H. rewrite !forallb_app, !forallb_id_map, !andb_true_iff in H.
  destruct H as (H0 & H1 & H2 & H3 & H4).
  unfold timer_lines.
  rewrite (flat_map_passing timer_ok0 timer_rep0 (fun _ => []) _ H0)
    by (intros d Hd; unfold timer_rep0; rewrite Hd; reflexivity).
  rewrite (flat_map_passing _ timer_rep1 _ _ H1 (@timer_rep1_passing I)).
  rewrite (flat_map_passing _ (timer_rep2 (timer_frozen es)) (fun _ => []) _ H2)
    by (intros d Hd; unfold timer_rep2; rewrite Hd; reflexivity).
  rewrite (flat_map_passing timer_ok3 timer_rep3 _ _ H3 (@timer_rep3_passing I)).
  rewrite (flat_map_passing timer_ok4 timer_rep4 (fun _ => []) _ H4)
    by (intros d Hd; unfold timer_rep4; rewrite Hd; reflexivity).
  rewrite (flat_map_each_nil (fun _ => []) (timer_initial es)) by reflexivity.
  rewrite (flat_map_each_nil (fun _ => []) (timer_test2_samples es)) by reflexivity.
  rewrite (flat_map_each_nil (fun _ => []) (timer_test4_samples es)) by reflexivity.
  rewrite (timer_last_frozen _ 0 _ L2 H2).
  unfold timer_frozen. rewrite (timer_last_expected _ L1 H1).
  clear H0 H1 H2 H3 H4 L2.
  revert L1 L3.
  generalize (timer_test1_samples es) as l1. generalize (timer_test3_samples es) as l3.
  intros l3 l1 L1 L3.
  destruct l3 as [|d3 [|? ?]]; try discriminate L3.
  do 20 (destruct l1 as [|? l1]; [discriminate L1|]).
  destruct l1; [|discriminate L1].
  do 3 eexists. split; [reflexivity|]. split; [reflexivity|]. split; [reflexivity|].
  reflexivity.
Qed.

(** X7: a run of the counter testbench in which every comparison succeeds
    prints the same fourteen lines whatever the model, up to the io_overflow
    shown by the three progress lines (read at evaluation points 3, 13 and
    23, where nothing compares it), and returns 0. *)
Theorem timer_passing_output (Mdl : Model) :
  pass (final (Timer.run Mdl)) = true ->
  exists d0 d5 d10,
    nth_error (evals (trace (Timer.run Mdl))) 3 = Some d0
    /\ nth_error (evals (trace (Timer.run Mdl))) 13 = Some d5
    /\ nth_error (evals (trace (Timer.run Mdl))) 23 = Some d10
    /\ couts (trace (Timer.run Mdl))
       = [ "=== Test 1: 基本计数测试 (0-9) ===";
           ("  After cycle 0: count=1, overflow=" ++ dec (pins d0 io_overflow))%string;
           ("  After cycle 5: count=6, overflow=" ++ dec (pins d5 io_overflow))%string;
           ("  After cycle 10: count=1, overflow=" ++ dec (pins d10 io_overflow))%string;
           (nl ++ "=== Test 2: 使能控制测试 ===")%string;
           "  Enable=0, count frozen at 0 ✓";
           (nl ++ "=== Test 3: 计数器复位测试 ===")%string;
           "  Reset successful, count=0 ✓";
           (nl ++ "=== Test 4: 溢出信号测试 ===")%string;
           "  Overflow signal works correctly ✓";
           (nl ++ "========================================")%string;
           "TEST PASSED - All tests successful!";
           "Total test cycles: 20";
           "========================================" ]
    /\ exit_code (Timer.run Mdl) = 0.
Proof.
  intros Hp.
  destruct (timer_samples_lengths Mdl) as (_ & L1 & L2 & L3 & _).
  rewrite timer_exit, timer_couts, Hp. rewrite timer_pass in Hp.
  revert L1 L2 L3 Hp. generalize (evals (trace (Timer.run Mdl))) as es.
  intros es L1 L2 L3 Hp.
  destruct (timer_lines_passing es L1 L2 L3 Hp) as (d0 & d5 & d10 & H0 & H5 & H10 & H).
  exists d0, d5, d10.
  split; [rewrite <- H0; symmetry; apply (nth_error_samples 2 20 es 0); lia|].
  split; [rewrite <- H5; symmetry; apply (nth_error_samples 2 20 es 5); lia|].
  split; [rewrite <- H10; symmetry; apply (nth_error_samples 2 20 es 10); lia|].
  split; [|reflexivity]. rewrite H. reflexivity.
Qed.

(** X7 instantiated on the decimal counter model: it passes, and its
    progress lines show overflow 0. *)
Lemma timer_passing_output_witness :
  exists d0 d5 d10 : Dut (Z * Z),
    nth_error (evals (trace (Timer.run Models.good_timer))) 3 = Some d0
    /\ nth_error (evals (trace (Timer.run Models.good_timer))) 13 = Some d5
    /\ nth_error (evals (trace (Timer.run Models.good_timer))) 23 = Some d10
    /\ couts (trace (Timer.run Models.good_timer))
       = [ "=== Test 1: 基本计数测试 (0-9) ===";
           ("  After cycle 0: count=1, overflow=" ++ dec (pins d0 io_overflow))%string;
           ("  After cycle 5: count=6, overflow=" ++ dec (pins d5 io_overflow))%string;
           ("  After cycle 10: count=1, overflow=" ++ dec (pins d10 io_overflow))%string;
           (nl ++ "=== Test 2: 使能控制测试 ===")%string;
           "  Enable=0, count frozen at 0 ✓";
           (nl ++ "=== Test 3: 计数器复位测试 ===")%string;
           "  Reset successful, count=0 ✓";
           (nl ++ "=== Test 4: 溢出信号测试 ===")%string;
           "  Overflow signal works correctly ✓";
           (nl ++ "========================================")%string;
           "TEST PASSED - All tests successful!";
           "Total test cycles: 20";
           "========================================" ]
    /\ exit_code (Timer.run Models.good_timer) = 0.
Proof.
  assert (Hp : pass (final (Timer.run Models.good_timer)) = true)
    by (vm_compute; reflexivity).
  exact (timer_passing_output Models.good_timer Hp).
Defined.

(** *** Diagnostics and failed comparisons *)

Lemma timer_lines_diagnostics {I} (es : list (Dut I)) (p : bool) :
  length (filter (String.prefix "FAILED:") (timer_lines es p))
  = length (clears (timer_checks es)).
Proof.
  rewrite timer_lines_filter. unfold timer_checks.
  rewrite !clears_app, !length_app.
  rewrite (length_flat_map_clears timer_ok0) by sort_lines.
  rewrite (length_flat_map_clears timer_ok1) by sort_lines.
  rewrite (length_flat_map_clears (timer_ok2 (timer_frozen es))) by sort_lines.
  rewrite (length_flat_map_clears timer_ok3) by sort_lines.
  rewrite (length_flat_map_clears timer_ok4) by sort_lines.
  change (filter (String.prefix "FAILED:") [timer_hdr1]) with (@nil string).
  change (filter (String.prefix "FAILED:") [timer_hdr2]) with (@nil string).
  change (filter (String.prefix "FAILED:") [timer_hdr3]) with (@nil string).
  change (filter (String.prefix "FAILED:") [timer_hdr4]) with (@nil string).
  change (filter (String.prefix "FAILED:") [timer_frozen_line ?c]) with (@nil string).
  change (filter (String.prefix "FAILED:") ["  Overflow signal works correctly ✓"])
    with (@nil string).
  replace (filter (String.prefix "FAILED:")
             ((nl ++ timer_rule)%string :: timer_summary p 20 ++ [timer_rule]))
    with (@nil string) by (destruct p; reflexivity).
  cbn [length]. lia.
Qed.

Lemma adder_lines_diagnostics {I} (es : list (Dut I)) (p : bool) :
  length (filter (String.prefix "TEST FAILED:")
            (flat_map (fun xd => adder_report (fst xd) (snd xd)) (combine adder_pairs es)
             ++ (if p then ["--- TEST PASSED ---"] else [])))
  = length (flat_map (fun xd : Z * Z * Dut I =>
                        if adder_matches (fst xd) (snd xd) then [] else [false])
              (combine adder_pairs es)).
Proof.
  rewrite filter_app, length_app, filter_flat_map_each.
  rewrite (length_flat_map_clears (fun xd : Z * Z * Dut I => adder_matches (fst xd) (snd xd)))
    by sort_lines.
  rewrite clears_map.
  replace (filter (String.prefix "TEST FAILED:") (if p then ["--- TEST PASSED ---"] else []))
    with (@nil string) by (destruct p; reflexivity).
  cbn [length]. lia.
Qed.

Lemma reg_lines_diagnostics {I} (es : list (Dut I)) (p : bool) :
  length (filter (String.prefix "Error at test case")
            (flat_map (fun xd => reg_report (fst xd) (snd xd))
               (combine reg_indexed_cases (reg_samples es))
             ++ [reg_summary p]))
  = length (flat_map (fun xd : Z * Reg.TestCase * Dut I =>
                        if reg_matches (fst xd) (snd xd) then [] else [false])
              (combine reg_indexed_cases (reg_samples es))).
Proof.
  rewrite filter_app, length_app, filter_flat_map_each.
  rewrite (length_flat_map_clears
             (fun xd : Z * Reg.TestCase * Dut I => reg_matches (fst xd) (snd xd)))
    by sort_lines.
  rewrite clears_map.
  replace (filter (String.prefix "Error at test case") [reg_summary p])
    with (@nil string) by (destruct p; reflexivity).
  cbn [length]. lia.
Qed.

(** X8: in each of the three testbenches the diagnostic lines of a run
    (those that begin with "TEST FAILED:", "Error at test case" and
    "FAILED:" respectively) are as many as the assignments of false to the
    verdict, that is as the comparisons that failed: no diagnostic is
    printed without a failed comparison, and none is printed twice. *)
Theorem one_diagnostic_per_failed_comparison (Mdl : Model) :
  (length (filter (String.prefix "TEST FAILED:") (couts (trace (Adder.run Mdl))))
   = length (assigns (trace (Adder.run Mdl)))
   /\ length (assigns (trace (Adder.run Mdl)))
      = length (filter (fun c => negb (fst c))
                  (adder_comparisons (evals (trace (Adder.run Mdl))))))
  /\ (length (filter (String.prefix "Error at test case") (couts (trace (Reg.run Mdl))))
      = length (assigns (trace (Reg.run Mdl)))
      /\ length (assigns (trace (Reg.run Mdl)))
         = length (filter (fun c => negb (fst c))
                     (reg_comparisons (evals (trace (Reg.run Mdl))))))
  /\ (length (filter (String.prefix "FAILED:") (couts (trace (Timer.run Mdl))))
      = length (assigns (trace (Timer.run Mdl)))
      /\ length (assigns (trace (Timer.run Mdl)))
         = length (filter (fun c => negb (fst c))
                     (timer_comparisons (evals (trace (Timer.run Mdl)))))).
Proof.
  split; [|split]; split.
  - rewrite adder_couts, adder_assigns. apply adder_lines_diagnostics.
  - rewrite adder_assigns. unfold adder_comparisons.
    rewrite length_clears. apply length_failed_map.
  - rewrite reg_couts, reg_assigns. apply reg_lines_diagnostics.
  - rewrite reg_assigns. unfold reg_comparisons.
    rewrite length_clears. apply length_failed_map.
  - rewrite timer_couts, timer_assigns. apply timer_lines_diagnostics.
  - rewrite timer_assigns, <- timer_comparisons_checks.
    unfold clears. rewrite (length_clears (fun b : bool => b)).
    generalize (timer_comparisons (evals (trace (Timer.run Mdl)))) as cs.
    intros cs. induction cs as [|c cs IH]; [reflexivity|].
    cbn [map filter]. destruct (negb (fst c)); cbn [length]; rewrite IH; reflexivity.
Qed.

(** ** The waveform of the register testbench *)

Lemma reg_sim_time (Mdl : Model) : locals (final (Reg.run Mdl)) = 10.
Proof.
  assert (H : exists F, Drives (Reg.main Mdl) F /\ snd (F 0) = 10).
  { eexists. split.
    - unfold Reg.main, Reg.prologue, Reg.epilogue, Reg.body, Reg.dump. drive.
    - vm_compute. reflexivity. }
  destruct H as [F [HF HS]]. rewrite <- HS. apply (HF (Reg.init Mdl)).
Qed.

Lemma reg_script_dumped (k : nat) :
  nth_error reg_script k = Some OpEval ->
  nth_error reg_script (S k)
  = Some (OpVcd (VcdDump (Z.of_nat (length (filter is_eval (firstn k reg_script)))))).
Proof.
  intros H.
  do 46 (destruct k as [|k]; [vm_compute in H |- *; first [discriminate H | reflexivity]|]).
  destruct k; vm_compute in H; discriminate H.
Qed.

(** X9: whatever the model does, the register testbench attaches and
    opens the recorder before it touches the model, and dumps every
    evaluation point right after the evaluation, before any other
    operation, at the time that is the index of the evaluation: the
    waveform holds the ten evaluation points of the run at times 0 to 9,
    and sim_time is 10 when the run ends. *)
Theorem reg_every_evaluation_dumped (Mdl : Model) :
  let o := ops (trace (Reg.run Mdl)) in
  firstn 2 o = [OpVcd (VcdTrace 5); OpVcd (VcdOpen "waveform.vcd")]
  /\ (forall k, nth_error o k = Some OpEval ->
        nth_error o (S k)
        = Some (OpVcd (VcdDump (Z.of_nat (length (filter is_eval (firstn k o)))))))
  /\ filter (fun x => is_eval x || is_dump x) o
     = flat_map (fun t => [OpEval; OpVcd (VcdDump t)]) (zrange 0 10)
  /\ length (evals (trace (Reg.run Mdl))) = 10%nat
  /\ locals (final (Reg.run Mdl)) = 10.
Proof.
  cbv zeta. rewrite reg_ops.
  split; [reflexivity|].
  split; [exact reg_script_dumped|].
  split; [reflexivity|].
  split; [apply reg_evals_length | apply reg_sim_time].
Qed.

(** ** The inputs a model has been given at each evaluation point *)

(** The members the testbenches assign; the others ([io_c], [io_q],
    [io_count], [io_overflow]) they only read. *)
Definition assigned (p : Pin) : bool :=
  match p with
  | io_c | io_q | io_count | io_overflow => false
  | _ => true
  end.

(** A model whose [eval()] leaves the assigned members as it finds them. *)
Definition keeps_inputs (Mdl : Model) : Prop :=
  forall d p, assigned p = true -> pins (model_eval Mdl d) p = pins d p.

(** The value a member holds at each evaluation of a script, [v] being its
    value before the script: the last value written to it. *)
Fixpoint pin_history (p : Pin) (script : list Op) (v : Z) : list Z :=
  match script with
  | [] => []
  | OpWrite q w :: k => pin_history p k (if Pin_eq_dec p q then w else v)
  | OpEval :: k => v :: pin_history p k v
  | OpVcd _ :: k => pin_history p k v
  | OpDelete :: k => pin_history p k v
  end.

Lemma responses_pin_history {I} (step : Dut I -> Dut I) (p : Pin) :
  (forall d, pins (step d) p = pins d p) ->
  forall script d,
    map (fun d' => pins d' p) (responses step script d)
    = pin_history p script (pins d p).
Proof.
  intros Hk script. induction script as [|o k IH]; intros d; [reflexivity|].
  destruct o; cbn [responses pin_history map].
  - rewrite IH. reflexivity.
  - rewrite IH, Hk. reflexivity.
  - apply IH.
  - apply IH.
Qed.

Lemma map_falling {A B} (g : A -> B) (l : list A) :
  map g (falling l) = falling (map g l).
Proof.
  enough (H : map g (falling l) = falling (map g l)
              /\ forall a, map g (falling (a :: l)) = falling (map g (a :: l)))
    by apply H.
  induction l as [|x l [IH1 IH2]].
  - split; [reflexivity | intros a; reflexivity].
  - split; [apply IH2|]. intros a. cbn [falling map]. rewrite IH1. reflexivity.
Qed.

Lemma map_window {A B} (g : A -> B) (from len : nat) (l : list A) :
  map g (window from len l) = window from len (map g l).
Proof. unfold window. rewrite <- firstn_map, <- skipn_map. reflexivity. Qed.

Lemma Forall_of_map_repeat {A} (g : A -> Z) (c : Z) (n : nat) (l : list A) :
  map g l = repeat c n -> Forall (fun d => g d = c) l.
Proof.
  revert n. induction l as [|x l IH]; intros n H; [constructor|].
  destruct n as [|n]; [discriminate H|]. cbn [map repeat] in H. injection H as H1 H2.
  constructor; [exact H1 | exact (IH n H2)].
Qed.

(** The four inputs of the counter as an evaluation point shows them. *)
Definition timer_inputs {I} (clk rst en rc : Z) (d : Dut I) : Prop :=
  pins d clock = clk /\ pins d reset = rst
  /\ pins d io_enable = en /\ pins d io_reset_count = rc.

Lemma Forall_timer_inputs {I} (clk rst en rc : Z) (n : nat) (l : list (Dut I)) :
  map (fun d => pins d clock) l = repeat clk n ->
  map (fun d => pins d reset) l = repeat rst n ->
  map (fun d => pins d io_enable) l = repeat en n ->
  map (fun d => pins d io_reset_count) l = repeat rc n ->
  Forall (timer_inputs clk rst en rc) l.
Proof.
  intros H1 H2 H3 H4.
  apply Forall_of_map_repeat in H1, H2, H3, H4.
  rewrite Forall_forall in *. intros d Hd.
  repeat split; [apply H1 | apply H2 | apply H3 | apply H4]; exact Hd.
Qed.

Section TimerInputs.
Variable Mdl : Model.
Hypothesis Hk : keeps_inputs Mdl.

Lemma timer_pin_history (p : Pin) :
  assigned p = true ->
  map (fun d => pins d p) (evals (trace (Timer.run Mdl)))
  = pin_history p timer_script (pins (new_dut Mdl) p).
Proof.
  intros Hp. rewrite timer_evals_responses. apply responses_pin_history.
  intros d. apply Hk. exact Hp.
Qed.

Lemma timer_sampled_pin (p : Pin) (from len : nat) :
  assigned p = true ->
  map (fun d => pins d p) (falling (window from len (evals (trace (Timer.run Mdl)))))
  = falling (window from len (pin_history p timer_script (pins (new_dut Mdl) p))).
Proof.
  intros Hp. rewrite map_falling, map_window, (timer_pin_history p Hp). reflexivity.
Qed.

End TimerInputs.

(** X10: with a counter model whose eval() leaves its inputs alone, the
    evaluation points the comparisons read show the clock low and the reset
    released, and: enable and reset-count low at the initial check; enable
    high and reset-count low after every period of Test 1 and of Test 4;
    enable low after every period of Test 2; enable and reset-count high
    after the period of Test 3. *)
Theorem timer_inputs_at_compared_points (Mdl : Model) :
  keeps_inputs Mdl ->
  let es := evals (trace (Timer.run Mdl)) in
  Forall (timer_inputs 0 0 0 0) (timer_initial es)
  /\ Forall (timer_inputs 0 0 1 0) (timer_test1_samples es)
  /\ Forall (timer_inputs 0 0 0 0) (timer_test2_samples es)
  /\ Forall (timer_inputs 0 0 1 1) (timer_test3_samples es)
  /\ Forall (timer_inputs 0 0 1 0) (timer_test4_samples es).
Proof.
  intros Hk. cbv zeta.
  split; [|split; [|split; [|split]]].
  - unfold timer_initial. apply (Forall_timer_inputs 0 0 0 0 1);
      rewrite map_window, (timer_pin_history Mdl Hk) by reflexivity; reflexivity.
  - apply (Forall_timer_inputs 0 0 1 0 20); unfold timer_test1_samples;
      rewrite (timer_sampled_pin Mdl Hk) by reflexivity; reflexivity.
  - apply (Forall_timer_inputs 0 0 0 0 5); unfold timer_test2_samples;
      rewrite (timer_sampled_pin Mdl Hk) by reflexivity; reflexivity.
  - apply (Forall_timer_inputs 0 0 1 1 1); unfold timer_test3_samples;
      rewrite (timer_sampled_pin Mdl Hk) by reflexivity; reflexivity.
  - apply (Forall_timer_inputs 0 0 1 0 10); unfold timer_test4_samples;
      rewrite (timer_sampled_pin Mdl Hk) by reflexivity; reflexivity.
Qed.

Lemma good_timer_keeps_inputs : keeps_inputs Models.good_timer.
Proof. intros d p Hp. destruct p; try discriminate Hp; reflexivity. Qed.

(** X10 instantiated on the decimal counter model. *)
Lemma timer_inputs_at_compared_points_witness :
  let es := evals (trace (Timer.run Models.good_timer)) in
  Forall (timer_inputs 0 0 0 0) (timer_initial es)
  /\ Forall (timer_inputs 0 0 1 0) (timer_test1_samples es)
  /\ Forall (timer_inputs 0 0 0 0) (timer_test2_samples es)
  /\ Forall (timer_inputs 0 0 1 1) (timer_test3_samples es)
  /\ Forall (timer_inputs 0 0 1 0) (timer_test4_samples es).
Proof.
  exact (timer_inputs_at_compared_points Models.good_timer good_timer_keeps_inputs).
Defined.

(** *** The register *)

Section RegInputs.
Variable Mdl : Model.
Hypothesis Hk : keeps_inputs Mdl.

Lemma reg_pin_history (p : Pin) :
  assigned p = true ->
  map (fun d => pins d p) (evals (trace (Reg.run Mdl)))
  = pin_history p reg_script (pins (new_dut Mdl) p).
Proof.
  intros Hp. rewrite reg_evals_responses. apply responses_pin_history.
  intros d. apply Hk. exact Hp.
Qed.

Lemma reg_sampled_pin (p : Pin) :
  assigned p = true ->
  map (fun d => pins d p) (reg_samples (evals (trace (Reg.run Mdl))))
  = falling (window 2 8 (pin_history p reg_script (pins (new_dut Mdl) p))).
Proof.
  intros Hp. unfold reg_samples.
  rewrite map_falling, map_window, (reg_pin_history p Hp). reflexivity.
Qed.

Lemma reg_reset_pin (p : Pin) :
  assigned p = true ->
  map (fun d => pins d p) (firstn 2 (evals (trace (Reg.run Mdl))))
  = firstn 2 (pin_history p reg_script (pins (new_dut Mdl) p)).
Proof. intros Hp. rewrite <- firstn_map, (reg_pin_history p Hp). reflexivity. Qed.

End RegInputs.

Lemma map_four {A} (f1 f2 f3 f4 : A -> Z) (l : list A) :
  map (fun d => (f1 d, f2 d, f3 d, f4 d)) l
  = combine (combine (combine (map f1 l) (map f2 l)) (map f3 l)) (map f4 l).
Proof. induction l as [|x l IH]; [reflexivity|]. cbn. rewrite IH. reflexivity. Qed.

(** X11: with a register model whose eval() leaves its inputs alone, the
    evaluation point each comparison reads shows the clock low, the
    top-level reset released, and the io_reset and io_d of its test case.
    The two evaluations of the initial reset are made with reset and
    io_reset high and with the io_d the constructor left: the testbench
    has not written io_d yet. *)
Theorem reg_inputs_at_evaluation_points (Mdl : Model) :
  keeps_inputs Mdl ->
  let es := evals (trace (Reg.run Mdl)) in
  let inputs (d : Dut (core_t Mdl)) :=
    (pins d clock, pins d reset, pins d io_reset, pins d io_d) in
  map inputs (reg_samples es)
  = map (fun tc => (0, 0, Z.b2z (Reg.tc_io_reset tc), Reg.tc_d tc)) Reg.test_cases
  /\ map inputs (firstn 2 es)
     = [ (0, 1, 1, pins (new_dut Mdl) io_d); (1, 1, 1, pins (new_dut Mdl) io_d) ].
Proof.
  intros Hk. cbv zeta. split.
  - rewrite map_four, !(reg_sampled_pin Mdl Hk) by reflexivity. reflexivity.
  - rewrite map_four, !(reg_reset_pin Mdl Hk) by reflexivity. reflexivity.
Qed.

Lemma good_reg_keeps_inputs : keeps_inputs Models.good_reg.
Proof. intros d p Hp. destruct p; try discriminate Hp; reflexivity. Qed.

(** X11 instantiated on the register model. *)
Lemma reg_inputs_at_evaluation_points_witness :
  map (fun d : Dut (Z * Z) => (pins d clock, pins d reset, pins d io_reset, pins d io_d))
    (reg_samples (evals (trace (Reg.run Models.good_reg))))
  = [ (0, 0, 1, 10); (0, 0, 0, 10); (0, 0, 1, 5); (0, 0, 0, 5) ]
  /\ map (fun d : Dut (Z * Z) => (pins d clock, pins d reset, pins d io_reset, pins d io_d))
       (firstn 2 (evals (trace (Reg.run Models.good_reg))))
     = [ (0, 1, 1, 0); (1, 1, 1, 0) ].
Proof.
  exact (reg_inputs_at_evaluation_points Models.good_reg good_reg_keeps_inputs).
Defined.

(** ** What the counter testbench observes of a model *)

(** Two evaluation points that read alike: same io_count, same
    io_overflow. *)
Definition same_readings {I1 I2} (d1 : Dut I1) (d2 : Dut I2) : Prop :=
  count_of d1 = count_of d2 /\ overflow_of d1 = overflow_of d2.

Lemma Forall2_of_maps {A B C} (f : A -> C) (g : B -> C) (l1 : list A) (l2 : list B) :
  map f l1 = map g l2 -> Forall2 (fun a b => f a = g b) l1 l2.
Proof.
  revert l2. induction l1 as [|a l1 IH]; intros [|b l2] H; try discriminate H;
    [constructor|].
  cbn [map] in H. injection H as H1 H2. constructor; [exact H1 | exact (IH l2 H2)].
Qed.

Lemma Forall2_flat_map_eq {A B C} (R : A -> B -> Prop) (f : A -> list C)
    (g : B -> list C) (l1 : list A) (l2 : list B) :
  (forall a b, R a b -> f a = g b) -> Forall2 R l1 l2 -> flat_map f l1 = flat_map g l2.
Proof.
  intros Hfg H. induction H as [|a b l1 l2 Hab H IH]; [reflexivity|].
  cbn [flat_map]. rewrite (Hfg a b Hab), IH. reflexivity.
Qed.

Lemma Forall2_flat_map_combine_eq {X A B C} (R : A -> B -> Prop)
    (f : X * A -> list C) (g : X * B -> list C) (xs : list X)
    (l1 : list A) (l2 : list B) :
  (forall x a b, R a b -> f (x, a) = g (x, b)) ->
  Forall2 R l1 l2 -> flat_map f (combine xs l1) = flat_map g (combine xs l2).
Proof.
  intros Hfg H. revert xs. induction H as [|a b l1 l2 Hab H IH]; intros [|x xs];
    try reflexivity.
  cbn [combine flat_map]. rewrite (Hfg x a b Hab), IH. reflexivity.
Qed.

Lemma timer_lines_same_readings {I1 I2} (es1 : list (Dut I1)) (es2 : list (Dut I2))
    (p : bool) :
  Forall2 same_readings es1 es2 -> timer_lines es1 p = timer_lines es2 p.
Proof.
  intros H.
  assert (Hc : forall from len,
             map count_of (falling (window from len es1))
             = map count_of (falling (window from len es2))).
  { intros from len. apply (Forall2_map_eq same_readings); [intros a b [E _]; exact E|].
    apply Forall2_falling, Forall2_window, H. }
  assert (Hf : timer_frozen es1 = timer_frozen es2).
  { unfold timer_frozen, timer_test1_samples. rewrite Hc. reflexivity. }
  unfold timer_lines. rewrite Hf. unfold timer_test2_samples at 2 4. rewrite Hc.
  f_equal; [|f_equal; [|f_equal; [|f_equal]]].
  - f_equal. f_equal.
    + apply (Forall2_flat_map_eq same_readings).
      * intros a b [E _]. unfold timer_rep0, timer_ok0. rewrite E. reflexivity.
      * apply Forall2_window, H.
    + apply (Forall2_flat_map_combine_eq same_readings).
      * intros x a b [E E']. unfold timer_rep1, timer_ok1. cbn [fst snd].
        rewrite E, E'. reflexivity.
      * apply Forall2_falling, Forall2_window, H.
  - f_equal. f_equal.
    apply (Forall2_flat_map_eq same_readings).
    + intros a b [E _]. unfold timer_rep2, timer_ok2. rewrite E. reflexivity.
    + apply Forall2_falling, Forall2_window, H.
  - f_equal.
    apply (Forall2_flat_map_eq same_readings).
    + intros a b [E _]. unfold timer_rep3, timer_ok3. rewrite E. reflexivity.
    + apply Forall2_falling, Forall2_window, H.
  - f_equal. f_equal.
    apply (Forall2_flat_map_eq same_readings).
    + intros a b [E E']. unfold timer_rep4, timer_ok4. rewrite E, E'. reflexivity.
    + apply Forall2_falling, Forall2_window, H.
Qed.

Lemma same_readings_agree {I1 I2} (es1 : list (Dut I1)) (es2 : list (Dut I2)) :
  Forall2 same_readings es1 es2 -> Forall2 agree_off_nine es1 es2.
Proof.
  intros H. induction H as [|a b l1 l2 [E E'] H IH]; constructor; [|exact IH].
  split; [exact E | intros _; exact E'].
Qed.

(** X12: the counter testbench observes nothing of a model but io_count
    and io_overflow at the evaluation points: two models whose evaluation
    points show the same two values, whatever else differs in them, make it
    print the same lines, assign the verdict alike and return the same exit
    status. *)
Theorem timer_observes_count_and_overflow (M1 M2 : Model) :
  map (fun d => (pins d io_count, pins d io_overflow)) (evals (trace (Timer.run M1)))
  = map (fun d => (pins d io_count, pins d io_overflow)) (evals (trace (Timer.run M2))) ->
  couts (trace (Timer.run M1)) = couts (trace (Timer.run M2))
  /\ assigns (trace (Timer.run M1)) = assigns (trace (Timer.run M2))
  /\ exit_code (Timer.run M1) = exit_code (Timer.run M2).
Proof.
  intros H.
  assert (HR : Forall2 same_readings
                 (evals (trace (Timer.run M1))) (evals (trace (Timer.run M2)))).
  { apply Forall2_of_maps in H. revert H.
    generalize (evals (trace (Timer.run M1))) as es1.
    generalize (evals (trace (Timer.run M2))) as es2. intros es2 es1 H.
    induction H as [|a b l1 l2 Hab H IH]; constructor; [|exact IH].
    injection Hab as E E'. split; assumption. }
  assert (Hc : timer_checks (evals (trace (Timer.run M1)))
               = timer_checks (evals (trace (Timer.run M2)))).
  { apply timer_checks_agree, same_readings_agree, HR. }
  assert (Hp : pass (final (Timer.run M1)) = pass (final (Timer.run M2))).
  { rewrite !timer_pass, Hc. reflexivity. }
  split; [|split].
  - rewrite !timer_couts, Hp. apply timer_lines_same_readings, HR.
  - rewrite !timer_assigns, Hc. reflexivity.
  - rewrite !timer_exit, Hp. reflexivity.
Qed.

(** X12 instantiated: the decimal counter and a counter that also drives
    io_q read alike, and print the same lines. *)
Lemma timer_observes_count_and_overflow_witness :
  let noisy :=
    mkModel (Z * Z) (new_dut Models.good_timer)
      (fun d => set io_q 7 (model_eval Models.good_timer d)) in
  couts (trace (Timer.run Models.good_timer)) = couts (trace (Timer.run noisy))
  /\ assigns (trace (Timer.run Models.good_timer)) = assigns (trace (Timer.run noisy))
  /\ exit_code (Timer.run Models.good_timer) = exit_code (Timer.run noisy).
Proof.
  cbv zeta.
  refine (timer_observes_count_and_overflow Models.good_timer _ _).
  vm_compute. reflexivity.
Defined.

(** ** The reset of the counter (lines 13-21) *)

Lemma Forall_of_two_maps {A} (f g : A -> Z) (P : Z -> Z -> bool) (l : list A)
    (lf lg : list Z) :
  map f l = lf -> map g l = lg ->
  forallb (fun c => P (fst c) (snd c)) (combine lf lg) = true ->
  Forall (fun d => P (f d) (g d) = true) l.
Proof.
  intros Hf Hg. subst lf lg. induction l as [|x l IH]; intros H; [constructor|].
  cbn [map combine forallb fst snd] in H. apply andb_true_iff in H.
  destruct H as [H1 H2]. constructor; [exact H1 | exact (IH H2)].
Qed.

(** X13: with a counter model whose eval() leaves its inputs alone, the
    top-level reset is high at the first evaluation point only, which is
    made with the clock low, and it is released before the clock first
    rises: the 37 clock periods of the run (clock high, then low) are all
    evaluated with reset low, so that no rising edge of the clock ever
    finds reset asserted. *)
Theorem timer_reset_never_clocked (Mdl : Model) :
  keeps_inputs Mdl ->
  let es := evals (trace (Timer.run Mdl)) in
  map (fun d => pins d reset) es = 1 :: repeat 0 75
  /\ map (fun d => pins d clock) es = 0 :: 0 :: concat (repeat [1; 0] 37)
  /\ Forall (fun d => pins d clock = 1 -> pins d reset = 0) es.
Proof.
  intros Hk. cbv zeta.
  assert (Hr : map (fun d => pins d reset) (evals (trace (Timer.run Mdl)))
               = 1 :: repeat 0 75)
    by (rewrite (timer_pin_history Mdl Hk) by reflexivity; reflexivity).
  assert (Hc : map (fun d => pins d clock) (evals (trace (Timer.run Mdl)))
               = 0 :: 0 :: concat (repeat [1; 0] 37))
    by (rewrite (timer_pin_history Mdl Hk) by reflexivity; reflexivity).
  split; [exact Hr|]. split; [exact Hc|].
  revert Hr Hc. generalize (evals (trace (Timer.run Mdl))) as es. intros es Hr Hc.
  assert (H : Forall (fun d => implb (pins d clock =? 1) (pins d reset =? 0) = true) es).
  { apply (Forall_of_two_maps (fun d => pins d clock) (fun d => pins d reset)
             (fun c r => implb (c =? 1) (r =? 0)) es _ _ Hc Hr).
    reflexivity. }
  rewrite Forall_forall in *. intros d Hd Hclk. specialize (H d Hd).
  rewrite Hclk in H. cbn [Z.eqb Pos.eqb implb] in H. apply Z.eqb_eq. exact H.
Qed.

(** X13 instantiated on the decimal counter model. *)
Lemma timer_reset_never_clocked_witness :
  let es := evals (trace (Timer.run Models.good_timer)) in
  map (fun d => pins d reset) es = 1 :: repeat 0 75
  /\ map (fun d => pins d clock) es = 0 :: 0 :: concat (repeat [1; 0] 37)
  /\ Forall (fun d => pins d clock = 1 -> pins d reset = 0) es.
Proof.
  exact (timer_reset_never_clocked Models.good_timer good_timer_keeps_inputs).
Defined.
